(** * ai2mysql-mcp-server: the permission-gated SQL gateway and its MCP dispatcher

    A shallow embedding of

    - [pkg/db/db.go]                         (the Database Gateway: [Query], [Execute]),
    - [cmd/ai2mysql-mcp-server/mcp_server.go] (the line-delimited JSON-RPC dispatcher),
    - the go-mcp based server                 ([handleQuery], [handleExecute]),

    and the properties of the specification that concern them.

    Go strings are byte sequences and are modelled by [string]; Go errors
    are values and keep their origin; the MySQL server and the parts of the
    Go standard library that are not re-implemented here are interfaces
    ([Class]es) over which every statement is universally quantified. *)

From Stdlib Require Import String Ascii ZArith List Bool Lia.
From stdpp Require Import base option list gmap strings pretty.
Import ListNotations.

Set Warnings "-register-all".

Local Open Scope string_scope.
Local Open Scope list_scope.

(** ** The Go standard library, as far as the program uses it *)

Module GoStrings.

(** Bytes of 0x80 and above send [strings.ToUpper], [strings.ToLower] and
    [strings.TrimSpace] to their Unicode paths, which consult the tables of
    package [unicode].  Those tables are an interface here. *)
Class Unicode := {
  (** [strings.Map(unicode.ToUpper, s)] *)
  Map_ToUpper : string -> string;
  (** [strings.Map(unicode.ToLower, s)] *)
  Map_ToLower : string -> string;
  (** [strings.TrimFunc(s, unicode.IsSpace)] *)
  TrimFunc_IsSpace : string -> string;
  (** [strings.TrimRightFunc(s, unicode.IsSpace)] *)
  TrimRightFunc_IsSpace : string -> string
}.

Definition byte_between (lo hi c : ascii) : bool :=
  Ascii.leb lo c && Ascii.leb c hi.

(** [c >= utf8.RuneSelf] *)
Definition nonASCII (c : ascii) : bool := Ascii.leb "128" c.

Fixpoint isASCII (s : string) : bool :=
  match s with
  | EmptyString => true
  | String c r => negb (nonASCII c) && isASCII r
  end.

Definition upperByte (c : ascii) : ascii :=
  if byte_between "a" "z" c
  then ascii_of_nat (nat_of_ascii c - 32)
  else c.

Definition lowerByte (c : ascii) : ascii :=
  if byte_between "A" "Z" c
  then ascii_of_nat (nat_of_ascii c + 32)
  else c.

Fixpoint mapBytes (f : ascii -> ascii) (s : string) : string :=
  match s with
  | EmptyString => EmptyString
  | String c r => String (f c) (mapBytes f r)
  end.

(** The table [asciiSpace] of package [strings]. *)
Definition asciiSpace (c : ascii) : bool :=
  match nat_of_ascii c with
  | 9 | 10 | 11 | 12 | 13 | 32 => true
  | _ => false
  end.

(** What the scan from the right end of [strings.TrimSpace] finds. *)
Inductive rscan :=
| AllSpace                 (* [stop] came down to [start] *)
| Stopped (kept : string)  (* an ASCII byte that is no space: [s[start:stop]] *)
| Escaped (kept : string). (* a byte >= 0x80: [s[start:stop]] goes to TrimRightFunc *)

Fixpoint scanRight (s : string) : rscan :=
  match s with
  | EmptyString => AllSpace
  | String c r =>
      match scanRight r with
      | Stopped t => Stopped (String c t)
      | Escaped t => Escaped (String c t)
      | AllSpace =>
          if nonASCII c then Escaped (String c EmptyString)
          else if asciiSpace c then AllSpace
          else Stopped (String c EmptyString)
      end
  end.

Definition HasPrefix (s prefix : string) : bool := String.prefix prefix s.

(** A byte map that keeps the ASCII range and the spaces, as the two case
    maps do; and such a map on what the scan from the right found. *)
Definition keeps (f : ascii -> ascii) : Prop :=
  forall c, nonASCII (f c) = nonASCII c /\ asciiSpace (f c) = asciiSpace c.

Definition map_rscan (f : ascii -> ascii) (r : rscan) : rscan :=
  match r with
  | AllSpace => AllSpace
  | Stopped t => Stopped (mapBytes f t)
  | Escaped t => Escaped (mapBytes f t)
  end.

Section WithUnicode.
Context {U : Unicode}.

Definition ToUpper (s : string) : string :=
  if isASCII s then mapBytes upperByte s else Map_ToUpper s.

Definition ToLower (s : string) : string :=
  if isASCII s then mapBytes lowerByte s else Map_ToLower s.

Definition trimRight (s : string) : string :=
  match scanRight s with
  | AllSpace => EmptyString
  | Stopped t => t
  | Escaped t => TrimRightFunc_IsSpace t
  end.

(** [strings.TrimSpace]: the scan from the left, then [trimRight] on
    [s[start:]]. *)
Fixpoint TrimSpace (s : string) : string :=
  match s with
  | EmptyString => EmptyString
  | String c r =>
      if nonASCII c then TrimFunc_IsSpace s
      else if asciiSpace c then TrimSpace r
      else trimRight s
  end.

End WithUnicode.

(** [s[:n]]: a slice expression out of range panics. *)
Definition slice_to (s : string) (n : nat) : option string :=
  if Nat.leb n (String.length s) then Some (String.substring 0 n s) else None.

End GoStrings.

Import GoStrings.

(** An instance for closed examples.  Every example below is over ASCII
    strings, for which the four functions are never called. *)
Definition ascii_only : Unicode :=
  {| Map_ToUpper := fun s => s;
     Map_ToLower := fun s => s;
     TrimFunc_IsSpace := fun s => s;
     TrimRightFunc_IsSpace := fun s => s |}.

(** ** A state monad for the effects of the program *)

Definition State (S A : Type) : Type := S -> A * S.

Definition ret {S A} (a : A) : State S A := fun s => (a, s).

Definition bind {S A B} (c : State S A) (k : A -> State S B) : State S B :=
  fun s => let (a, s') := c s in k a s'.

Declare Scope go_scope.
Delimit Scope go_scope with go.
Notation "x <- c ;; k" := (bind c (fun x => k))
  (at level 100, c at next level, right associativity) : go_scope.
Notation "c ;;; k" := (bind c (fun _ => k))
  (at level 100, right associativity) : go_scope.

(** ** pkg/config *)

Module config.

Record DBConfig := {
  Host : string;
  Port : Z;
  User : string;
  Password : string;
  DBName : string
}.

Record Permission := {
  AllowQuery : bool;
  AllowInsert : bool;
  AllowUpdate : bool;
  AllowDelete : bool
}.

Record Config := {
  Databases : gmap string DBConfig;
  Config_Permission : Permission
}.

Definition DefaultConfig : Config :=
  {| Databases :=
       {[ "default" := {| Host := "localhost"; Port := 3306; User := "root";
                          Password := ""; DBName := "test" |} ]};
     Config_Permission :=
       {| AllowQuery := true; AllowInsert := false;
          AllowUpdate := false; AllowDelete := false |} |}.

End config.

(** ** database/sql, seen from its caller *)

Module sql.

(** The dynamic type of a scanned cell ([driver.Value]). *)
Inductive Value :=
| VNil
| VInt (n : Z)
| VFloat (bits : Z)
| VBool (b : bool)
| VBytes (b : string)
| VString (s : string)
| VTime (nanos : Z).

(** A cursor ([*sql.Rows]): the answer of [Columns], the rows that [Next]
    steps through in order, and the answer of [Err] after the last one. *)
Record Rows := {
  rows_Columns : list string + string;
  rows_fetched : list (list Value);
  rows_Err : option string
}.

(** [rows.Scan(dest...)] into [n] destinations of type [*interface{}]:
    the only check is on the number of destinations. *)
Definition Scan (row : list Value) (n : nat) : list Value + string :=
  if Nat.eqb (length row) n then inl row
  else inr ("sql: expected " +:+ pretty (length row)
            +:+ " destination arguments in Scan, not " +:+ pretty n).

(** [sql.Result]: both methods return a number and an error. *)
Record Result := {
  RowsAffected : Z * option string;
  LastInsertId : Z * option string
}.

(** What reached the MySQL server. *)
Inductive call (DB : Type) :=
| CallQuery (h : DB) (query : string) (args : list Value)
| CallExec (h : DB) (query : string) (args : list Value).
Arguments CallQuery {DB} h query args.
Arguments CallExec {DB} h query args.

(** The server behind the handles.  Its answer may depend on everything
    that was sent to it before. *)
Class Backend := {
  DB : Type;
  server_Query : list (call DB) -> DB -> string -> list Value -> Rows + string;
  server_Exec : list (call DB) -> DB -> string -> list Value -> Result + string
}.

Section WithBackend.
Context {B : Backend}.

Definition history : Type := list (call DB).

(** [db.Query(query, args...)] *)
Definition Query (h : DB) (query : string) (args : list Value)
  : State history (Rows + string) :=
  fun past => (server_Query past h query args, past ++ [CallQuery h query args]).

(** [db.Exec(query, args...)] *)
Definition Exec (h : DB) (query : string) (args : list Value)
  : State history (Result + string) :=
  fun past => (server_Exec past h query args, past ++ [CallExec h query args]).

End WithBackend.

End sql.

(** ** pkg/db *)

Module db.
Import config.

Local Open Scope go_scope.

Inductive error :=
| errorString (s : string)   (* made by [fmt.Errorf] in this package *)
| driverError (s : string).  (* handed up from database/sql *)

Definition Error (e : error) : string :=
  match e with errorString s | driverError s => s end.

Record QueryResult := {
  Columns : list string;
  Rows : list (list sql.Value);
  QueryResult_Error : string
}.

Record ExecuteResult := {
  RowsAffected : Z;
  LastInsertID : Z;
  ExecuteResult_Error : string
}.

(** What [Query] and [Execute] return: a result and no error, or an error
    next to [nil] or to a result that only carries the error text. *)
Inductive returned (R : Type) :=
| Ok (result : R)
| Failed (result : option R) (err : error).
Arguments Ok {R} result.
Arguments Failed {R} result err.

(** [&QueryResult{Error: err.Error()}] *)
Definition queryFailed (e : error) : QueryResult :=
  {| Columns := []; Rows := []; QueryResult_Error := Error e |}.

(** [&ExecuteResult{Error: err.Error()}] *)
Definition executeFailed (e : error) : ExecuteResult :=
  {| RowsAffected := 0; LastInsertID := 0; ExecuteResult_Error := Error e |}.

(** The cell conversion of [Query]: [nil] stays [nil], [[]byte] becomes
    [string], anything else is stored as it is. *)
Definition convertCell (v : sql.Value) : sql.Value :=
  match v with
  | sql.VNil => sql.VNil
  | sql.VBytes b => sql.VString b
  | _ => v
  end.

(** The loop [for rows.Next()] of [Query], from the rows collected so far. *)
Fixpoint scanRows (columns : list string) (fetched : list (list sql.Value))
  (collected : list (list sql.Value)) : list (list sql.Value) + string :=
  match fetched with
  | [] => inl collected
  | r :: rest =>
      match sql.Scan r (length columns) with
      | inr e => inr e
      | inl values =>
          let row := map convertCell values in
          scanRows columns rest (collected ++ [row])
      end
  end.

Section WithLibraries.
Context {U : Unicode} {B : sql.Backend}.

Record DBManager := {
  connections : gmap string sql.DB;
  config : Config
}.

Definition GetDB (m : DBManager) (name : string) : sql.DB + error :=
  match connections m !! name with
  | Some h => inl h
  | None => inr (errorString ("数据库 " +:+ name +:+ " 未配置"))
  end.

(** [Query] below its permission check: the connection, the statement,
    the cursor. *)
Definition runQuery (m : DBManager) (dbName query : string) (args : list sql.Value)
  : State sql.history (returned QueryResult) :=
  match GetDB m dbName with
  | inr err => ret (Failed (Some (queryFailed err)) err)
  | inl h =>
      r <- sql.Query h query args ;;
      match r with
      | inr e => ret (Failed (Some (queryFailed (driverError e))) (driverError e))
      | inl rows =>
          match sql.rows_Columns rows with
          | inr e => ret (Failed (Some (queryFailed (driverError e))) (driverError e))
          | inl columns =>
              match scanRows columns (sql.rows_fetched rows) [] with
              | inr e => ret (Failed (Some (queryFailed (driverError e))) (driverError e))
              | inl collected =>
                  match sql.rows_Err rows with
                  | Some e =>
                      ret (Failed (Some (queryFailed (driverError e))) (driverError e))
                  | None =>
                      ret (Ok {| Columns := columns; Rows := collected;
                                 QueryResult_Error := "" |})
                  end
              end
          end
      end
  end.

Definition Query (m : DBManager) (dbName query : string) (args : list sql.Value)
  : State sql.history (returned QueryResult) :=
  if negb (AllowQuery (Config_Permission (config m))) then
    ret (Failed None (errorString "查询操作未被允许"))
  else runQuery m dbName query args.

(** The permission switch at the head of [Execute]: the error it returns
    with, if any. *)
Definition executeDenied (p : Permission) (lowerQuery : string) : option error :=
  if HasPrefix lowerQuery "insert" then
    if negb (AllowInsert p) then Some (errorString "插入操作未被允许") else None
  else if HasPrefix lowerQuery "update" then
    if negb (AllowUpdate p) then Some (errorString "更新操作未被允许") else None
  else if HasPrefix lowerQuery "delete" then
    if negb (AllowDelete p) then Some (errorString "删除操作未被允许") else None
  else None.

(** [Execute] below its permission switch: the connection, the statement,
    the two numbers of the result. *)
Definition runExec (m : DBManager) (dbName query : string) (args : list sql.Value)
  : State sql.history (returned ExecuteResult) :=
  match GetDB m dbName with
  | inr err => ret (Failed (Some (executeFailed err)) err)
  | inl h =>
      r <- sql.Exec h query args ;;
      match r with
      | inr e => ret (Failed (Some (executeFailed (driverError e))) (driverError e))
      | inl result =>
          match sql.RowsAffected result with
          | (_, Some e) =>
              ret (Failed (Some (executeFailed (driverError e))) (driverError e))
          | (rowsAffected, None) =>
              match sql.LastInsertId result with
              | (_, Some e) =>
                  ret (Failed (Some (executeFailed (driverError e))) (driverError e))
              | (lastInsertID, None) =>
                  ret (Ok {| RowsAffected := rowsAffected;
                             LastInsertID := lastInsertID;
                             ExecuteResult_Error := "" |})
              end
          end
      end
  end.

Definition Execute (m : DBManager) (dbName query : string) (args : list sql.Value)
  : State sql.history (returned ExecuteResult) :=
  let lowerQuery := TrimSpace (ToLower query) in
  match executeDenied (Config_Permission (config m)) lowerQuery with
  | Some err => ret (Failed None err)
  | None => runExec m dbName query args
  end.

End WithLibraries.

End db.

(** ** encoding/json, seen from its caller *)

Module json.

(** A JSON text that passed the syntax check, by the value it denotes.  A
    number keeps its literal: what it converts to is decided by the
    destination. *)
Inductive value :=
| Null
| Bool (b : bool)
| Number (literal : string)
| Str (s : string)
| Array (items : list value)
| Object (members : list (string * value)).

(** [json.RawMessage]: [None] is the empty message of an absent member. *)
Definition RawMessage : Type := option value.

(** What [json.Unmarshal] is given: bytes that fail the syntax check, or a
    JSON text. *)
Inductive text :=
| Malformed (why : string)
| Wellformed (v : value).

Inductive UnmarshalError :=
| SyntaxError (msg : string)
| UnmarshalTypeError (Value Type_ Field : string).

(** Package [strconv], which decides what a number literal converts to. *)
Class Strconv := {
  (** [strconv.ParseFloat(s, 64)] succeeds *)
  ParseFloat_ok : string -> bool;
  (** [strconv.ParseInt(s, 10, 64)] *)
  ParseInt : string -> option Z
}.

(** The [Value] of an [UnmarshalTypeError] for a value of the wrong kind. *)
Definition describe (v : value) : string :=
  match v with
  | Null => "null"
  | Bool _ => "bool"
  | Number _ => "number"
  | Str _ => "string"
  | Array _ => "array"
  | Object _ => "object"
  end.

(** [foldName]: the key under which a struct field is looked up when no
    field has exactly the name of the member.  ASCII letters go to upper
    case; of the runes outside ASCII only U+017F and U+212A fold into
    ASCII (to S and to K).  Every other rune folds to a rune outside ASCII,
    whose bytes are kept as they come: the folded key is only ever compared
    with field names, none of which has such a byte. *)
Fixpoint foldName (s : string) : string :=
  match s with
  | EmptyString => EmptyString
  | String c r =>
      if negb (nonASCII c) then String (upperByte c) (foldName r)
      else
        match r with
        | String c2 r2 =>
            if Ascii.eqb c "197" && Ascii.eqb c2 "191"
            then String "S" (foldName r2)
            else
              match r2 with
              | String c3 r3 =>
                  if Ascii.eqb c "226" && Ascii.eqb c2 "132" && Ascii.eqb c3 "170"
                  then String "K" (foldName r3)
                  else String c (foldName r)
              | EmptyString => String c (foldName r)
              end
        | EmptyString => String c (foldName r)
        end
  end.

(** The member [key] is stored into the field tagged [name]. *)
Definition selects (key name : string) : bool :=
  String.eqb key name || String.eqb (foldName key) (foldName name).

(** Does an object have a member for the field tagged [name]? *)
Definition hasMember (name : string) (members : list (string * value)) : bool :=
  existsb (fun kv => selects (fst kv) name) members.

(** Storing into a field of type [string]: [null] leaves it as it is. *)
Definition intoString (field : string) (v : value) (old : string)
  : string + UnmarshalError :=
  match v with
  | Null => inl old
  | Str s => inl s
  | _ => inr (UnmarshalTypeError (describe v) "string" field)
  end.

(** Storing into a field of type [json.RawMessage]: the text is kept. *)
Definition intoRaw (v : value) : RawMessage := Some v.

Section WithStrconv.
Context {N : Strconv}.

(** Storing into a field of type [int]. *)
Definition intoInt (field : string) (v : value) (old : Z) : Z + UnmarshalError :=
  match v with
  | Null => inl old
  | Number lit =>
      match ParseInt lit with
      | Some n => inl n
      | None => inr (UnmarshalTypeError ("number " +:+ lit) "int" field)
      end
  | _ => inr (UnmarshalTypeError (describe v) "int" field)
  end.

(** Storing into [interface{}] converts every number below to [float64];
    the first literal that does not convert is the error. *)
Fixpoint badNumber (v : value) : option UnmarshalError :=
  match v with
  | Number lit =>
      if ParseFloat_ok lit then None
      else Some (UnmarshalTypeError ("number " +:+ lit) "float64" "")
  | Array items =>
      (fix first (l : list value) : option UnmarshalError :=
         match l with
         | [] => None
         | x :: l' =>
             match badNumber x with Some e => Some e | None => first l' end
         end) items
  | Object members =>
      (fix first (l : list (string * value)) : option UnmarshalError :=
         match l with
         | [] => None
         | (_, x) :: l' =>
             match badNumber x with Some e => Some e | None => first l' end
         end) members
  | _ => None
  end.

(** Storing into a field of type [interface{}]: [null] stores [nil]. *)
Definition intoAny (v : value) : option value + UnmarshalError :=
  match v with
  | Null => inl None
  | _ => match badNumber v with Some e => inr e | None => inl (Some v) end
  end.

End WithStrconv.

(** Decoding the members of an object into a struct, one member after the
    other.  The first member that does not fit its field is the error that
    [Unmarshal] returns. *)
Fixpoint intoStruct {T : Type} (store : string -> value -> T -> T + UnmarshalError)
  (members : list (string * value)) (t : T) : T + UnmarshalError :=
  match members with
  | [] => inl t
  | (key, v) :: rest =>
      match store key v t with
      | inr e => inr e
      | inl t' => intoStruct store rest t'
      end
  end.

(** [json.Unmarshal(data, &t)] for a struct [t] in its zero value. *)
Definition Unmarshal {T : Type} (type_ : string)
  (store : string -> value -> T -> T + UnmarshalError) (zero : T) (data : text)
  : T + UnmarshalError :=
  match data with
  | Malformed why => inr (SyntaxError why)
  | Wellformed Null => inl zero
  | Wellformed (Object members) => intoStruct store members zero
  | Wellformed v => inr (UnmarshalTypeError (describe v) type_ "")
  end.

(** The bytes of a raw message, handed to [Unmarshal] again. *)
Definition bytesOf (raw : RawMessage) : text :=
  match raw with
  | None => Malformed "unexpected end of JSON input"
  | Some v => Wellformed v
  end.

End json.

(** [json.Marshal] and [json.MarshalIndent] at the types the program
    serialises: the text, or the error of a value that has no JSON form. *)
Class Marshal := {
  MarshalIndent_QueryResult : db.QueryResult -> string + string;
  MarshalIndent_ExecuteResult : db.ExecuteResult -> string + string;
  (** [[]map[string]interface{}], the rows of [handleQuery] *)
  Marshal_results : list (gmap string sql.Value) -> string + string;
  (** [map[string]interface{}{"lastInsertId": _, "rowsAffected": _}] *)
  Marshal_response : Z -> Z -> string + string
}.

(** ** The go-mcp based server: [handleQuery] and [handleExecute] *)

Module gomcp.

Local Open Scope go_scope.

(** [protocol.CallToolRequest], [protocol.TextContent],
    [protocol.CallToolResult] *)
Record CallToolRequest := { Arguments : gmap string json.value }.
Record TextContent := { Type_ : string; Text : string }.
Record CallToolResult := { Content : list TextContent }.

(** A handler returns, or a slice expression takes it down. *)
Inductive outcome (A : Type) :=
| Returned (a : A)
| Panicked (why : string).
Arguments Returned {A} a.
Arguments Panicked {A} why.

Definition reply : Type := outcome (option CallToolResult * option string).

(** [request.Arguments["sql"].(string)] *)
Definition sqlArgument (request : CallToolRequest) : option string :=
  match Arguments request !! "sql" with
  | Some (json.Str sql) => Some sql
  | _ => None
  end.

(** One row of [handleQuery]: a map from column name to cell, filled in
    column order. *)
Fixpoint fillRow (columns : list string) (values : list sql.Value)
  (row : gmap string sql.Value) : gmap string sql.Value :=
  match columns, values with
  | col :: columns', val :: values' =>
      fillRow columns' values'
        (<[ col := match val with sql.VBytes b => sql.VString b | _ => val end ]> row)
  | _, _ => row
  end.

Fixpoint scanRows (columns : list string) (fetched : list (list sql.Value))
  (results : list (gmap string sql.Value))
  : list (gmap string sql.Value) + string :=
  match fetched with
  | [] => inl results
  | r :: rest =>
      match sql.Scan r (length columns) with
      | inr e => inr e
      | inl values => scanRows columns rest (results ++ [fillRow columns values ∅])
      end
  end.

Definition textResult (jsonData : string) : CallToolResult :=
  {| Content := [ {| Type_ := "text"; Text := jsonData |} ] |}.

Section WithLibraries.
Context {U : Unicode} {B : sql.Backend} {J : Marshal}.

(** The package-level variables of the server. *)
Record Globals := {
  db : sql.DB;
  allowInsert : bool;
  allowUpdate : bool;
  allowDelete : bool;
  logEnabled : bool
}.

(** [if logEnabled { log.Printf(..., sqlUpper[:10]) }] followed by
    [return nil, errors.New(msg)] *)
Definition rejectLogged (g : Globals) (sqlUpper msg : string) : reply :=
  if logEnabled g then
    match slice_to sqlUpper 10 with
    | None => Panicked "slice bounds out of range"
    | Some _ => Returned (None, Some msg)
    end
  else Returned (None, Some msg).

Definition handleQuery (g : Globals) (request : CallToolRequest)
  : State sql.history reply :=
  match sqlArgument request with
  | None => ret (Returned (None, Some "sql must be a string"))
  | Some sql =>
      let sqlUpper := TrimSpace (ToUpper sql) in
      if negb (HasPrefix sqlUpper "SELECT") && negb (HasPrefix sqlUpper "SHOW")
         && negb (HasPrefix sqlUpper "DESCRIBE")
      then ret (rejectLogged g sqlUpper
                  "only SELECT, SHOW, or DESCRIBE queries are allowed")
      else
        r <- sql.Query (db g) sql [] ;;
        match r with
        | inr e => ret (Returned (None, Some ("query execution error: " +:+ e)))
        | inl rows =>
            match sql.rows_Columns rows with
            | inr e =>
                ret (Returned (None, Some ("failed to get column names: " +:+ e)))
            | inl columns =>
                match scanRows columns (sql.rows_fetched rows) [] with
                | inr e =>
                    ret (Returned (None, Some ("failed to read row data: " +:+ e)))
                | inl results =>
                    match sql.rows_Err rows with
                    | Some e =>
                        ret (Returned
                               (None, Some ("error iterating through results: " +:+ e)))
                    | None =>
                        match Marshal_results results with
                        | inr e =>
                            ret (Returned
                                   (None, Some ("JSON serialization failed: " +:+ e)))
                        | inl jsonData =>
                            ret (Returned (Some (textResult jsonData), None))
                        end
                    end
                end
            end
        end
  end.

Definition handleExecute (g : Globals) (request : CallToolRequest)
  : State sql.history reply :=
  match sqlArgument request with
  | None => ret (Returned (None, Some "sql must be a string"))
  | Some sql =>
      let sqlUpper := TrimSpace (ToUpper sql) in
      if HasPrefix sqlUpper "INSERT" && negb (allowInsert g) then
        ret (Returned (None, Some "no INSERT permission"))
      else if HasPrefix sqlUpper "UPDATE" && negb (allowUpdate g) then
        ret (Returned (None, Some "no UPDATE permission"))
      else if HasPrefix sqlUpper "DELETE" && negb (allowDelete g) then
        ret (Returned (None, Some "no DELETE permission"))
      else if HasPrefix sqlUpper "DROP" || HasPrefix sqlUpper "TRUNCATE" then
        ret (rejectLogged g sqlUpper "DROP or TRUNCATE operations are not allowed")
      else
        r <- sql.Exec (db g) sql [] ;;
        match r with
        | inr e => ret (Returned (None, Some ("SQL execution error: " +:+ e)))
        | inl result =>
            let lastInsertID := fst (sql.LastInsertId result) in
            let rowsAffected := fst (sql.RowsAffected result) in
            match Marshal_response lastInsertID rowsAffected with
            | inr e =>
                ret (Returned (None, Some ("JSON serialization failed: " +:+ e)))
            | inl jsonData => ret (Returned (Some (textResult jsonData), None))
            end
        end
  end.

End WithLibraries.

End gomcp.

(** ** cmd/ai2mysql-mcp-server: the JSON-RPC dispatcher *)

Module mcp.
Import config.

Local Open Scope go_scope.

Record MCPContent := { Type_ : string; Text : string }.

Record MCPToolResult := { Content : list MCPContent }.

(** A value of type [interface{}] held by an envelope. *)
Inductive any :=
| Decoded (v : json.value)            (* stored by [json.Unmarshal] *)
| GoString (s : string)
| ErrorText (e : json.UnmarshalError) (* [err.Error()] of a decoding error *)
| GoMap (members : list (string * json.value))
                                      (* a [map[string]interface{}] built here *)
| ToolResult (r : MCPToolResult).

Record MCPError := {
  Code : Z;
  Message : string;
  Data : option any
}.

(** [ID] is [None] for the [nil] interface: a member [id] that is absent or
    [null].  With [omitempty] such an [ID] is left out of the marshalled
    envelope. *)
Record MCPMessage := {
  JSONRPC : string;
  ID : option json.value;
  Method : string;
  Params : json.RawMessage;
  Result : option any;
  Error : option MCPError
}.

Record ToolParams := {
  ToolParams_Name : string;
  ToolParams_Params : json.RawMessage
}.

Record ToolCallParams := {
  ToolCallParams_Name : string;
  Arguments : json.RawMessage
}.

Record SQLParams := { SQL : string }.

(** The input of the server: the complete lines that [ReadString] returns
    one after the other, then the bytes after the last newline together with
    the error that ends the stream ([None] for [io.EOF]). *)
Record Reader := {
  lines : list json.text;
  unterminated : string;
  closing : option string
}.

(** The server process: what was sent to MySQL, and the envelopes handed to
    the buffered writer for standard output, each as one line followed by a
    flush.  (A failing write is logged by [sendResponse] and changes nothing
    else.) *)
Record process {B : sql.Backend} := {
  past : sql.history;
  stdout : list MCPMessage
}.

Definition zeroMessage : MCPMessage :=
  {| JSONRPC := ""; ID := None; Method := ""; Params := None;
     Result := None; Error := None |}.

Definition zeroError : MCPError := {| Code := 0; Message := ""; Data := None |}.

Definition sqlSchema (description : string) : json.value :=
  json.Object
    [ ("type", json.Str "object");
      ("properties",
        json.Object
          [ ("sql", json.Object [ ("type", json.Str "string");
                                   ("description", json.Str description) ]) ]);
      ("required", json.Array [ json.Str "sql" ]) ].

Definition toolEntry (name description argument : string) : json.value :=
  json.Object
    [ ("name", json.Str name);
      ("description", json.Str description);
      ("type", json.Str "function");
      ("inputSchema", sqlSchema argument) ].

Definition queryTool : json.value :=
  toolEntry "mcp_mysql_query" "执行MySQL查询（只读，SELECT语句）" "要执行的SQL查询语句".

Definition executeTool : json.value :=
  toolEntry "mcp_mysql_execute"
    "执行MySQL更新操作（INSERT/UPDATE/DELETE等非查询语句）" "要执行的SQL语句".

Section WithLibraries.
Context {U : Unicode} {N : json.Strconv} {B : sql.Backend} {J : Marshal}.

(** *** Decoding *)

Definition store_MCPError (key : string) (v : json.value) (e : MCPError)
  : MCPError + json.UnmarshalError :=
  if json.selects key "code" then
    match json.intoInt "code" v (Code e) with
    | inr err => inr err
    | inl n => inl {| Code := n; Message := Message e; Data := Data e |}
    end
  else if json.selects key "message" then
    match json.intoString "message" v (Message e) with
    | inr err => inr err
    | inl s => inl {| Code := Code e; Message := s; Data := Data e |}
    end
  else if json.selects key "data" then
    match json.intoAny v with
    | inr err => inr err
    | inl d => inl {| Code := Code e; Message := Message e;
                      Data := option_map Decoded d |}
    end
  else inl e.

Definition store_MCPMessage (key : string) (v : json.value) (m : MCPMessage)
  : MCPMessage + json.UnmarshalError :=
  if json.selects key "jsonrpc" then
    match json.intoString "jsonrpc" v (JSONRPC m) with
    | inr err => inr err
    | inl s => inl {| JSONRPC := s; ID := ID m; Method := Method m;
                      Params := Params m; Result := Result m; Error := Error m |}
    end
  else if json.selects key "id" then
    match json.intoAny v with
    | inr err => inr err
    | inl i => inl {| JSONRPC := JSONRPC m; ID := i; Method := Method m;
                      Params := Params m; Result := Result m; Error := Error m |}
    end
  else if json.selects key "method" then
    match json.intoString "method" v (Method m) with
    | inr err => inr err
    | inl s => inl {| JSONRPC := JSONRPC m; ID := ID m; Method := s;
                      Params := Params m; Result := Result m; Error := Error m |}
    end
  else if json.selects key "params" then
    inl {| JSONRPC := JSONRPC m; ID := ID m; Method := Method m;
           Params := json.intoRaw v; Result := Result m; Error := Error m |}
  else if json.selects key "result" then
    match json.intoAny v with
    | inr err => inr err
    | inl r => inl {| JSONRPC := JSONRPC m; ID := ID m; Method := Method m;
                      Params := Params m; Result := option_map Decoded r;
                      Error := Error m |}
    end
  else if json.selects key "error" then
    match v with
    | json.Null =>
        inl {| JSONRPC := JSONRPC m; ID := ID m; Method := Method m;
               Params := Params m; Result := Result m; Error := None |}
    | json.Object members =>
        match json.intoStruct store_MCPError members
                (match Error m with Some e => e | None => zeroError end) with
        | inr err => inr err
        | inl e => inl {| JSONRPC := JSONRPC m; ID := ID m; Method := Method m;
                          Params := Params m; Result := Result m; Error := Some e |}
        end
    | _ => inr (json.UnmarshalTypeError (json.describe v) "main.MCPError" "error")
    end
  else inl m.

Definition store_ToolCallParams (key : string) (v : json.value) (p : ToolCallParams)
  : ToolCallParams + json.UnmarshalError :=
  if json.selects key "name" then
    match json.intoString "name" v (ToolCallParams_Name p) with
    | inr err => inr err
    | inl s => inl {| ToolCallParams_Name := s; Arguments := Arguments p |}
    end
  else if json.selects key "arguments" then
    inl {| ToolCallParams_Name := ToolCallParams_Name p;
           Arguments := json.intoRaw v |}
  else inl p.

Definition store_ToolParams (key : string) (v : json.value) (p : ToolParams)
  : ToolParams + json.UnmarshalError :=
  if json.selects key "name" then
    match json.intoString "name" v (ToolParams_Name p) with
    | inr err => inr err
    | inl s => inl {| ToolParams_Name := s;
                      ToolParams_Params := ToolParams_Params p |}
    end
  else if json.selects key "params" then
    inl {| ToolParams_Name := ToolParams_Name p;
           ToolParams_Params := json.intoRaw v |}
  else inl p.

Definition store_SQLParams (key : string) (v : json.value) (p : SQLParams)
  : SQLParams + json.UnmarshalError :=
  if json.selects key "sql" then
    match json.intoString "sql" v (SQL p) with
    | inr err => inr err
    | inl s => inl {| SQL := s |}
    end
  else inl p.

Definition Unmarshal_MCPMessage : json.text -> MCPMessage + json.UnmarshalError :=
  json.Unmarshal "main.MCPMessage" store_MCPMessage zeroMessage.

Definition Unmarshal_ToolCallParams
  : json.text -> ToolCallParams + json.UnmarshalError :=
  json.Unmarshal "main.ToolCallParams" store_ToolCallParams
    {| ToolCallParams_Name := ""; Arguments := None |}.

Definition Unmarshal_ToolParams : json.text -> ToolParams + json.UnmarshalError :=
  json.Unmarshal "main.ToolParams" store_ToolParams
    {| ToolParams_Name := ""; ToolParams_Params := None |}.

Definition Unmarshal_SQLParams : json.text -> SQLParams + json.UnmarshalError :=
  json.Unmarshal "main.SQLParams" store_SQLParams {| SQL := "" |}.

(** *** The server *)

Record MCPServer := {
  dbManager : db.DBManager;
  config : Config
}.

(** A call of the Database Gateway from inside the server process. *)
Definition viaGateway {A : Type} (c : State sql.history A) : State process A :=
  fun p => let (a, h) := c (past p) in (a, {| past := h; stdout := stdout p |}).

(** [sendResponse]: marshal, write, newline, flush.  No envelope built by
    this server fails to marshal. *)
Definition sendResponse (response : MCPMessage) : State process unit :=
  fun p => (tt, {| past := past p; stdout := stdout p ++ [response] |}).

(** A field of an envelope as [json.Marshal] comes to write it. *)
Inductive field :=
| StringField (s : string)
| InterfaceField (a : any)
| RawField (v : json.value)
| ErrorField (e : MCPError).

(** The members of the object that [json.Marshal] writes for an envelope,
    in the order of the fields of [MCPMessage].  A field tagged [omitempty]
    is left out when it is empty: the empty string, the [nil] interface or
    pointer, a raw message without bytes. *)
Definition Marshal_MCPMessage (m : MCPMessage) : list (string * field) :=
  [ ("jsonrpc", StringField (JSONRPC m)) ]
  ++ match ID m with
     | Some v => [ ("id", InterfaceField (Decoded v)) ]
     | None => []
     end
  ++ (if String.eqb (Method m) "" then [] else [ ("method", StringField (Method m)) ])
  ++ match Params m with
     | Some v => [ ("params", RawField v) ]
     | None => []
     end
  ++ match Result m with
     | Some a => [ ("result", InterfaceField a) ]
     | None => []
     end
  ++ match Error m with
     | Some e => [ ("error", ErrorField e) ]
     | None => []
     end.

Definition errorEnvelope (id : option json.value) (code : Z) (message : string)
  (data : option any) : MCPMessage :=
  {| JSONRPC := "2.0"; ID := id; Method := ""; Params := None; Result := None;
     Error := Some {| Code := code; Message := message; Data := data |} |}.

Definition sendError (id : option json.value) (code : Z) (message : string)
  (data : option any) : State process unit :=
  sendResponse (errorEnvelope id code message data).

Definition resultEnvelope (id : option json.value) (result : any) : MCPMessage :=
  {| JSONRPC := "2.0"; ID := id; Method := ""; Params := None;
     Result := Some result; Error := None |}.

Definition textContent (jsonResult : string) : any :=
  ToolResult {| Content := [ {| Type_ := "text"; Text := jsonResult |} ] |}.

Definition handleInitialize (message : MCPMessage) : State process unit :=
  let protocolVersion := "2024-11-05" in
  let serverInfo :=
    json.Object [ ("name", json.Str "MySQL MCP Server");
                  ("version", json.Str "1.0.0") ] in
  let toolsObj :=
    json.Object [ ("mcp_mysql_query", queryTool);
                  ("mcp_mysql_execute", executeTool) ] in
  let capabilities := json.Object [ ("tools", toolsObj) ] in
  sendResponse
    (resultEnvelope (ID message)
       (GoMap [ ("protocolVersion", json.Str protocolVersion);
                ("serverInfo", serverInfo);
                ("capabilities", capabilities) ])).

Definition handleToolsList (message : MCPMessage) : State process unit :=
  let toolsArray := json.Array [ queryTool; executeTool ] in
  sendResponse (resultEnvelope (ID message) (GoMap [ ("tools", toolsArray) ])).

(** The rest of [handleMySQLQuery] once the gateway has returned. *)
Definition replyQuery (id : option json.value) (r : db.returned db.QueryResult)
  : State process unit :=
  match r with
  | db.Failed _ err => sendError id (-32000) (db.Error err) None
  | db.Ok result =>
      match MarshalIndent_QueryResult result with
      | inr e => sendError id (-32000) "序列化结果失败" (Some (GoString e))
      | inl jsonResult => sendResponse (resultEnvelope id (textContent jsonResult))
      end
  end.

(** The rest of [handleMySQLExecute] once the gateway has returned. *)
Definition replyExecute (id : option json.value) (r : db.returned db.ExecuteResult)
  : State process unit :=
  match r with
  | db.Failed _ err => sendError id (-32000) (db.Error err) None
  | db.Ok result =>
      match MarshalIndent_ExecuteResult result with
      | inr e => sendError id (-32000) "序列化结果失败" (Some (GoString e))
      | inl jsonResult => sendResponse (resultEnvelope id (textContent jsonResult))
      end
  end.

Definition handleMySQLQuery (s : MCPServer) (id : option json.value)
  (rawParams : json.RawMessage) : State process unit :=
  if negb (AllowQuery (Config_Permission (config s))) then
    sendError id (-32000) "查询操作未被允许" None
  else
    match Unmarshal_SQLParams (json.bytesOf rawParams) with
    | inr err => sendError id (-32602) "无效SQL参数" (Some (ErrorText err))
    | inl sqlParams =>
        r <- viaGateway (db.Query (dbManager s) "default" (SQL sqlParams) []) ;;
        replyQuery id r
    end.

Definition handleMySQLExecute (s : MCPServer) (id : option json.value)
  (rawParams : json.RawMessage) : State process unit :=
  match Unmarshal_SQLParams (json.bytesOf rawParams) with
  | inr err => sendError id (-32602) "无效SQL参数" (Some (ErrorText err))
  | inl sqlParams =>
      r <- viaGateway (db.Execute (dbManager s) "default" (SQL sqlParams) []) ;;
      replyExecute id r
  end.

(** The tool name and its raw arguments, in the shape of the method. *)
Definition toolOf (message : MCPMessage)
  : string * json.RawMessage + json.UnmarshalError :=
  if String.eqb (Method message) "tools/call" then
    match Unmarshal_ToolCallParams (json.bytesOf (Params message)) with
    | inr err => inr err
    | inl params => inl (ToolCallParams_Name params, Arguments params)
    end
  else
    match Unmarshal_ToolParams (json.bytesOf (Params message)) with
    | inr err => inr err
    | inl params => inl (ToolParams_Name params, ToolParams_Params params)
    end.

Definition handleCallTool (s : MCPServer) (message : MCPMessage)
  : State process unit :=
  match toolOf message with
  | inr err => sendError (ID message) (-32602) "无效参数" (Some (ErrorText err))
  | inl (toolName, toolParams) =>
      if String.eqb toolName "mcp_mysql_query" then
        handleMySQLQuery s (ID message) toolParams
      else if String.eqb toolName "mcp_mysql_execute" then
        handleMySQLExecute s (ID message) toolParams
      else
        sendError (ID message) (-32601) "不支持的工具" (Some (GoString toolName))
  end.

Definition handleMessage (s : MCPServer) (message : MCPMessage)
  : State process unit :=
  if String.eqb (Method message) "initialize" then handleInitialize message
  else if String.eqb (Method message) "initialized" then ret tt
  else if String.eqb (Method message) "tools/list" then handleToolsList message
  else if String.eqb (Method message) "mcp/callTool" then handleCallTool s message
  else if String.eqb (Method message) "tools/call" then handleCallTool s message
  else sendError (ID message) (-32601) "方法不支持" (Some (GoString (Method message))).

(** The loop of [Run] over the lines that are still to come. *)
Fixpoint serve (s : MCPServer) (coming : list json.text) (closing : option string)
  : State process (option string) :=
  match coming with
  | [] =>
      match closing with
      | None => ret None
      | Some err => ret (Some ("读取请求失败: " +:+ err))
      end
  | line :: rest =>
      match Unmarshal_MCPMessage line with
      | inr err =>
          sendError None (-32700) "解析JSON失败" (Some (ErrorText err)) ;;;
          serve s rest closing
      | inl message =>
          handleMessage s message ;;;
          serve s rest closing
      end
  end.

(** [Run]: [None] is the [nil] error. *)
Definition Run (s : MCPServer) (stdin : Reader) : State process (option string) :=
  serve s (lines stdin) (closing stdin).

End WithLibraries.

End mcp.

(** ** Instances for closed examples *)

Module demo.

(** A cursor of two columns and two rows. *)
Definition people : sql.Rows :=
  {| sql.rows_Columns := inl ["id"; "name"];
     sql.rows_fetched := [ [sql.VInt 1; sql.VBytes "ann"]; [sql.VInt 2; sql.VNil] ];
     sql.rows_Err := None |}.

(** A cursor whose second row comes with one cell too many. *)
Definition ragged : sql.Rows :=
  {| sql.rows_Columns := inl ["id"; "name"];
     sql.rows_fetched :=
       [ [sql.VInt 1; sql.VBytes "ann"]; [sql.VInt 2; sql.VNil; sql.VNil] ];
     sql.rows_Err := None |}.

(** A server that answers every query with [people] and counts the
    statements it has executed. *)
Definition backend : sql.Backend :=
  {| sql.DB := string;
     sql.server_Query := fun _ _ _ _ => inl people;
     sql.server_Exec := fun past _ _ _ =>
       inl {| sql.RowsAffected := (1%Z, None);
              sql.LastInsertId := (Z.of_nat (length past), None) |} |}.

(** The same server with the ragged cursor. *)
Definition ragged_backend : sql.Backend :=
  {| sql.DB := string;
     sql.server_Query := fun _ _ _ _ => inl ragged;
     sql.server_Exec := fun _ _ _ _ => inr "read-only" |}.

(** Decimal digits, for the number literals of the examples. *)
Fixpoint digits (s : string) (n : Z) : option Z :=
  match s with
  | EmptyString => Some n
  | String c r =>
      if byte_between "0" "9" c
      then digits r (10 * n + Z.of_nat (nat_of_ascii c - 48))
      else None
  end.

Definition strconv : json.Strconv :=
  {| json.ParseFloat_ok := fun _ => true;
     json.ParseInt := fun lit =>
       match lit with
       | EmptyString => None
       | String "-" (String c r) => option_map Z.opp (digits (String c r) 0)
       | _ => digits lit 0
       end |}.

Definition marshal : Marshal :=
  {| MarshalIndent_QueryResult := fun _ => inl "{...}";
     MarshalIndent_ExecuteResult := fun _ => inl "{...}";
     Marshal_results := fun _ => inl "[...]";
     Marshal_response := fun _ _ => inl "{...}" |}.

Definition permission (q i u d : bool) : config.Permission :=
  {| config.AllowQuery := q; config.AllowInsert := i;
     config.AllowUpdate := u; config.AllowDelete := d |}.

Definition configOf (p : config.Permission) : config.Config :=
  {| config.Databases := config.Databases config.DefaultConfig;
     config.Config_Permission := p |}.

Definition manager (B : sql.Backend) (h : @sql.DB B) (p : config.Permission)
  : @db.DBManager B :=
  {| db.connections := {[ "default" := h ]}; db.config := configOf p |}.

(** The gateway and the server with the default connection, for a
    permission. *)
Definition gateway (p : config.Permission) : @db.DBManager backend :=
  manager backend "root@tcp(localhost:3306)/test" p.

Definition server (p : config.Permission) : @mcp.MCPServer backend :=
  {| mcp.dbManager := gateway p; mcp.config := configOf p |}.

Definition start : @mcp.process backend := {| mcp.past := []; mcp.stdout := [] |}.

Definition globals (i u d log : bool) : @gomcp.Globals backend :=
  {| gomcp.db := ("root@tcp(127.0.0.1:3306)/test" : @sql.DB backend);
     gomcp.allowInsert := i; gomcp.allowUpdate := u; gomcp.allowDelete := d;
     gomcp.logEnabled := log |}.

Definition request (sql : string) : gomcp.CallToolRequest :=
  {| gomcp.Arguments := {[ "sql" := json.Str sql ]} |}.

(** [{"jsonrpc":"2.0","id":id,"method":"tools/call",
      "params":{"name":name,"arguments":arguments}}] *)
Definition toolsCall (id : string) (name : string) (arguments : json.value)
  : json.value :=
  json.Object
    [ ("jsonrpc", json.Str "2.0");
      ("id", json.Number id);
      ("method", json.Str "tools/call");
      ("params", json.Object [ ("name", json.Str name);
                                ("arguments", arguments) ]) ].

End demo.

(** ** strconv and os, as far as the configuration uses them *)

Module strconv.

(** The value of a string of decimal digits, from the value so far. *)
Fixpoint digits (s : string) (n : Z) : option Z :=
  match s with
  | EmptyString => Some n
  | String c r =>
      if byte_between "0" "9" c
      then digits r (10 * n + Z.of_nat (nat_of_ascii c - 48))
      else None
  end.

(** [strconv.Atoi]: an optional sign, at least one digit, nothing else, and
    a value that fits [int]; [None] stands for the error. *)
Definition Atoi (s : string) : option Z :=
  match s with
  | EmptyString => None
  | String c r =>
      let signed := Ascii.eqb c "-" || Ascii.eqb c "+" in
      let body := if signed then r else s in
      match body with
      | EmptyString => None
      | _ =>
          match digits body 0 with
          | None => None
          | Some n =>
              let v := if Ascii.eqb c "-" then (- n)%Z else n in
              if ((- 2 ^ 63 <=? v) && (v <=? 2 ^ 63 - 1))%Z then Some v else None
          end
      end
  end.

End strconv.

Module os.

(** The environment of the process. *)
Definition environ : Type := gmap string string.

(** [os.Getenv]: the empty string for a variable that is not set. *)
Definition Getenv (env : environ) (key : string) : string :=
  match env !! key with
  | Some v => v
  | None => ""
  end.

(** What the file system holds at the path of the configuration. *)
Inductive file :=
| NotExist
| Unreadable (err : string)
| Content (data : json.text).

End os.

(** ** pkg/config: loading *)

Module loading.
Import config.

Inductive error :=
| ReadFailed (err : string)
| DecodeFailed (err : json.UnmarshalError).

(** The zero values of the structs. *)
Definition zeroDBConfig : DBConfig :=
  {| Host := ""; Port := 0; User := ""; Password := ""; DBName := "" |}.

Definition zeroPermission : Permission :=
  {| AllowQuery := false; AllowInsert := false;
     AllowUpdate := false; AllowDelete := false |}.

Definition zeroConfig : Config :=
  {| Databases := ∅; Config_Permission := zeroPermission |}.

(** Storing into a field of type [bool]: [null] leaves it as it is. *)
Definition intoBool (field : string) (v : json.value) (old : bool)
  : bool + json.UnmarshalError :=
  match v with
  | json.Null => inl old
  | json.Bool b => inl b
  | _ => inr (json.UnmarshalTypeError (json.describe v) "bool" field)
  end.

Definition store_Permission (key : string) (v : json.value) (p : Permission)
  : Permission + json.UnmarshalError :=
  if json.selects key "allow_query" then
    match intoBool "allow_query" v (AllowQuery p) with
    | inr err => inr err
    | inl b => inl {| AllowQuery := b; AllowInsert := AllowInsert p;
                      AllowUpdate := AllowUpdate p; AllowDelete := AllowDelete p |}
    end
  else if json.selects key "allow_insert" then
    match intoBool "allow_insert" v (AllowInsert p) with
    | inr err => inr err
    | inl b => inl {| AllowQuery := AllowQuery p; AllowInsert := b;
                      AllowUpdate := AllowUpdate p; AllowDelete := AllowDelete p |}
    end
  else if json.selects key "allow_update" then
    match intoBool "allow_update" v (AllowUpdate p) with
    | inr err => inr err
    | inl b => inl {| AllowQuery := AllowQuery p; AllowInsert := AllowInsert p;
                      AllowUpdate := b; AllowDelete := AllowDelete p |}
    end
  else if json.selects key "allow_delete" then
    match intoBool "allow_delete" v (AllowDelete p) with
    | inr err => inr err
    | inl b => inl {| AllowQuery := AllowQuery p; AllowInsert := AllowInsert p;
                      AllowUpdate := AllowUpdate p; AllowDelete := b |}
    end
  else inl p.

Section WithLibraries.
Context {U : Unicode} {N : json.Strconv}.

Definition store_DBConfig (key : string) (v : json.value) (c : DBConfig)
  : DBConfig + json.UnmarshalError :=
  if json.selects key "host" then
    match json.intoString "host" v (Host c) with
    | inr err => inr err
    | inl s => inl {| Host := s; Port := Port c; User := User c;
                      Password := Password c; DBName := DBName c |}
    end
  else if json.selects key "port" then
    match json.intoInt "port" v (Port c) with
    | inr err => inr err
    | inl n => inl {| Host := Host c; Port := n; User := User c;
                      Password := Password c; DBName := DBName c |}
    end
  else if json.selects key "user" then
    match json.intoString "user" v (User c) with
    | inr err => inr err
    | inl s => inl {| Host := Host c; Port := Port c; User := s;
                      Password := Password c; DBName := DBName c |}
    end
  else if json.selects key "password" then
    match json.intoString "password" v (Password c) with
    | inr err => inr err
    | inl s => inl {| Host := Host c; Port := Port c; User := User c;
                      Password := s; DBName := DBName c |}
    end
  else if json.selects key "dbname" then
    match json.intoString "dbname" v (DBName c) with
    | inr err => inr err
    | inl s => inl {| Host := Host c; Port := Port c; User := User c;
                      Password := Password c; DBName := s |}
    end
  else inl c.

(** One element of the map [databases]: decoded into a zero [DBConfig]. *)
Definition intoDBConfig (v : json.value) : DBConfig + json.UnmarshalError :=
  match v with
  | json.Null => inl zeroDBConfig
  | json.Object members => json.intoStruct store_DBConfig members zeroDBConfig
  | _ => inr (json.UnmarshalTypeError (json.describe v) "config.DBConfig" "databases")
  end.

(** The members of the object for [databases], stored one after the other
    under their names as they are written. *)
Fixpoint intoEntries (members : list (string * json.value))
  (databases : gmap string DBConfig)
  : gmap string DBConfig + json.UnmarshalError :=
  match members with
  | [] => inl databases
  | (name, v) :: rest =>
      match intoDBConfig v with
      | inr err => inr err
      | inl c => intoEntries rest (<[ name := c ]> databases)
      end
  end.

(** Storing into the field of type [map[string]DBConfig]: [null] stores the
    [nil] map. *)
Definition intoDatabases (v : json.value) (old : gmap string DBConfig)
  : gmap string DBConfig + json.UnmarshalError :=
  match v with
  | json.Null => inl ∅
  | json.Object members => intoEntries members old
  | _ => inr (json.UnmarshalTypeError (json.describe v)
                "map[string]config.DBConfig" "databases")
  end.

Definition store_Config (key : string) (v : json.value) (c : Config)
  : Config + json.UnmarshalError :=
  if json.selects key "databases" then
    match intoDatabases v (Databases c) with
    | inr err => inr err
    | inl d => inl {| Databases := d; Config_Permission := Config_Permission c |}
    end
  else if json.selects key "permission" then
    match v with
    | json.Null => inl c
    | json.Object members =>
        match json.intoStruct store_Permission members (Config_Permission c) with
        | inr err => inr err
        | inl p => inl {| Databases := Databases c; Config_Permission := p |}
        end
    | _ => inr (json.UnmarshalTypeError (json.describe v)
                  "config.Permission" "permission")
    end
  else inl c.

Definition Unmarshal_Config : json.text -> Config + json.UnmarshalError :=
  json.Unmarshal "config.Config" store_Config zeroConfig.

Definition parseBoolEnv (value : string) (defaultVal : bool) : bool :=
  if String.eqb value "" then defaultVal
  else
    let value := ToLower value in
    String.eqb value "true" || String.eqb value "1"
    || String.eqb value "yes" || String.eqb value "y".

(** [config.Databases["default"]]: the zero value for a name that is not
    in the map. *)
Definition entry (databases : gmap string DBConfig) (name : string) : DBConfig :=
  match databases !! name with
  | Some c => c
  | None => zeroDBConfig
  end.

Definition LoadConfigFromEnv (env : os.environ) : option Config :=
  let host := os.Getenv env "MYSQL_HOST" in
  let portStr := os.Getenv env "MYSQL_PORT" in
  let user := os.Getenv env "MYSQL_USER" in
  let pass := os.Getenv env "MYSQL_PASS" in
  let dbName := os.Getenv env "DEFAULT_DATABASE" in
  let allowInsertStr := os.Getenv env "ALLOW_INSERT" in
  let allowUpdateStr := os.Getenv env "ALLOW_UPDATE" in
  let allowDeleteStr := os.Getenv env "ALLOW_DELETE" in
  if String.eqb host "" && String.eqb user "" then None
  else
    let config := DefaultConfig in
    let dbConfig := entry (Databases config) "default" in
    let dbConfig :=
      if negb (String.eqb host "")
      then {| Host := host; Port := Port dbConfig; User := User dbConfig;
              Password := Password dbConfig; DBName := DBName dbConfig |}
      else dbConfig in
    let dbConfig :=
      if negb (String.eqb portStr "") then
        match strconv.Atoi portStr with
        | Some port =>
            if (0 <? port)%Z
            then {| Host := Host dbConfig; Port := port; User := User dbConfig;
                    Password := Password dbConfig; DBName := DBName dbConfig |}
            else dbConfig
        | None => dbConfig
        end
      else dbConfig in
    let dbConfig :=
      if negb (String.eqb user "")
      then {| Host := Host dbConfig; Port := Port dbConfig; User := user;
              Password := Password dbConfig; DBName := DBName dbConfig |}
      else dbConfig in
    let dbConfig :=
      if negb (String.eqb pass "")
      then {| Host := Host dbConfig; Port := Port dbConfig; User := User dbConfig;
              Password := pass; DBName := DBName dbConfig |}
      else dbConfig in
    let dbConfig :=
      if negb (String.eqb dbName "")
      then {| Host := Host dbConfig; Port := Port dbConfig; User := User dbConfig;
              Password := Password dbConfig; DBName := dbName |}
      else dbConfig in
    Some {| Databases := <[ "default" := dbConfig ]> (Databases config);
            Config_Permission :=
              {| AllowQuery := true;
                 AllowInsert := parseBoolEnv allowInsertStr false;
                 AllowUpdate := parseBoolEnv allowUpdateStr false;
                 AllowDelete := parseBoolEnv allowDeleteStr false |} |}.

Definition LoadConfig (env : os.environ) (f : os.file) : Config + error :=
  match LoadConfigFromEnv env with
  | Some envConfig => inl envConfig
  | None =>
      match f with
      | os.NotExist => inl DefaultConfig
      | os.Unreadable err => inr (ReadFailed err)
      | os.Content data =>
          match Unmarshal_Config data with
          | inr err => inr (DecodeFailed err)
          | inl config =>
              if Nat.eqb (size (Databases config)) 0
              then inl {| Databases := Databases DefaultConfig;
                          Config_Permission := Config_Permission config |}
              else inl config
          end
      end
  end.

End WithLibraries.

End loading.

(** ** pkg/db: opening the connections *)

Module opening.
Import config.

(** [sql.Open] on a data source name and [db.Ping] on a handle. *)
Class Driver {B : sql.Backend} := {
  Open : string -> sql.DB + string;
  Ping : sql.DB -> option string
}.

(** The data source name of [NewDBManager]. *)
Definition dsnOf (dbConfig : DBConfig) : string :=
  User dbConfig +:+ ":" +:+ Password dbConfig +:+ "@tcp(" +:+ Host dbConfig
  +:+ ":" +:+ pretty (Port dbConfig) +:+ ")/" +:+ DBName dbConfig
  +:+ "?charset=utf8mb4&parseTime=true&loc=Local".

Section WithLibraries.
Context {U : Unicode} {B : sql.Backend} {D : Driver}.

(** A database whose data source opens and whose handle answers the
    ping. *)
Definition reachable (dbConfig : DBConfig) : Prop :=
  exists h, Open (dsnOf dbConfig) = inl h /\ Ping h = None.

(** The handle that [sql.Open] gives for a database, if it gives one. *)
Definition handleOf (dbConfig : DBConfig) : option sql.DB :=
  match Open (dsnOf dbConfig) with
  | inl h => Some h
  | inr _ => None
  end.

(** The loop of [NewDBManager] over the databases still to visit.  ([range]
    over a map visits its entries in an order that is not specified: the
    order is an argument.)  The limits set on the pool of a handle are not
    seen by the gateway and are left out. *)
Fixpoint connect (visit : list (string * DBConfig))
  (connections : gmap string sql.DB) : gmap string sql.DB + db.error :=
  match visit with
  | [] => inl connections
  | (name, dbConfig) :: rest =>
      match Open (dsnOf dbConfig) with
      | inr err =>
          inr (db.errorString ("连接数据库 " +:+ name +:+ " 失败: " +:+ err))
      | inl h =>
          match Ping h with
          | Some err =>
              inr (db.errorString ("ping 数据库 " +:+ name +:+ " 失败: " +:+ err))
          | None => connect rest (<[ name := h ]> connections)
          end
      end
  end.

Definition NewDBManager (cfg : Config) (visit : list (string * DBConfig))
  : db.DBManager + db.error :=
  match connect visit ∅ with
  | inr err => inr err
  | inl connections => inl {| db.connections := connections; db.config := cfg |}
  end.

End WithLibraries.

End opening.

(** ** cmd/ai2mysql-mcp-server: the logger *)

Module logging.

Inductive sink := LogFile | Stderr.

(** One line of log output: where it went, whether it was written through
    a [log.Logger], which puts date and time in front, and its text. *)
Record line := { to : sink; stamped : bool; text : string }.

(** [logFile] and [logger] say whether the pointer is set, and for the
    [log.Logger] where it writes. *)
Record Logger := {
  debugMode : bool;
  logFile : bool;
  logger : option sink
}.

(** A message of a level: [logger.Printf] if there is a logger, then the
    copy on standard error unless a debug logger has its file. *)
Definition logAt (level : string) (l : Logger) (msg : string)
  : State (list line) unit :=
  fun out =>
    let out :=
      match logger l with
      | Some s => out ++ [ {| to := s; stamped := true;
                              text := "[" +:+ level +:+ "] " +:+ msg |} ]
      | None => out
      end in
    let out :=
      if negb (debugMode l) || negb (logFile l)
      then out ++ [ {| to := Stderr; stamped := false;
                       text := "[" +:+ level +:+ "] " +:+ msg +:+ String "010" "" |} ]
      else out in
    (tt, out).

Definition Infof : Logger -> string -> State (list line) unit := logAt "INFO".

Definition Errorf : Logger -> string -> State (list line) unit := logAt "ERROR".

Definition Debugf (l : Logger) (msg : string) : State (list line) unit :=
  fun out =>
    if negb (debugMode l) then (tt, out)
    else
      match logger l with
      | Some s => (tt, out ++ [ {| to := s; stamped := true;
                                   text := "[DEBUG] " +:+ msg |} ])
      | None => (tt, out)
      end.

(** [NewLogger]: [opened] is [None] when the log file opens, else the
    error of [os.OpenFile]. *)
Definition NewLogger (debugMode : bool) (opened : option string)
  : State (list line) (Logger + string) :=
  if debugMode then
    match opened with
    | Some err => ret (inr ("无法创建日志文件: " +:+ err))
    | None =>
        let l := {| debugMode := debugMode; logFile := true;
                    logger := Some LogFile |} in
        bind (Infof l "日志系统初始化成功，正在写入 /tmp/ai2mysql.log")
             (fun _ => ret (inl l))
    end
  else
    ret (inl {| debugMode := debugMode; logFile := false; logger := Some Stderr |}).

End logging.

(** ** cmd/server: the first dispatcher *)

Module server.

Local Open Scope go_scope.

Section WithLibraries.
Context {U : Unicode} {N : json.Strconv} {B : sql.Backend} {J : Marshal}.

Definition handleInitialize (message : mcp.MCPMessage) : State mcp.process unit :=
  let info :=
    json.Object [ ("name", json.Str "MySQL MCP Server");
                  ("version", json.Str "1.0.0") ] in
  let tool name description argument :=
    json.Object
      [ ("name", json.Str name);
        ("description", json.Str description);
        ("inputSchema",
          json.Object
            [ ("type", json.Str "object");
              ("properties",
                json.Object
                  [ ("sql", json.Object [ ("type", json.Str "string");
                                           ("description", json.Str argument) ]) ]);
              ("required", json.Array [ json.Str "sql" ]) ]) ] in
  let tools :=
    json.Array
      [ tool "mcp_mysql_query" "执行MySQL查询（只读，SELECT语句）" "要执行的SQL查询语句";
        tool "mcp_mysql_execute"
          "执行MySQL更新操作（INSERT/UPDATE/DELETE等非查询语句）" "要执行的SQL语句" ] in
  let capabilities := json.Object [ ("tools", tools) ] in
  mcp.sendResponse
    (mcp.resultEnvelope (mcp.ID message)
       (mcp.GoMap [ ("info", info); ("capabilities", capabilities) ])).

Definition handleCallTool (s : mcp.MCPServer) (message : mcp.MCPMessage)
  : State mcp.process unit :=
  match mcp.Unmarshal_ToolParams (json.bytesOf (mcp.Params message)) with
  | inr err =>
      mcp.sendError (mcp.ID message) (-32602) "无效参数" (Some (mcp.ErrorText err))
  | inl params =>
      if String.eqb (mcp.ToolParams_Name params) "mcp_mysql_query" then
        mcp.handleMySQLQuery s (mcp.ID message) (mcp.ToolParams_Params params)
      else if String.eqb (mcp.ToolParams_Name params) "mcp_mysql_execute" then
        mcp.handleMySQLExecute s (mcp.ID message) (mcp.ToolParams_Params params)
      else
        mcp.sendError (mcp.ID message) (-32601) "不支持的工具"
          (Some (mcp.GoString (mcp.ToolParams_Name params)))
  end.

Definition handleMessage (s : mcp.MCPServer) (message : mcp.MCPMessage)
  : State mcp.process unit :=
  if String.eqb (mcp.Method message) "mcp/initialize" then handleInitialize message
  else if String.eqb (mcp.Method message) "mcp/callTool" then handleCallTool s message
  else mcp.sendError (mcp.ID message) (-32601) "方法不支持"
         (Some (mcp.GoString (mcp.Method message))).

Fixpoint serve (s : mcp.MCPServer) (coming : list json.text) (closing : option string)
  : State mcp.process (option string) :=
  match coming with
  | [] =>
      match closing with
      | None => ret None
      | Some err => ret (Some ("读取请求失败: " +:+ err))
      end
  | line :: rest =>
      match mcp.Unmarshal_MCPMessage line with
      | inr err =>
          mcp.sendError None (-32700) "解析JSON失败" (Some (mcp.ErrorText err)) ;;;
          serve s rest closing
      | inl message =>
          handleMessage s message ;;;
          serve s rest closing
      end
  end.

Definition Run (s : mcp.MCPServer) (stdin : mcp.Reader)
  : State mcp.process (option string) :=
  serve s (mcp.lines stdin) (mcp.closing stdin).

End WithLibraries.

End server.

(** ** The answers that a line calls for *)

Module trace.

Section WithLibraries.
Context {U : Unicode} {N : json.Strconv}.

(** The [ID]s of the envelopes that the dispatcher of
    cmd/ai2mysql-mcp-server owes to a line: the [nil] one for a line that
    does not decode, none for [initialized], the one of the message
    otherwise. *)
Definition owed (line : json.text) : list (option json.value) :=
  match mcp.Unmarshal_MCPMessage line with
  | inr _ => [None]
  | inl message =>
      if String.eqb (mcp.Method message) "initialized" then []
      else [mcp.ID message]
  end.

(** The same for the dispatcher of cmd/server, which knows no
    notification. *)
Definition owed0 (line : json.text) : list (option json.value) :=
  match mcp.Unmarshal_MCPMessage line with
  | inr _ => [None]
  | inl message => [mcp.ID message]
  end.

End WithLibraries.

End trace.

(** ** cmd/ai2mysql-mcp-server/main.go: the console *)

Module console.

Local Open Scope go_scope.

(** The four bytes that [trimSQL] removes. *)
Definition blank (c : ascii) : bool :=
  Ascii.eqb c " " || Ascii.eqb c "009" || Ascii.eqb c "010" || Ascii.eqb c "013".

(** The first loop of [trimSQL]: [sql[start:]]. *)
Fixpoint fromStart (sql : string) : string :=
  match sql with
  | EmptyString => EmptyString
  | String c r => if blank c then fromStart r else sql
  end.

(** The second loop, on [sql[start:]]: [sql[start:end]]. *)
Fixpoint toEnd (sql : string) : string :=
  match sql with
  | EmptyString => EmptyString
  | String c r =>
      match toEnd r with
      | EmptyString => if blank c then EmptyString else String c EmptyString
      | t => String c t
      end
  end.

Definition trimSQL (sql : string) : string := toEnd (fromStart sql).

Definition isQuerySQL (sql : string) : bool :=
  let sql := trimSQL sql in
  Nat.leb 6 (String.length sql)
  && (String.eqb (String.substring 0 6 sql) "SELECT"
      || String.eqb (String.substring 0 6 sql) "select").

(** What the console prints: text, or a cell of a row as [fmt.Print] shows
    it. *)
Inductive piece :=
| Text (s : string)
| Cell (v : sql.Value).

Record terminal {B : sql.Backend} := {
  past : sql.history;
  printed : list piece
}.

Section WithLibraries.
Context {U : Unicode} {B : sql.Backend}.

Record MySQLMCPServer := {
  dbManager : db.DBManager;
  config : config.Config
}.

Definition viaGateway {A : Type} (c : State sql.history A) : State terminal A :=
  fun t => let (a, h) := c (past t) in (a, {| past := h; printed := printed t |}).

Definition print (pieces : list piece) : State terminal unit :=
  fun t => (tt, {| past := past t; printed := printed t ++ pieces |}).

Definition newline : string := String "010" "".

Definition tab : string := String "009" "".

(** A line of items with a tab between them, and the newline. *)
Fixpoint tabbed (items : list piece) (first : bool) : list piece :=
  match items with
  | [] => [Text newline]
  | x :: rest => (if first then [x] else [Text tab; x]) ++ tabbed rest false
  end.

Definition handleSQL (s : MySQLMCPServer) (sql : string) : State terminal unit :=
  if Nat.eqb (String.length sql) 0 then ret tt
  else if isQuerySQL sql then
    r <- viaGateway (db.Query (dbManager s) "default" sql []) ;;
    match r with
    | db.Failed _ err => print [Text ("查询失败: " +:+ db.Error err +:+ newline)]
    | db.Ok result =>
        print (tabbed (map Text (db.Columns result)) true
               ++ tabbed (map (fun _ => Text "--------") (db.Columns result)) true
               ++ concat (map (fun row => tabbed (map Cell row) true)
                            (db.Rows result)))
    end
  else
    r <- viaGateway (db.Execute (dbManager s) "default" sql []) ;;
    match r with
    | db.Failed _ err => print [Text ("执行失败: " +:+ db.Error err +:+ newline)]
    | db.Ok result =>
        print [Text ("影响行数: " +:+ pretty (db.RowsAffected result)
                     +:+ ", 最后插入ID: " +:+ pretty (db.LastInsertID result)
                     +:+ newline)]
    end.

End WithLibraries.

End console.

(** ** The go-mcp based server: its environment *)

Module gomcp_env.

(** [getEnvWithDefault] *)
Definition getEnvWithDefault (env : os.environ) (key defaultValue : string) : string :=
  let value := os.Getenv env key in
  if String.eqb value "" then defaultValue else value.

Section WithLibraries.
Context {B : sql.Backend} {D : opening.Driver}.

(** [initDB]: the handle that [sql.Open] gives once it has answered the
    ping, else the error.  The limits set on the pool are not seen by the
    handlers and are left out. *)
Definition initDB (connectionDSN : string) : sql.DB + string :=
  match opening.Open connectionDSN with
  | inr err => inr err
  | inl h =>
      match opening.Ping h with
      | Some err => inr err
      | None => inl h
      end
  end.

(** [main] up to the start of the server: the package-level variables with
    which the handlers run, or the message of [log.Fatalf].  [logOpens]
    says whether the log file can be opened. *)
Definition main (env : os.environ) (logOpens : bool) : gomcp.Globals + string :=
  let isDev := String.eqb (getEnvWithDefault env "IS_DEV" "false") "true" in
  let logEnabled := if isDev then logOpens else false in
  let mysqlHost := getEnvWithDefault env "MYSQL_HOST" "127.0.0.1" in
  let mysqlPort := getEnvWithDefault env "MYSQL_PORT" "3306" in
  let mysqlUser := getEnvWithDefault env "MYSQL_USER" "root" in
  let mysqlPass := getEnvWithDefault env "MYSQL_PASS" "password" in
  let defaultDB := getEnvWithDefault env "DEFAULT_DATABASE" "test" in
  let allowInsert := String.eqb (getEnvWithDefault env "ALLOW_INSERT" "false") "true" in
  let allowUpdate := String.eqb (getEnvWithDefault env "ALLOW_UPDATE" "false") "true" in
  let allowDelete := String.eqb (getEnvWithDefault env "ALLOW_DELETE" "false") "true" in
  let connectionDSN :=
    mysqlUser +:+ ":" +:+ mysqlPass +:+ "@tcp(" +:+ mysqlHost +:+ ":" +:+ mysqlPort
    +:+ ")/" +:+ defaultDB in
  match initDB connectionDSN with
  | inr err => inr ("Database connection failed: " +:+ err)
  | inl db =>
      inl {| gomcp.db := db;
             gomcp.allowInsert := allowInsert;
             gomcp.allowUpdate := allowUpdate;
             gomcp.allowDelete := allowDelete;
             gomcp.logEnabled := logEnabled |}
  end.

End WithLibraries.

End gomcp_env.

(** ** More instances for closed examples *)

Module fixtures.

(** A driver that opens every data source but one, and whose handles
    answer the ping. *)
Definition driver : @opening.Driver demo.backend :=
  {| opening.Open := fun dsn =>
       if String.eqb dsn "" then inr "invalid DSN" else inl (dsn : @sql.DB demo.backend);
     opening.Ping := fun _ => None |}.

Definition env (vars : list (string * string)) : os.environ := list_to_map vars.

(** An environment that names the host and the port and grants INSERT in
    capitals. *)
Definition environment : os.environ :=
  env [ ("MYSQL_HOST", "db.internal"); ("MYSQL_PORT", "3307");
        ("ALLOW_INSERT", "YES") ].

Definition database : config.DBConfig :=
  {| config.Host := "db.internal"; config.Port := 3307; config.User := "root";
     config.Password := ""; config.DBName := "test" |}.

(** The configuration of [environment]. *)
Definition configuration : config.Config :=
  {| config.Databases := {[ "default" := database ]};
     config.Config_Permission := demo.permission true true false false |}.

(** The handle that [driver] opens for [database]. *)
Definition handle : @sql.DB demo.backend :=
  "root:@tcp(db.internal:3307)/test?charset=utf8mb4&parseTime=true&loc=Local".

Definition manager : @db.DBManager demo.backend :=
  {| db.connections := {[ "default" := handle ]}; db.config := configuration |}.

(** A [tools/call] of the tool [name]. *)
Definition call (name : string) (member : string) (arguments : json.value)
  : mcp.MCPMessage :=
  {| mcp.JSONRPC := "2.0"; mcp.ID := Some (json.Number "3");
     mcp.Method := "tools/call";
     mcp.Params := Some (json.Object [ ("name", json.Str name);
                                       (member, arguments) ]);
     mcp.Result := None; mcp.Error := None |}.

(** The console on a gateway without any permission. *)
Definition console : @console.MySQLMCPServer demo.backend :=
  {| console.dbManager := demo.gateway (demo.permission false false false false);
     console.config := demo.configOf (demo.permission false false false false) |}.

End fixtures.

(** ** The vocabulary of the specification *)

(** The statement kinds that have a permission flag of their own, as the
    gateway tells them apart: the keyword that opens the trimmed, lower
    case statement, the flag, and the error of a refusal. *)
Inductive gatewayFlag (p : config.Permission) : string -> bool -> db.error -> Prop :=
| gateway_insert lowerQuery :
    HasPrefix lowerQuery "insert" = true ->
    gatewayFlag p lowerQuery (config.AllowInsert p) (db.errorString "插入操作未被允许")
| gateway_update lowerQuery :
    HasPrefix lowerQuery "update" = true ->
    gatewayFlag p lowerQuery (config.AllowUpdate p) (db.errorString "更新操作未被允许")
| gateway_delete lowerQuery :
    HasPrefix lowerQuery "delete" = true ->
    gatewayFlag p lowerQuery (config.AllowDelete p) (db.errorString "删除操作未被允许").

(** The same for the go-mcp tool, which folds to upper case. *)
Inductive toolFlag {B : sql.Backend} (g : gomcp.Globals)
  : string -> bool -> string -> Prop :=
| tool_insert sqlUpper :
    HasPrefix sqlUpper "INSERT" = true ->
    toolFlag g sqlUpper (gomcp.allowInsert g) "no INSERT permission"
| tool_update sqlUpper :
    HasPrefix sqlUpper "UPDATE" = true ->
    toolFlag g sqlUpper (gomcp.allowUpdate g) "no UPDATE permission"
| tool_delete sqlUpper :
    HasPrefix sqlUpper "DELETE" = true ->
    toolFlag g sqlUpper (gomcp.allowDelete g) "no DELETE permission".

(** The classification of the specification: trim the statement, put it in
    upper case, test the keyword. *)
Definition opensWith {U : Unicode} (sql keyword : string) : bool :=
  HasPrefix (ToUpper (TrimSpace sql)) keyword.

(** The forbidden kinds of the specification: the trimmed statement in
    upper case opens with DROP or TRUNCATE. *)
Definition forbidden (sqlUpper : string) : bool :=
  HasPrefix sqlUpper "DROP" || HasPrefix sqlUpper "TRUNCATE".

(** The same on the lower case text that the gateway inspects. *)
Definition forbiddenLower (lowerQuery : string) : bool :=
  HasPrefix lowerQuery "drop" || HasPrefix lowerQuery "truncate".

(** A step of the server that hands exactly one envelope to the output,
    with [id] as its [ID], and leaves what was written before in place. *)
Definition answers {B : sql.Backend} (id : option json.value)
  (c : State mcp.process unit) : Prop :=
  forall p, exists response past',
    c p = (tt, {| mcp.past := past'; mcp.stdout := mcp.stdout p ++ [response] |})
    /\ mcp.ID response = id.

(** * Properties *)

(** ** Strings *)

Lemma HasPrefix_split (s p : string) :
  HasPrefix s p = true -> exists rest, s = p +:+ rest.
Proof.
  unfold HasPrefix. revert s.
  induction p as [|a p IH]; intros s H.
  - exists s. reflexivity.
  - destruct s as [|b s]; simpl in H; [discriminate|].
    destruct (ascii_dec a b) as [->|]; [|discriminate].
    destruct (IH s H) as [rest ->]. exists rest. reflexivity.
Qed.

Lemma prefix_empty (s : string) : String.prefix "" s = true.
Proof. destruct s; reflexivity. Qed.

(** In the hypothesis [H : HasPrefix u kw = true], write [u] as [kw]
    followed by the rest. *)
Ltac opens_with H :=
  let rest := fresh "rest" in
  let E := fresh "E" in
  apply HasPrefix_split in H; destruct H as [rest E];
  cbv [String.append] in E.

(** *** The classifiers on ASCII statements *)

Ltac bytes c := destruct c as [[] [] [] [] [] [] [] []]; reflexivity.

Lemma upperByte_nonASCII (c : ascii) : nonASCII (upperByte c) = nonASCII c.
Proof. bytes c. Qed.

Lemma lowerByte_nonASCII (c : ascii) : nonASCII (lowerByte c) = nonASCII c.
Proof. bytes c. Qed.

Lemma upperByte_space (c : ascii) : asciiSpace (upperByte c) = asciiSpace c.
Proof. bytes c. Qed.

Lemma lowerByte_space (c : ascii) : asciiSpace (lowerByte c) = asciiSpace c.
Proof. bytes c. Qed.

Lemma lower_upper (c : ascii) : lowerByte (upperByte c) = lowerByte c.
Proof. bytes c. Qed.

Lemma upper_upper (c : ascii) : upperByte (upperByte c) = upperByte c.
Proof. bytes c. Qed.

Lemma upper_lower_upper (c : ascii) :
  upperByte (lowerByte (upperByte c)) = upperByte c.
Proof. bytes c. Qed.

Lemma upperByte_keeps : keeps upperByte.
Proof. intros c. split; [apply upperByte_nonASCII | apply upperByte_space]. Qed.

Lemma lowerByte_keeps : keeps lowerByte.
Proof. intros c. split; [apply lowerByte_nonASCII | apply lowerByte_space]. Qed.

Lemma mapBytes_mapBytes (f g h : ascii -> ascii) (s : string) :
  (forall c, f (g c) = h c) -> mapBytes f (mapBytes g s) = mapBytes h s.
Proof.
  intros E. induction s as [|c r IH]; simpl; [reflexivity|].
  rewrite E, IH. reflexivity.
Qed.

Lemma scanRight_map (f : ascii -> ascii) (s : string) :
  keeps f -> scanRight (mapBytes f s) = map_rscan f (scanRight s).
Proof.
  intros Hf. induction s as [|c r IH]; simpl; [reflexivity|].
  rewrite IH. destruct (scanRight r); simpl; try reflexivity.
  destruct (Hf c) as [-> ->].
  destruct (nonASCII c); [reflexivity|]. destruct (asciiSpace c); reflexivity.
Qed.

(** On an ASCII string the scan from the right never meets a byte of the
    Unicode path, and what it keeps is ASCII. *)
Lemma scanRight_ascii (s : string) :
  isASCII s = true ->
  match scanRight s with
  | Escaped _ => False
  | Stopped t => isASCII t = true
  | AllSpace => True
  end.
Proof.
  induction s as [|c r IH]; simpl; [trivial|].
  intros H. apply andb_true_iff in H. destruct H as [Hc Hr].
  specialize (IH Hr). destruct (scanRight r); simpl.
  - apply negb_true_iff in Hc. rewrite Hc.
    destruct (asciiSpace c); simpl; [trivial|]. rewrite Hc. reflexivity.
  - rewrite Hc, IH. reflexivity.
  - destruct IH.
Qed.

(** Trimming an ASCII string commutes with a case map and gives an ASCII
    string, whatever the Unicode tables. *)
Lemma TrimSpace_map {U : Unicode} (f : ascii -> ascii) (s : string) :
  keeps f -> isASCII s = true ->
  TrimSpace (mapBytes f s) = mapBytes f (TrimSpace s)
  /\ isASCII (TrimSpace s) = true.
Proof.
  intros Hf. induction s as [|c r IH]; simpl; [auto|].
  intros H. apply andb_true_iff in H. destruct H as [Hc Hr].
  destruct (Hf c) as [-> ->]. apply negb_true_iff in Hc. rewrite Hc.
  destruct (asciiSpace c) eqn:Hs; [apply IH, Hr|].
  unfold trimRight.
  change (String (f c) (mapBytes f r)) with (mapBytes f (String c r)).
  rewrite (scanRight_map f _ Hf).
  assert (Ha : isASCII (String c r) = true)
    by (simpl; rewrite Hc, Hr; reflexivity).
  pose proof (scanRight_ascii _ Ha) as Hscan.
  destruct (scanRight (String c r)); simpl; auto. destruct Hscan.
Qed.

(** On strings without lower case letters, lowering both sides keeps the
    prefix test. *)
Lemma prefix_lower (p u : string) :
  mapBytes upperByte p = p -> mapBytes upperByte u = u ->
  String.prefix (mapBytes lowerByte p) (mapBytes lowerByte u) = String.prefix p u.
Proof.
  revert u. induction p as [|a p IH]; intros u Hp Hu.
  { simpl. rewrite !prefix_empty. reflexivity. }
  destruct u as [|b u]; [reflexivity|].
  simpl in Hp, Hu. injection Hp as Ha Hp. injection Hu as Hb Hu. simpl.
  destruct (ascii_dec a b) as [->|Hab].
  - destruct (ascii_dec (lowerByte b) (lowerByte b));
      [apply IH; assumption|contradiction].
  - destruct (ascii_dec (lowerByte a) (lowerByte b)) as [E|]; [|reflexivity].
    exfalso. apply Hab.
    rewrite <- Ha, <- Hb, <- (upper_lower_upper a), <- (upper_lower_upper b).
    rewrite Ha, Hb, E. reflexivity.
Qed.

(** On an ASCII statement the specification, the go-mcp tools (upper case,
    then trim) and the gateway (lower case, then trim, lower case keyword)
    classify alike, for every keyword in upper case. *)
Lemma classifiers_agree {U : Unicode} (sql keyword : string) :
  isASCII sql = true ->
  mapBytes upperByte keyword = keyword ->
  HasPrefix (TrimSpace (ToUpper sql)) keyword = opensWith sql keyword
  /\ HasPrefix (TrimSpace (ToLower sql)) (mapBytes lowerByte keyword)
     = opensWith sql keyword.
Proof.
  intros Hascii Hkw. unfold opensWith, ToUpper, ToLower. rewrite Hascii.
  destruct (TrimSpace_map upperByte sql upperByte_keeps Hascii) as [Eup Ht].
  destruct (TrimSpace_map lowerByte sql lowerByte_keeps Hascii) as [Elo _].
  rewrite Eup, Elo, Ht. split; [reflexivity|].
  unfold HasPrefix.
  rewrite <- (mapBytes_mapBytes lowerByte upperByte lowerByte (TrimSpace sql)
                lower_upper).
  apply prefix_lower; [exact Hkw|].
  apply mapBytes_mapBytes, upper_upper.
Qed.

(** ** The Database Gateway *)

Section Gateway.
Context {U : Unicode} {B : sql.Backend}.

Lemma runExec_sends (m : db.DBManager) (dbName query : string)
  (args : list sql.Value) (h : sql.DB) (past : sql.history) :
  db.connections m !! dbName = Some h ->
  snd (db.runExec m dbName query args past) = past ++ [sql.CallExec h query args].
Proof.
  intros Hconn. unfold db.runExec, db.GetDB. rewrite Hconn.
  unfold bind, sql.Exec, ret.
  destruct (sql.server_Exec past h query args) as [result|e]; [|reflexivity].
  destruct (sql.RowsAffected result) as [n [e|]]; [reflexivity|].
  destruct (sql.LastInsertId result) as [k [e|]]; reflexivity.
Qed.

Lemma runQuery_sends (m : db.DBManager) (dbName query : string)
  (args : list sql.Value) (h : sql.DB) (past : sql.history) :
  db.connections m !! dbName = Some h ->
  snd (db.runQuery m dbName query args past) = past ++ [sql.CallQuery h query args].
Proof.
  intros Hconn. unfold db.runQuery, db.GetDB. rewrite Hconn.
  unfold bind, sql.Query, ret.
  destruct (sql.server_Query past h query args) as [rows|e]; [|reflexivity].
  destruct (sql.rows_Columns rows) as [columns|e]; [|reflexivity].
  destruct (db.scanRows columns (sql.rows_fetched rows) []); [|reflexivity].
  destruct (sql.rows_Err rows); reflexivity.
Qed.

(** No failure below the permission check of [Query] comes with a [nil]
    result. *)
Lemma runQuery_not_nil (m : db.DBManager) (dbName query : string)
  (args : list sql.Value) (past : sql.history) (err : db.error) :
  fst (db.runQuery m dbName query args past) <> db.Failed None err.
Proof.
  unfold db.runQuery, bind, sql.Query, ret.
  destruct (db.GetDB m dbName) as [h|e]; [|discriminate].
  destruct (sql.server_Query past h query args) as [rows|e]; [|discriminate].
  destruct (sql.rows_Columns rows) as [columns|e]; [|discriminate].
  destruct (db.scanRows columns (sql.rows_fetched rows) []); [|discriminate].
  destruct (sql.rows_Err rows); discriminate.
Qed.

Lemma runExec_not_nil (m : db.DBManager) (dbName query : string)
  (args : list sql.Value) (past : sql.history) (err : db.error) :
  fst (db.runExec m dbName query args past) <> db.Failed None err.
Proof.
  unfold db.runExec, bind, sql.Exec, ret.
  destruct (db.GetDB m dbName) as [h|e]; [|discriminate].
  destruct (sql.server_Exec past h query args) as [result|e]; [|discriminate].
  destruct (sql.RowsAffected result) as [n [e|]]; [discriminate|].
  destruct (sql.LastInsertId result) as [k [e|]]; discriminate.
Qed.

(** The permission switch of [Execute] knows no forbidden kind. *)
Lemma executeDenied_forbidden (p : config.Permission) (lowerQuery : string) :
  forbiddenLower lowerQuery = true ->
  db.executeDenied p lowerQuery = None.
Proof.
  unfold forbiddenLower. intros H. apply orb_true_iff in H.
  destruct H as [H|H]; opens_with H; subst lowerQuery; reflexivity.
Qed.


(** What the switch does on a kind that has a flag. *)
Lemma executeDenied_flag (p : config.Permission) (lowerQuery : string)
  (flag : bool) (denial : db.error) :
  gatewayFlag p lowerQuery flag denial ->
  db.executeDenied p lowerQuery = if flag then None else Some denial.
Proof.
  intros [lq H|lq H|lq H]; opens_with H; subst lq;
    unfold db.executeDenied, HasPrefix; cbn; rewrite prefix_empty;
    match goal with |- context [negb ?b] => destruct b end; reflexivity.
Qed.

End Gateway.

(** ** The go-mcp tools *)

Section Tools.
Context {U : Unicode} {B : sql.Backend} {J : Marshal}.

(** A statement of a kind with a flag: refused without the flag, sent to
    the server with it. *)
Lemma handleExecute_flag (g : gomcp.Globals) (request : gomcp.CallToolRequest)
  (sql : string) (past : sql.history) (flag : bool) (denial : string) :
  gomcp.sqlArgument request = Some sql ->
  toolFlag g (TrimSpace (ToUpper sql)) flag denial ->
  if flag
  then snd (gomcp.handleExecute g request past)
       = past ++ [sql.CallExec (gomcp.db g) sql []]
  else gomcp.handleExecute g request past
       = (gomcp.Returned (None, Some denial), past).
Proof.
  intros Harg Hflag. unfold gomcp.handleExecute. rewrite Harg. cbv zeta.
  revert Hflag. generalize (TrimSpace (ToUpper sql)). intros u Hflag.
  destruct Hflag as [u H|u H|u H]; opens_with H; subst u;
    unfold HasPrefix; cbn; rewrite ?prefix_empty;
    match goal with |- context [gomcp.allowInsert ?g] => destruct (gomcp.allowInsert g)
                  | |- context [gomcp.allowUpdate ?g] => destruct (gomcp.allowUpdate g)
                  | |- context [gomcp.allowDelete ?g] => destruct (gomcp.allowDelete g)
    end; cbn; try reflexivity;
    (destruct (sql.server_Exec past (gomcp.db g) sql []) as [result|e];
     [destruct (Marshal_response _ _)|]; reflexivity).
Qed.

(** The denylist of [handleExecute]: a statement that opens with DROP or
    TRUNCATE is never sent, whatever the flags. *)
Lemma handleExecute_denylist (g : gomcp.Globals) (request : gomcp.CallToolRequest)
  (sql : string) (past : sql.history) :
  gomcp.sqlArgument request = Some sql ->
  forbidden (TrimSpace (ToUpper sql)) = true ->
  gomcp.handleExecute g request past
  = (gomcp.rejectLogged g (TrimSpace (ToUpper sql))
       "DROP or TRUNCATE operations are not allowed", past).
Proof.
  intros Harg H. unfold gomcp.handleExecute. rewrite Harg. cbv zeta.
  revert H. generalize (TrimSpace (ToUpper sql)). intros u H.
  unfold forbidden in H. apply orb_true_iff in H.
  destruct H as [H|H].
  - pose proof H as H'. opens_with H. rewrite H', E.
    unfold HasPrefix; cbn. reflexivity.
  - pose proof H as H'. opens_with H. rewrite H', E.
    unfold HasPrefix; cbn. reflexivity.
Qed.

(** The gate of [handleQuery]: only SELECT, SHOW and DESCRIBE are sent. *)
Lemma handleQuery_gate (g : gomcp.Globals) (request : gomcp.CallToolRequest)
  (sql : string) (past : sql.history) :
  gomcp.sqlArgument request = Some sql ->
  HasPrefix (TrimSpace (ToUpper sql)) "SELECT" = false ->
  HasPrefix (TrimSpace (ToUpper sql)) "SHOW" = false ->
  HasPrefix (TrimSpace (ToUpper sql)) "DESCRIBE" = false ->
  gomcp.handleQuery g request past
  = (gomcp.rejectLogged g (TrimSpace (ToUpper sql))
       "only SELECT, SHOW, or DESCRIBE queries are allowed", past).
Proof.
  intros Harg H1 H2 H3. unfold gomcp.handleQuery. rewrite Harg. cbv zeta.
  rewrite H1, H2, H3. reflexivity.
Qed.

End Tools.

(** ** Materialising a cursor *)

Lemma scanRows_complete (columns : list string) (fetched collected : list (list sql.Value)) :
  Forall (fun row => length row = length columns) fetched ->
  db.scanRows columns fetched collected
  = inl (collected ++ map (map db.convertCell) fetched).
Proof.
  intros Hall. revert collected.
  induction Hall as [|row fetched Hrow _ IH]; intros collected; simpl.
  - rewrite app_nil_r. reflexivity.
  - unfold sql.Scan. rewrite Hrow, Nat.eqb_refl, IH, <- app_assoc. reflexivity.
Qed.

Lemma scanRows_ragged (columns : list string) (fetched collected : list (list sql.Value)) :
  Exists (fun row => length row <> length columns) fetched ->
  exists e, db.scanRows columns fetched collected = inr e.
Proof.
  intros Hex. revert collected.
  induction Hex as [row fetched Hrow|row fetched _ IH]; intros collected; simpl;
    unfold sql.Scan.
  - apply Nat.eqb_neq in Hrow. rewrite Hrow. eauto.
  - destruct (length row =? length columns)%nat; eauto.
Qed.

Lemma scanRows_inl (columns : list string) (fetched collected out : list (list sql.Value)) :
  db.scanRows columns fetched collected = inl out ->
  Forall (fun row => length row = length columns) fetched.
Proof.
  revert collected. induction fetched as [|row fetched IH]; intros collected H.
  - constructor.
  - simpl in H. unfold sql.Scan in H.
    destruct (length row =? length columns)%nat eqn:E; [|discriminate].
    constructor; [apply Nat.eqb_eq, E | eapply IH, H].
Qed.

(** ** The dispatcher *)

Section Dispatcher.
Context {U : Unicode} {N : json.Strconv} {B : sql.Backend} {J : Marshal}.

Lemma sendResponse_answers (response : mcp.MCPMessage) :
  answers (mcp.ID response) (mcp.sendResponse response).
Proof. intros p. exists response, (mcp.past p). split; reflexivity. Qed.

Lemma sendError_answers (id : option json.value) (code : Z) (message : string)
  (data : option mcp.any) :
  answers id (mcp.sendError id code message data).
Proof. apply (sendResponse_answers (mcp.errorEnvelope id code message data)). Qed.

Lemma replyQuery_answers (id : option json.value) (r : db.returned db.QueryResult) :
  answers id (mcp.replyQuery id r).
Proof.
  destruct r as [result|result err]; simpl.
  - destruct (MarshalIndent_QueryResult result).
    + apply (sendResponse_answers (mcp.resultEnvelope id _)).
    + apply sendError_answers.
  - apply sendError_answers.
Qed.

Lemma replyExecute_answers (id : option json.value) (r : db.returned db.ExecuteResult) :
  answers id (mcp.replyExecute id r).
Proof.
  destruct r as [result|result err]; simpl.
  - destruct (MarshalIndent_ExecuteResult result).
    + apply (sendResponse_answers (mcp.resultEnvelope id _)).
    + apply sendError_answers.
  - apply sendError_answers.
Qed.

Lemma viaGateway_answers {A : Type} (id : option json.value)
  (c : State sql.history A) (k : A -> State mcp.process unit) :
  (forall a, answers id (k a)) ->
  answers id (bind (mcp.viaGateway c) k).
Proof.
  intros Hk p. unfold bind, mcp.viaGateway.
  destruct (c (mcp.past p)) as [a h].
  destruct (Hk a {| mcp.past := h; mcp.stdout := mcp.stdout p |})
    as (response & past' & E & Hid).
  exists response, past'. split; [exact E | exact Hid].
Qed.

Lemma handleMySQLQuery_answers (s : mcp.MCPServer) (id : option json.value)
  (rawParams : json.RawMessage) :
  answers id (mcp.handleMySQLQuery s id rawParams).
Proof.
  unfold mcp.handleMySQLQuery.
  destruct (negb _); [apply sendError_answers|].
  destruct (mcp.Unmarshal_SQLParams _); [|apply sendError_answers].
  apply viaGateway_answers, replyQuery_answers.
Qed.

Lemma handleMySQLExecute_answers (s : mcp.MCPServer) (id : option json.value)
  (rawParams : json.RawMessage) :
  answers id (mcp.handleMySQLExecute s id rawParams).
Proof.
  unfold mcp.handleMySQLExecute.
  destruct (mcp.Unmarshal_SQLParams _); [|apply sendError_answers].
  apply viaGateway_answers, replyExecute_answers.
Qed.

Lemma handleCallTool_answers (s : mcp.MCPServer) (message : mcp.MCPMessage) :
  answers (mcp.ID message) (mcp.handleCallTool s message).
Proof.
  unfold mcp.handleCallTool.
  destruct (mcp.toolOf message) as [[toolName toolParams]|err];
    [|apply sendError_answers].
  destruct (String.eqb toolName "mcp_mysql_query");
    [apply handleMySQLQuery_answers|].
  destruct (String.eqb toolName "mcp_mysql_execute");
    [apply handleMySQLExecute_answers|apply sendError_answers].
Qed.

(** Every method but [initialized] is answered once, with or without an
    [id] in the message. *)
Lemma handleMessage_answers (s : mcp.MCPServer) (message : mcp.MCPMessage) :
  mcp.Method message <> "initialized" ->
  answers (mcp.ID message) (mcp.handleMessage s message).
Proof.
  intros Hmethod. unfold mcp.handleMessage.
  destruct (String.eqb (mcp.Method message) "initialize");
    [apply (sendResponse_answers (mcp.resultEnvelope (mcp.ID message) _))|].
  destruct (String.eqb_spec (mcp.Method message) "initialized") as [E|_];
    [contradiction|].
  destruct (String.eqb (mcp.Method message) "tools/list");
    [apply (sendResponse_answers (mcp.resultEnvelope (mcp.ID message) _))|].
  destruct (String.eqb (mcp.Method message) "mcp/callTool");
    [apply handleCallTool_answers|].
  destruct (String.eqb (mcp.Method message) "tools/call");
    [apply handleCallTool_answers|apply sendError_answers].
Qed.

(** [initialized] is never answered. *)
Lemma handleMessage_initialized (s : mcp.MCPServer) (message : mcp.MCPMessage) :
  mcp.Method message = "initialized" ->
  mcp.handleMessage s message = ret tt.
Proof. intros E. unfold mcp.handleMessage. rewrite E. reflexivity. Qed.

(** What [Run] returns is decided by the end of the input alone. *)
Lemma serve_returns (s : mcp.MCPServer) (coming : list json.text)
  (closing : option string) (p : mcp.process) :
  fst (mcp.serve s coming closing p)
  = match closing with
    | None => None
    | Some err => Some ("读取请求失败: " +:+ err)
    end.
Proof.
  revert p. induction coming as [|line rest IH]; intros p; simpl.
  - destruct closing; reflexivity.
  - destruct (mcp.Unmarshal_MCPMessage line) as [message|err]; unfold bind.
    + destruct (mcp.handleMessage s message p) as [[] p']. apply IH.
    + destruct (mcp.sendError _ _ _ _ p) as [[] p']. apply IH.
Qed.

(** The [ID]s of what the loop writes: in the order of the lines, one for
    each line but the [initialized] ones. *)
Lemma serve_answers_in_order (s : mcp.MCPServer) (coming : list json.text)
  (closing : option string) (p : mcp.process) :
  map mcp.ID (mcp.stdout (snd (mcp.serve s coming closing p)))
  = map mcp.ID (mcp.stdout p) ++ concat (map trace.owed coming).
Proof.
  revert p. induction coming as [|line coming IH]; intros p.
  - simpl. rewrite app_nil_r. destruct closing; reflexivity.
  - cbn [mcp.serve map concat]. unfold trace.owed at 1.
    destruct (mcp.Unmarshal_MCPMessage line) as [message|err]; unfold bind.
    + destruct (String.eqb_spec (mcp.Method message) "initialized") as [E|Hne].
      * rewrite (handleMessage_initialized s message E). apply IH.
      * destruct (handleMessage_answers s message Hne p)
          as (response & past' & -> & Hid).
        rewrite IH. cbn [mcp.stdout]. rewrite map_app, <- app_assoc, <- Hid.
        reflexivity.
    + cbn. rewrite IH. cbn [mcp.stdout]. rewrite map_app, <- app_assoc.
      reflexivity.
Qed.

(** An object without a member for [sql] decodes to the zero [SQLParams]. *)
Lemma intoStruct_no_sql (members : list (string * json.value)) (params : mcp.SQLParams) :
  json.hasMember "sql" members = false ->
  json.intoStruct mcp.store_SQLParams members params = inl params.
Proof.
  induction members as [|[key v] members IH]; intros H; simpl in *.
  - reflexivity.
  - apply orb_false_iff in H. destruct H as [Hkey Hrest].
    unfold mcp.store_SQLParams at 1. rewrite Hkey. apply IH, Hrest.
Qed.

Lemma replyExecute_past (id : option json.value) (r : db.returned db.ExecuteResult)
  (p : mcp.process) :
  mcp.past (snd (mcp.replyExecute id r p)) = mcp.past p.
Proof.
  destruct r as [result|result err]; simpl;
    [destruct (MarshalIndent_ExecuteResult result)|]; reflexivity.
Qed.

Lemma replyQuery_past (id : option json.value) (r : db.returned db.QueryResult)
  (p : mcp.process) :
  mcp.past (snd (mcp.replyQuery id r p)) = mcp.past p.
Proof.
  destruct r as [result|result err]; simpl;
    [destruct (MarshalIndent_QueryResult result)|]; reflexivity.
Qed.

(** What reaches MySQL in a gateway call followed by the reply. *)
Lemma gateway_call_past {A : Type} (c : State sql.history A)
  (k : A -> State mcp.process unit) (p : mcp.process) :
  (forall a q, mcp.past (snd (k a q)) = mcp.past q) ->
  mcp.past (snd (bind (mcp.viaGateway c) k p)) = snd (c (mcp.past p)).
Proof.
  intros Hk. unfold bind, mcp.viaGateway.
  destruct (c (mcp.past p)) as [a h]. rewrite Hk. reflexivity.
Qed.

End Dispatcher.

(** ** The claims of the specification *)

Section Claims.
Context {U : Unicode} {N : json.Strconv} {B : sql.Backend} {J : Marshal}.

(** *** C1: DROP and TRUNCATE through [Execute] *)

(** [Execute] has no denylist: a statement that opens with DROP or TRUNCATE
    goes on to the connection like any statement without a flag. *)
Lemma Execute_no_denylist (m : db.DBManager) (dbName sql : string)
  (args : list sql.Value) :
  forbiddenLower (TrimSpace (ToLower sql)) = true ->
  db.Execute m dbName sql args = db.runExec m dbName sql args.
Proof.
  intros H. unfold db.Execute. cbv zeta.
  rewrite (executeDenied_forbidden _ _ H). reflexivity.
Qed.

(** C1, at the failing input.  The claim is that every statement opening
    with DROP or TRUNCATE is refused by the execute operation with a
    forbidden-statement error and is not sent to the backend, even with all
    four permission flags set.  The go-mcp tool does so
    ([handleExecute_denylist]); the gateway does not: the statement
    ["DROP TABLE t"] is of a forbidden kind by the rule of the
    specification, yet whatever the permission flags [Execute] runs it like
    any statement without a flag, and it reaches MySQL on the default
    connection. *)
Theorem Execute_sends_DROP_TABLE (m : db.DBManager) (h : sql.DB)
  (past : sql.history) :
  db.connections m !! "default" = Some h ->
  opensWith "DROP TABLE t" "DROP" = true
  /\ db.Execute m "default" "DROP TABLE t" [] past
     = db.runExec m "default" "DROP TABLE t" [] past
  /\ snd (db.Execute m "default" "DROP TABLE t" [] past)
     = past ++ [sql.CallExec h "DROP TABLE t" []].
Proof.
  intros Hconn. split; [reflexivity|].
  rewrite (Execute_no_denylist m "default" "DROP TABLE t" [] eq_refl).
  split; [reflexivity|]. apply runExec_sends, Hconn.
Qed.

(** *** C2: the read gate *)

(** C2.  For every statement and every permission configuration, [Query]
    fails with the permission error exactly when [AllowQuery] is false, and
    then nothing has been sent to the backend; with [AllowQuery] set it goes
    on to the connection whatever the statement is, and the three other
    flags have no part in what it does.  The handler of the query tool has
    the same gate in front of everything else: with the flag unset it
    answers with the permission error, code -32000, before it decodes its
    arguments and without a call of the gateway. *)
Theorem Query_read_gate (s : mcp.MCPServer) (dbName query : string)
  (args : list sql.Value) (past : sql.history) :
  let m := mcp.dbManager s in
  let p := config.Config_Permission (db.config m) in
  (fst (db.Query m dbName query args past)
     = db.Failed None (db.errorString "查询操作未被允许")
   <-> config.AllowQuery p = false)
  /\ (config.AllowQuery p = false ->
      snd (db.Query m dbName query args past) = past)
  /\ (config.AllowQuery p = true ->
      db.Query m dbName query args = db.runQuery m dbName query args)
  /\ (forall m' : db.DBManager,
        db.connections m' = db.connections m ->
        config.AllowQuery (config.Config_Permission (db.config m'))
        = config.AllowQuery p ->
        db.Query m' dbName query args past = db.Query m dbName query args past)
  /\ (config.AllowQuery (config.Config_Permission (mcp.config s)) = false ->
      forall id rawParams (q : mcp.process),
        mcp.handleMySQLQuery s id rawParams q
        = (tt, {| mcp.past := mcp.past q;
                  mcp.stdout := mcp.stdout q
                    ++ [mcp.errorEnvelope id (-32000) "查询操作未被允许" None] |})).
Proof.
  cbv zeta. unfold db.Query.
  repeat split.
  - destruct (config.AllowQuery _); [|reflexivity].
    simpl. intros H. exfalso. exact (runQuery_not_nil _ _ _ _ _ _ H).
  - intros ->. reflexivity.
  - intros ->. reflexivity.
  - intros ->. reflexivity.
  - intros m' Hconn ->.
    destruct (config.AllowQuery _); [|reflexivity]. simpl.
    unfold db.runQuery, db.GetDB. rewrite Hconn. reflexivity.
  - intros Hgate id rawParams q. unfold mcp.handleMySQLQuery.
    rewrite Hgate. reflexivity.
Qed.

(** *** C3: the flags of INSERT, UPDATE and DELETE *)

(** C3.  For every statement whose trimmed, case-folded text opens with
    INSERT, UPDATE or DELETE, the execute operation is decided by the
    matching flag alone.  In the gateway: without the flag [Execute] returns
    the permission error and nothing is sent; with the flag it goes on as
    [runExec], which looks the connection up and, the label being
    configured, sends the statement once.  A [nil] result next to the error
    is the mark of a refusal, and it is returned exactly when the flag is
    unset.  The go-mcp tool, which has one connection, refuses or sends on
    its own flags alike. *)
Theorem Execute_permission_gate :
  (forall (m : db.DBManager) (dbName sql : string) (args : list sql.Value)
          (past : sql.history) (flag : bool) (denial : db.error),
      gatewayFlag (config.Config_Permission (db.config m))
        (TrimSpace (ToLower sql)) flag denial ->
      (flag = false ->
       db.Execute m dbName sql args past = (db.Failed None denial, past))
      /\ (flag = true ->
          db.Execute m dbName sql args past = db.runExec m dbName sql args past)
      /\ (flag = true -> forall h, db.connections m !! dbName = Some h ->
          snd (db.Execute m dbName sql args past)
          = past ++ [sql.CallExec h sql args])
      /\ ((exists err, fst (db.Execute m dbName sql args past) = db.Failed None err)
          <-> flag = false))
  /\ (forall (g : gomcp.Globals) (request : gomcp.CallToolRequest) (sql : string)
             (past : sql.history) (flag : bool) (denial : string),
      gomcp.sqlArgument request = Some sql ->
      toolFlag g (TrimSpace (ToUpper sql)) flag denial ->
      (flag = false ->
       gomcp.handleExecute g request past
       = (gomcp.Returned (None, Some denial), past))
      /\ (flag = true ->
          snd (gomcp.handleExecute g request past)
          = past ++ [sql.CallExec (gomcp.db g) sql []])).
Proof.
  split.
  - intros m dbName sql args past flag denial Hflag.
    assert (E : db.Execute m dbName sql args past
                = if flag then db.runExec m dbName sql args past
                  else (db.Failed None denial, past)).
    { unfold db.Execute. cbv zeta. rewrite (executeDenied_flag _ _ _ _ Hflag).
      destruct flag; reflexivity. }
    rewrite E. repeat split.
    + intros ->. reflexivity.
    + intros ->. reflexivity.
    + intros -> h Hconn. apply runExec_sends, Hconn.
    + intros [err Herr]. destruct flag; [|reflexivity].
      exfalso. exact (runExec_not_nil _ _ _ _ _ _ Herr).
    + intros ->. exists denial. reflexivity.
  - intros g request sql past flag denial Harg Hflag.
    pose proof (handleExecute_flag g request sql past flag denial Harg Hflag) as H.
    split; intros ->; exact H.
Qed.

(** *** C4: the handlers of the dispatcher and dangerous statements *)

Lemma Unmarshal_sql (sql : string) :
  mcp.Unmarshal_SQLParams
    (json.bytesOf (Some (json.Object [("sql", json.Str sql)])))
  = inl {| mcp.SQL := sql |}.
Proof. reflexivity. Qed.

(** C4, at the failing input.  The claim is that both tool handlers gate
    dangerous statements by their prefix before they touch the backend, so
    that no forbidden statement gets through.  The handlers of the go-mcp
    server do ([handleQuery_gate], [handleExecute_denylist]); those of the
    dispatcher do not look at the statement at all: with the arguments
    [{"sql":"DROP TABLE t"}] the execute handler has the statement executed
    on the default connection, and so has the query handler once the read
    flag is set. *)
Theorem handlers_send_DROP_TABLE (s : mcp.MCPServer) (h : sql.DB)
  (id : option json.value) (p : mcp.process) :
  db.connections (mcp.dbManager s) !! "default" = Some h ->
  let arguments := Some (json.Object [("sql", json.Str "DROP TABLE t")]) in
  mcp.past (snd (mcp.handleMySQLExecute s id arguments p))
  = mcp.past p ++ [sql.CallExec h "DROP TABLE t" []]
  /\ (config.AllowQuery (config.Config_Permission (mcp.config s)) = true ->
      config.AllowQuery (config.Config_Permission (db.config (mcp.dbManager s)))
      = true ->
      mcp.past (snd (mcp.handleMySQLQuery s id arguments p))
      = mcp.past p ++ [sql.CallQuery h "DROP TABLE t" []]).
Proof.
  intros Hconn arguments. subst arguments. split.
  - unfold mcp.handleMySQLExecute. rewrite Unmarshal_sql.
    rewrite gateway_call_past by apply replyExecute_past.
    cbn [mcp.SQL].
    rewrite (Execute_no_denylist _ _ "DROP TABLE t" [] eq_refl).
    apply runExec_sends, Hconn.
  - intros Hserver Hgateway. unfold mcp.handleMySQLQuery.
    rewrite Hserver, Unmarshal_sql. cbn [negb mcp.SQL].
    rewrite gateway_call_past by apply replyQuery_past.
    unfold db.Query. rewrite Hgateway. cbn [negb].
    apply runQuery_sends, Hconn.
Qed.

(** *** C5: one answer for a request, none for a notification *)

(** C5, as amended.  The dispatcher tells what to answer by the method of
    the message, not by the presence of an [id].  For every line that
    decodes to a message: if the method is [initialized], nothing is written
    and the loop goes on with the next line, whether the message has an [id]
    or not; for every other method, recognised or not, exactly one envelope
    is handed to the output, with the [ID] of the message, and the loop goes
    on with the next line.  So every request, a message with a method and an
    [id], is answered once with its [id], unless its method is
    [initialized]. *)
Theorem dispatch_answers_by_method (s : mcp.MCPServer) (line : json.text)
  (message : mcp.MCPMessage) (rest : list json.text) (closing : option string)
  (p : mcp.process) :
  mcp.Unmarshal_MCPMessage line = inl message ->
  (mcp.Method message = "initialized" ->
   mcp.serve s (line :: rest) closing p = mcp.serve s rest closing p)
  /\ (mcp.Method message <> "initialized" ->
      exists response past',
        mcp.ID response = mcp.ID message
        /\ mcp.serve s (line :: rest) closing p
           = mcp.serve s rest closing
               {| mcp.past := past'; mcp.stdout := mcp.stdout p ++ [response] |}).
Proof.
  intros Hline. simpl. rewrite Hline. unfold bind. split.
  - intros Hmethod. rewrite (handleMessage_initialized s message Hmethod).
    reflexivity.
  - intros Hmethod.
    destruct (handleMessage_answers s message Hmethod p)
      as (response & past' & E & Hid).
    exists response, past'. rewrite E. split; [exact Hid|reflexivity].
Qed.

(** *** C6: a line that does not parse *)

(** C6, as amended.  For every line that fails to decode as an envelope,
    be it for its syntax or for a member of the wrong type, the dispatcher
    hands exactly one envelope to the output, an error with code -32700 and
    the [nil] [ID], and sends nothing to MySQL.  The line written for it
    has the members [jsonrpc] and [error] and no other: a [nil] [ID] is
    left out, not written as [null].  Then the loop goes on: the lines that
    follow are served from the state so reached, and each of them gets its
    answer. *)
Theorem parse_error_is_answered (s : mcp.MCPServer) (line : json.text)
  (err : json.UnmarshalError) (rest : list json.text) (closing : option string)
  (p : mcp.process) :
  mcp.Unmarshal_MCPMessage line = inr err ->
  let failure :=
    {| mcp.Code := (-32700)%Z; mcp.Message := "解析JSON失败";
       mcp.Data := Some (mcp.ErrorText err) |} in
  let response :=
    {| mcp.JSONRPC := "2.0"; mcp.ID := None; mcp.Method := ""; mcp.Params := None;
       mcp.Result := None; mcp.Error := Some failure |} in
  snd (mcp.serve s [line] closing p)
  = {| mcp.past := mcp.past p; mcp.stdout := mcp.stdout p ++ [response] |}
  /\ map mcp.Marshal_MCPMessage (mcp.stdout (snd (mcp.serve s [line] closing p)))
     = map mcp.Marshal_MCPMessage (mcp.stdout p)
       ++ [[ ("jsonrpc", mcp.StringField "2.0"); ("error", mcp.ErrorField failure) ]]
  /\ mcp.serve s (line :: rest) closing p
     = mcp.serve s rest closing
         {| mcp.past := mcp.past p; mcp.stdout := mcp.stdout p ++ [response] |}
  /\ map mcp.ID (mcp.stdout (snd (mcp.serve s (line :: rest) closing p)))
     = map mcp.ID (mcp.stdout p) ++ None :: concat (map trace.owed rest).
Proof.
  intros Hline failure response.
  assert (Hstep : forall coming,
             mcp.serve s (line :: coming) closing p
             = mcp.serve s coming closing
                 {| mcp.past := mcp.past p;
                    mcp.stdout := mcp.stdout p ++ [response] |}).
  { intros coming. simpl. rewrite Hline. reflexivity. }
  assert (Hone : snd (mcp.serve s [line] closing p)
                 = {| mcp.past := mcp.past p;
                      mcp.stdout := mcp.stdout p ++ [response] |}).
  { rewrite Hstep. simpl. destruct closing; reflexivity. }
  split; [exact Hone|]. split.
  - rewrite Hone. cbn [mcp.stdout]. rewrite map_app. reflexivity.
  - split; [apply Hstep|].
    rewrite Hstep, serve_answers_in_order. cbn [mcp.stdout].
    rewrite map_app, <- app_assoc. reflexivity.
Qed.

(** *** C7: arguments without [sql] *)

(** The empty statement is of no kind with a flag. *)
Lemma Execute_empty (m : db.DBManager) (dbName : string) (args : list sql.Value) :
  db.Execute m dbName "" args = db.runExec m dbName "" args.
Proof. reflexivity. Qed.

(** C7, at the failing input.  The claim is that a call whose arguments
    lack [sql], or carry a value for it that is no string, is answered with
    invalid params, code -32602, without a call of the gateway.  A value of
    the wrong type is answered so; but the handlers take the field as
    decoded, and the arguments [{}] decode to the empty statement: the
    execute handler passes it to [Execute], which sends it to MySQL, and the
    one envelope written is not the error -32602. *)
Theorem missing_sql_is_executed (s : mcp.MCPServer) (h : sql.DB)
  (id : option json.value) (p : mcp.process) :
  db.connections (mcp.dbManager s) !! "default" = Some h ->
  let q := snd (mcp.handleMySQLExecute s id (Some (json.Object [])) p) in
  mcp.past q = mcp.past p ++ [sql.CallExec h "" []]
  /\ forall message data,
       mcp.stdout q
       <> mcp.stdout p ++ [mcp.errorEnvelope id (-32602) message data].
Proof.
  intros Hconn q. subst q. unfold mcp.handleMySQLExecute.
  change (mcp.Unmarshal_SQLParams (json.bytesOf (Some (json.Object []))))
    with (@inl mcp.SQLParams json.UnmarshalError {| mcp.SQL := "" |}).
  cbn [mcp.SQL]. split.
  - rewrite gateway_call_past by apply replyExecute_past.
    rewrite Execute_empty. apply runExec_sends, Hconn.
  - intros message data. unfold bind, mcp.viaGateway.
    destruct (db.Execute _ _ _ _ _) as [r past'].
    destruct r as [result|result err]; simpl;
      [destruct (MarshalIndent_ExecuteResult result)|]; simpl;
      intros H; apply app_inv_head in H; discriminate.
Qed.

(** *** C8: the rows of a successful query *)

Lemma convertCell_length (row : list sql.Value) :
  length (map db.convertCell row) = length row.
Proof. induction row; simpl; congruence. Qed.

(** C8.  For every successful query there is a cursor that the backend
    returned for it on the resolved connection; the columns of the result
    are those of the cursor, its rows are the rows of the cursor in cursor
    order, each with one cell per column, every [[]byte] cell turned into
    the string of the same bytes and every other cell left as it was.  And
    when, for a cursor, the scan of some row fails, the query returns an
    error, and the result next to it carries the error text and no rows. *)
Theorem Query_materializes :
  (forall (m : db.DBManager) (dbName query : string) (args : list sql.Value)
          (past : sql.history) (result : db.QueryResult),
      fst (db.Query m dbName query args past) = db.Ok result ->
      exists h rows,
        db.connections m !! dbName = Some h
        /\ sql.server_Query past h query args = inl rows
        /\ sql.rows_Columns rows = inl (db.Columns result)
        /\ db.Rows result = map (map db.convertCell) (sql.rows_fetched rows)
        /\ Forall (fun row => length row = length (db.Columns result))
             (db.Rows result))
  /\ (forall b, db.convertCell (sql.VBytes b) = sql.VString b)
  /\ (forall v, (forall b, v <> sql.VBytes b) -> db.convertCell v = v)
  /\ (forall (m : db.DBManager) (dbName query : string) (args : list sql.Value)
             (past : sql.history) (h : sql.DB) (rows : sql.Rows)
             (columns : list string),
      config.AllowQuery (config.Config_Permission (db.config m)) = true ->
      db.connections m !! dbName = Some h ->
      sql.server_Query past h query args = inl rows ->
      sql.rows_Columns rows = inl columns ->
      Exists (fun row => length row <> length columns) (sql.rows_fetched rows) ->
      exists err,
        fst (db.Query m dbName query args past)
        = db.Failed (Some (db.queryFailed err)) err
        /\ db.Rows (db.queryFailed err) = []).
Proof.
  repeat split.
  - intros m dbName query args past result. unfold db.Query.
    destruct (config.AllowQuery _); simpl; [|discriminate].
    unfold db.runQuery, db.GetDB.
    destruct (db.connections m !! dbName) as [h|]; [|discriminate].
    unfold bind, sql.Query, ret.
    destruct (sql.server_Query past h query args) as [rows|e] eqn:Hrows;
      [|discriminate].
    destruct (sql.rows_Columns rows) as [columns|e] eqn:Hcolumns; [|discriminate].
    destruct (db.scanRows columns (sql.rows_fetched rows) []) as [collected|e]
      eqn:Hscan; [|discriminate].
    destruct (sql.rows_Err rows); [discriminate|].
    simpl. intros [= <-]. simpl.
    pose proof (scanRows_inl _ _ _ _ Hscan) as Hall.
    rewrite (scanRows_complete _ _ _ Hall) in Hscan.
    injection Hscan as <-. simpl.
    exists h, rows. repeat split; try reflexivity; try assumption.
    apply List.Forall_map. revert Hall. apply List.Forall_impl.
    intros row Hrow. rewrite convertCell_length. exact Hrow.
  - intros v Hv. destruct v; try reflexivity. destruct (Hv b eq_refl).
  - intros m dbName query args past h rows columns Hgate Hconn Hrows Hcolumns Hex.
    destruct (scanRows_ragged columns (sql.rows_fetched rows) [] Hex) as [e He].
    exists (db.driverError e). split; [|reflexivity].
    unfold db.Query. rewrite Hgate. simpl.
    unfold db.runQuery, db.GetDB. rewrite Hconn.
    unfold bind, sql.Query, ret. rewrite Hrows, Hcolumns, He. reflexivity.
Qed.

(** *** C9: how the loop ends *)

(** C9.  [Run] returns the [nil] error exactly when the input ends with
    [io.EOF]; when it ends with any other read error, [Run] returns an error
    that carries it.  (The loop is a total function of the input: over every
    input that ends it returns.) *)
Theorem Run_returns (s : mcp.MCPServer) (stdin : mcp.Reader) (p : mcp.process) :
  (fst (mcp.Run s stdin p) = None <-> mcp.closing stdin = None)
  /\ (forall err, mcp.closing stdin = Some err ->
      fst (mcp.Run s stdin p) = Some ("读取请求失败: " +:+ err)).
Proof.
  unfold mcp.Run. rewrite serve_returns.
  destruct (mcp.closing stdin) as [err|]; split.
  - split; discriminate.
  - intros err' [= <-]. reflexivity.
  - split; reflexivity.
  - discriminate.
Qed.

(** *** C10: arguments that are an object without [sql] *)

(** C10, as amended.  For arguments that are an object none of whose keys
    is stored into the field [sql], that is no key [sql] in whatever case
    of its letters ([json.Unmarshal] matches keys to fields without regard
    to case): the execute handler goes on as for the empty statement and
    calls [Execute] with it on the default connection; so does the query
    handler with [Query] when the read flag of the server is set.  When the
    flag is unset, the query handler has answered with the permission error
    before it decodes any argument, whatever its gateway would do. *)
Theorem missing_sql_is_the_empty_statement (s : mcp.MCPServer)
  (id : option json.value) (members : list (string * json.value)) :
  json.hasMember "sql" members = false ->
  let arguments := Some (json.Object members) in
  mcp.handleMySQLExecute s id arguments
  = bind (mcp.viaGateway (db.Execute (mcp.dbManager s) "default" "" []))
         (mcp.replyExecute id)
  /\ (config.AllowQuery (config.Config_Permission (mcp.config s)) = true ->
      mcp.handleMySQLQuery s id arguments
      = bind (mcp.viaGateway (db.Query (mcp.dbManager s) "default" "" []))
             (mcp.replyQuery id))
  /\ (config.AllowQuery (config.Config_Permission (mcp.config s)) = false ->
      mcp.handleMySQLQuery s id arguments
      = mcp.sendError id (-32000) "查询操作未被允许" None).
Proof.
  intros Hmissing arguments. subst arguments.
  assert (E : mcp.Unmarshal_SQLParams (json.bytesOf (Some (json.Object members)))
              = inl {| mcp.SQL := "" |})
    by exact (intoStruct_no_sql members _ Hmissing).
  unfold mcp.handleMySQLExecute, mcp.handleMySQLQuery. rewrite E.
  repeat split; intros ->; reflexivity.
Qed.

End Claims.

(** ** The claims at concrete inputs *)

#[local] Existing Instance ascii_only.
#[local] Existing Instance demo.strconv.
#[local] Existing Instance demo.backend.
#[local] Existing Instance demo.marshal.

(** With all four flags set, [DROP TABLE t] is executed. *)
Lemma Execute_sends_DROP_TABLE_witness :
  snd (db.Execute (demo.gateway (demo.permission true true true true))
         "default" "DROP TABLE t" [] [])
  = [sql.CallExec ("root@tcp(localhost:3306)/test" : sql.DB) "DROP TABLE t" []].
Proof.
  exact (proj2 (proj2
    (Execute_sends_DROP_TABLE
       (demo.gateway (demo.permission true true true true)) _ [] eq_refl))).
Defined.

(** Without the read flag, a SELECT is refused though the three other flags
    are set, by the gateway and by the handler in front of it. *)
Lemma Query_read_gate_witness :
  fst (db.Query (demo.gateway (demo.permission false true true true))
         "default" "SELECT 1" [] [])
  = db.Failed None (db.errorString "查询操作未被允许")
  /\ mcp.handleMySQLQuery (demo.server (demo.permission false true true true))
       (Some (json.Number "1")) (Some (json.Object [("sql", json.Str "SELECT 1")]))
       demo.start
     = (tt, {| mcp.past := [];
               mcp.stdout := [mcp.errorEnvelope (Some (json.Number "1")) (-32000)
                                "查询操作未被允许" None] |}).
Proof.
  pose proof (Query_read_gate (demo.server (demo.permission false true true true))
                "default" "SELECT 1" [] []) as (Hiff & _ & _ & _ & Hhandler).
  split.
  - exact (proj2 Hiff eq_refl).
  - exact (Hhandler eq_refl (Some (json.Number "1"))
             (Some (json.Object [("sql", json.Str "SELECT 1")])) demo.start).
Defined.

(** Without the insert flag, an INSERT in mixed case behind blanks is
    refused by the gateway and by the tool, and nothing is sent. *)
Lemma Execute_permission_gate_witness :
  db.Execute (demo.gateway (demo.permission true false true true))
    "default" "  Insert into t values (1)" [] []
  = (db.Failed None (db.errorString "插入操作未被允许"), [])
  /\ gomcp.handleExecute (demo.globals false true true true)
       (demo.request "  Insert into t values (1)") []
     = (gomcp.Returned (None, Some "no INSERT permission"), []).
Proof.
  split.
  - exact (proj1
      (proj1 Execute_permission_gate
         (demo.gateway (demo.permission true false true true))
         "default" "  Insert into t values (1)" [] [] _ _
         (gateway_insert (demo.permission true false true true)
            "insert into t values (1)" eq_refl))
      eq_refl).
  - exact (proj1
      (proj2 Execute_permission_gate
         (demo.globals false true true true)
         (demo.request "  Insert into t values (1)")
         "  Insert into t values (1)" [] _ _ eq_refl
         (tool_insert (demo.globals false true true true)
            "INSERT INTO T VALUES (1)" eq_refl))
      eq_refl).
Defined.

(** The execute handler has [DROP TABLE t] executed. *)
Lemma handlers_send_DROP_TABLE_witness :
  mcp.past
    (snd (mcp.handleMySQLExecute (demo.server (demo.permission true true true true))
            (Some (json.Number "2"))
            (Some (json.Object [("sql", json.Str "DROP TABLE t")])) demo.start))
  = [sql.CallExec ("root@tcp(localhost:3306)/test" : sql.DB) "DROP TABLE t" []].
Proof.
  exact (proj1
    (handlers_send_DROP_TABLE (demo.server (demo.permission true true true true))
       _ (Some (json.Number "2")) demo.start eq_refl)).
Defined.

(** C5, a counterexample.  The claim is that a message without an [id] is
    never answered and that a message with a method and an [id] is answered
    once.  A [tools/list] without an [id] is answered with the tool list;
    an [initialized] with the [id] 7 is not answered. *)
Lemma notification_is_answered :
  let notification :=
    json.Wellformed (json.Object [ ("jsonrpc", json.Str "2.0");
                                   ("method", json.Str "tools/list") ]) in
  let request :=
    json.Wellformed (json.Object [ ("jsonrpc", json.Str "2.0");
                                   ("id", json.Number "7");
                                   ("method", json.Str "initialized") ]) in
  let server := demo.server (demo.permission true true true true) in
  let input line :=
    {| mcp.lines := [line]; mcp.unterminated := ""; mcp.closing := None |} in
  (mcp.Unmarshal_MCPMessage notification
   = inl {| mcp.JSONRPC := "2.0"; mcp.ID := None; mcp.Method := "tools/list";
            mcp.Params := None; mcp.Result := None; mcp.Error := None |}
   /\ map mcp.ID (mcp.stdout (snd (mcp.Run server (input notification) demo.start)))
      = [None])
  /\ (mcp.Unmarshal_MCPMessage request
      = inl {| mcp.JSONRPC := "2.0"; mcp.ID := Some (json.Number "7");
               mcp.Method := "initialized";
               mcp.Params := None; mcp.Result := None; mcp.Error := None |}
      /\ mcp.stdout (snd (mcp.Run server (input request) demo.start)) = []).
Proof. vm_compute. repeat split. Qed.

(** The request [{"jsonrpc":"2.0","id":1,"method":"tools/list"}] is answered
    once, with the [id] 1. *)
Lemma dispatch_answers_by_method_witness :
  exists response past',
    mcp.ID response = Some (json.Number "1")
    /\ mcp.serve (demo.server (demo.permission true true true true))
         [json.Wellformed (json.Object [ ("jsonrpc", json.Str "2.0");
                                         ("id", json.Number "1");
                                         ("method", json.Str "tools/list") ])]
         None demo.start
       = (None, {| mcp.past := past'; mcp.stdout := [response] |}).
Proof.
  destruct (dispatch_answers_by_method (N:=demo.strconv)
              (demo.server (demo.permission true true true true))
              (json.Wellformed (json.Object [ ("jsonrpc", json.Str "2.0");
                                              ("id", json.Number "1");
                                              ("method", json.Str "tools/list") ]))
              {| mcp.JSONRPC := "2.0"; mcp.ID := Some (json.Number "1");
                 mcp.Method := "tools/list"; mcp.Params := None;
                 mcp.Result := None; mcp.Error := None |}
              [] None demo.start eq_refl) as [_ H].
  destruct (H ltac:(discriminate)) as (response & past' & Hid & E).
  exists response, past'. split; [exact Hid | exact E].
Defined.

(** C6, a counterexample.  The claim is that a line which does not parse
    is answered with an error response whose id is null.  The line [{],
    which is no JSON text, is answered with a line of the two members
    [jsonrpc] and [error]: it has no member [id] at all. *)
Lemma parse_error_is_written_without_id :
  let stdin :=
    {| mcp.lines := [json.Malformed "unexpected end of JSON input"];
       mcp.unterminated := ""; mcp.closing := None |} in
  let written :=
    map mcp.Marshal_MCPMessage
      (mcp.stdout
         (snd (mcp.Run (demo.server (demo.permission true true true true))
                 stdin demo.start))) in
  written
  = [[ ("jsonrpc", mcp.StringField "2.0");
       ("error",
         mcp.ErrorField
           {| mcp.Code := (-32700)%Z; mcp.Message := "解析JSON失败";
              mcp.Data :=
                Some (mcp.ErrorText
                        (json.SyntaxError "unexpected end of JSON input")) |}) ]]
  /\ Forall (fun object => forall f, ~ In ("id", f) object) written.
Proof.
  cbv zeta. split; [reflexivity|].
  repeat constructor. intros f [H|[H|[]]]; discriminate H.
Qed.

(** A line that is no JSON is answered with the parse error, written
    without an [id], and the request [{"jsonrpc":"2.0","id":1,
    "method":"tools/list"}] behind it is answered with its [id]. *)
Lemma parse_error_is_answered_witness :
  let server := demo.server (demo.permission true true true true) in
  let failure :=
    {| mcp.Code := (-32700)%Z; mcp.Message := "解析JSON失败";
       mcp.Data := Some (mcp.ErrorText (json.SyntaxError "invalid character")) |} in
  let request :=
    json.Wellformed (json.Object [ ("jsonrpc", json.Str "2.0");
                                   ("id", json.Number "1");
                                   ("method", json.Str "tools/list") ]) in
  snd (mcp.serve server [json.Malformed "invalid character"] None demo.start)
  = {| mcp.past := [];
       mcp.stdout :=
         [ {| mcp.JSONRPC := "2.0"; mcp.ID := None; mcp.Method := "";
              mcp.Params := None; mcp.Result := None;
              mcp.Error := Some failure |} ] |}
  /\ map mcp.Marshal_MCPMessage
       (mcp.stdout
          (snd (mcp.serve server [json.Malformed "invalid character"] None
                  demo.start)))
     = [[ ("jsonrpc", mcp.StringField "2.0"); ("error", mcp.ErrorField failure) ]]
  /\ map mcp.ID
       (mcp.stdout
          (snd (mcp.serve server [json.Malformed "invalid character"; request]
                  None demo.start)))
     = [None; Some (json.Number "1")].
Proof.
  cbv zeta.
  pose proof (parse_error_is_answered
                (demo.server (demo.permission true true true true))
                (json.Malformed "invalid character")
                (json.SyntaxError "invalid character")
                [json.Wellformed (json.Object [ ("jsonrpc", json.Str "2.0");
                                                ("id", json.Number "1");
                                                ("method", json.Str "tools/list") ])]
                None demo.start eq_refl) as (Hone & Hwritten & _ & Hids).
  split; [exact Hone|]. split; [exact Hwritten|exact Hids].
Defined.

(** The arguments [{}] have the empty statement executed. *)
Lemma missing_sql_is_executed_witness :
  mcp.past
    (snd (mcp.handleMySQLExecute (demo.server (demo.permission true true true true))
            (Some (json.Number "2")) (Some (json.Object [])) demo.start))
  = [sql.CallExec ("root@tcp(localhost:3306)/test" : sql.DB) "" []].
Proof.
  exact (proj1
    (missing_sql_is_executed (demo.server (demo.permission true true true true))
       _ (Some (json.Number "2")) demo.start eq_refl)).
Defined.

(** The two rows of [demo.people] come back in order, the bytes as a
    string; the ragged cursor gives an error and no rows. *)
Lemma Query_materializes_witness :
  (exists h rows,
     db.connections (demo.gateway (demo.permission true false false false))
       !! "default" = Some h
     /\ sql.server_Query [] h "SELECT id, name FROM people" [] = inl rows
     /\ map (map db.convertCell) (sql.rows_fetched rows)
        = [ [sql.VInt 1; sql.VString "ann"]; [sql.VInt 2; sql.VNil] ])
  /\ (exists err,
       fst (db.Query (B:=demo.ragged_backend)
              (demo.manager demo.ragged_backend "root@tcp(localhost:3306)/test"
                 (demo.permission true false false false))
              "default" "SELECT id, name FROM people" [] [])
       = db.Failed (Some (db.queryFailed err)) err
       /\ db.Rows (db.queryFailed err) = []).
Proof.
  split.
  - destruct (proj1 Query_materializes
                (demo.gateway (demo.permission true false false false))
                "default" "SELECT id, name FROM people" [] []
                {| db.Columns := ["id"; "name"];
                   db.Rows := [ [sql.VInt 1; sql.VString "ann"];
                                [sql.VInt 2; sql.VNil] ];
                   db.QueryResult_Error := "" |} eq_refl)
      as (h & rows & Hconn & Hrows & _ & Hcells & _).
    exists h, rows. repeat split; [exact Hconn | exact Hrows | ].
    symmetry. exact Hcells.
  - apply (proj2 (proj2 (proj2 (Query_materializes (B:=demo.ragged_backend))))
             (demo.manager demo.ragged_backend "root@tcp(localhost:3306)/test"
                (demo.permission true false false false))
             "default" "SELECT id, name FROM people" [] []
             "root@tcp(localhost:3306)/test" demo.ragged ["id"; "name"]
             eq_refl eq_refl eq_refl eq_refl).
    constructor 2. constructor 1. simpl. discriminate.
Defined.

(** The input that ends with [io.EOF] ends the loop without an error. *)
Lemma Run_returns_witness :
  fst (mcp.Run (demo.server (demo.permission true true true true))
         {| mcp.lines := [json.Malformed "invalid character"];
            mcp.unterminated := "{"; mcp.closing := None |} demo.start)
  = None.
Proof.
  exact (proj2 (proj1
    (Run_returns (demo.server (demo.permission true true true true))
       {| mcp.lines := [json.Malformed "invalid character"];
          mcp.unterminated := "{"; mcp.closing := None |} demo.start)) eq_refl).
Defined.

(** C10, a counterexample.  The claim is that every call of the query or
    the execute tool whose arguments are an object without a [sql] key goes
    on to the gateway with the empty statement.  The arguments
    [{"SQL":"DROP TABLE t"}] have no key [sql], yet the execute handler
    goes on with [DROP TABLE t], which is what reaches MySQL, not the empty
    statement.  And on a server whose own configuration withholds the read
    flag, the query handler answers the arguments [{}] with the permission
    error and sends nothing, where its gateway, called with the empty
    statement, would have sent it. *)
Lemma no_sql_key_is_not_the_empty_statement :
  let id := Some (json.Number "3") in
  let members := [("SQL", json.Str "DROP TABLE t")] in
  let server := demo.server (demo.permission true true true true) in
  let guarded :=
    {| mcp.dbManager := demo.gateway (demo.permission true true true true);
       mcp.config := demo.configOf (demo.permission false true true true) |} in
  (existsb (fun member => String.eqb (fst member) "sql") members = false
   /\ mcp.past (snd (mcp.handleMySQLExecute server id (Some (json.Object members))
                       demo.start))
      = [sql.CallExec ("root@tcp(localhost:3306)/test" : sql.DB) "DROP TABLE t" []]
   /\ mcp.past (snd (bind (mcp.viaGateway
                             (db.Execute (mcp.dbManager server) "default" "" []))
                       (mcp.replyExecute id) demo.start))
      = [sql.CallExec ("root@tcp(localhost:3306)/test" : sql.DB) "" []])
  /\ (mcp.handleMySQLQuery guarded id (Some (json.Object [])) demo.start
      = (tt, {| mcp.past := [];
                mcp.stdout :=
                  [mcp.errorEnvelope id (-32000) "查询操作未被允许" None] |})
      /\ mcp.past (snd (bind (mcp.viaGateway
                                (db.Query (mcp.dbManager guarded) "default" "" []))
                          (mcp.replyQuery id) demo.start))
         = [sql.CallQuery ("root@tcp(localhost:3306)/test" : sql.DB) "" []]).
Proof. vm_compute. repeat split. Qed.

(** The arguments [{"limit":1}]: the execute tool has the empty statement
    executed, and so has the query tool, the read flag being set. *)
Lemma missing_sql_is_the_empty_statement_witness :
  let server := demo.server (demo.permission true false false false) in
  let id := Some (json.Number "3") in
  let arguments := Some (json.Object [("limit", json.Number "1")]) in
  mcp.past (snd (mcp.handleMySQLExecute server id arguments demo.start))
  = [sql.CallExec ("root@tcp(localhost:3306)/test" : sql.DB) "" []]
  /\ mcp.past (snd (mcp.handleMySQLQuery server id arguments demo.start))
     = [sql.CallQuery ("root@tcp(localhost:3306)/test" : sql.DB) "" []].
Proof.
  cbv zeta.
  pose proof (missing_sql_is_the_empty_statement
                (demo.server (demo.permission true false false false))
                (Some (json.Number "3")) [("limit", json.Number "1")] eq_refl)
    as (Hexecute & Hquery & _).
  cbv zeta in Hexecute, Hquery.
  rewrite Hexecute, (Hquery eq_refl). split; reflexivity.
Defined.

(** ** The servers on the scenarios of the specification *)

(** The line
    [{"jsonrpc":"2.0","id":2,"method":"tools/call",
      "params":{"name":"mcp_mysql_execute","arguments":{"sql":"DROP TABLE t"}}}]
    is served by executing the statement; the answer is a result. *)
Example Run_executes_DROP_TABLE :
  let line :=
    json.Wellformed
      (demo.toolsCall "2" "mcp_mysql_execute"
         (json.Object [("sql", json.Str "DROP TABLE t")])) in
  let served :=
    snd (mcp.Run (demo.server (demo.permission true false false false))
           {| mcp.lines := [line]; mcp.unterminated := ""; mcp.closing := None |}
           demo.start) in
  mcp.past served
  = [sql.CallExec ("root@tcp(localhost:3306)/test" : sql.DB) "DROP TABLE t" []]
  /\ map mcp.Error (mcp.stdout served) = [None].
Proof. vm_compute. split; reflexivity. Qed.

(** The go-mcp tool refuses the same statement, whatever the flags. *)
Example handleExecute_refuses_DROP_TABLE :
  gomcp.handleExecute (demo.globals true true true true)
    (demo.request "DROP TABLE t") []
  = (gomcp.Returned (None, Some "DROP or TRUNCATE operations are not allowed"), []).
Proof. reflexivity. Qed.

(** With logging on, the refusal of a statement of fewer than ten bytes
    dies in the slice expression of its log line; nothing is sent either. *)
Example handleExecute_short_statement :
  gomcp.handleExecute (demo.globals true true true true) (demo.request "drop t") []
  = (gomcp.Panicked "slice bounds out of range", []).
Proof. reflexivity. Qed.

(** The go-mcp tools refuse arguments without [sql]. *)
Example handleExecute_missing_sql :
  gomcp.handleExecute (demo.globals true true true true)
    {| gomcp.Arguments := ∅ |} []
  = (gomcp.Returned (None, Some "sql must be a string"), []).
Proof. reflexivity. Qed.

(** The query of the specification's first scenario, with the read flag:
    one answer, a result with the [id] of the request. *)
Example Run_answers_SELECT :
  let line :=
    json.Wellformed
      (demo.toolsCall "1" "mcp_mysql_query" (json.Object [("sql", json.Str "SELECT 1")])) in
  let served :=
    snd (mcp.Run (demo.server (demo.permission true false false false))
           {| mcp.lines := [line]; mcp.unterminated := ""; mcp.closing := None |}
           demo.start) in
  mcp.past served
  = [sql.CallQuery ("root@tcp(localhost:3306)/test" : sql.DB) "SELECT 1" []]
  /\ map mcp.ID (mcp.stdout served) = [Some (json.Number "1")]
  /\ map mcp.Error (mcp.stdout served) = [None].
Proof. vm_compute. repeat split. Qed.

(** * Further properties *)

(** ** pkg/config: loading *)

Section Loading.
Context {U : Unicode} {N : json.Strconv}.

Lemma ToLower_ToUpper (value : string) :
  isASCII value = true -> ToLower (ToUpper value) = ToLower value.
Proof.
  intros H. unfold ToLower, ToUpper. rewrite H.
  assert (E : isASCII (mapBytes upperByte value) = true).
  { clear -H. induction value as [|c r IH]; simpl in *; [reflexivity|].
    apply andb_true_iff in H. destruct H as [Hc Hr].
    rewrite upperByte_nonASCII, Hc, (IH Hr). reflexivity. }
  rewrite E. apply mapBytes_mapBytes, lower_upper.
Qed.

(** X1.  [parseBoolEnv] reads an ASCII value without regard to case: the
    value in upper case is read as the value itself, whatever the default. *)
Theorem parseBoolEnv_case (value : string) (defaultVal : bool) :
  isASCII value = true ->
  loading.parseBoolEnv (ToUpper value) defaultVal
  = loading.parseBoolEnv value defaultVal.
Proof.
  intros H. unfold loading.parseBoolEnv. cbv zeta.
  rewrite (ToLower_ToUpper value H).
  destruct value as [|c r]; [reflexivity|].
  unfold ToUpper. rewrite H. reflexivity.
Qed.

(** What [LoadConfigFromEnv] returns when it returns a configuration. *)
Lemma LoadConfigFromEnv_some (env : os.environ) (cfg : config.Config) :
  loading.LoadConfigFromEnv env = Some cfg ->
  exists dbConfig,
    config.Databases cfg
    = <[ "default" := dbConfig ]> (config.Databases config.DefaultConfig)
    /\ (0 < config.Port dbConfig)%Z
    /\ (config.Port dbConfig = 3306%Z
        \/ strconv.Atoi (os.Getenv env "MYSQL_PORT") = Some (config.Port dbConfig))
    /\ config.AllowQuery (config.Config_Permission cfg) = true.
Proof.
  unfold loading.LoadConfigFromEnv. cbv zeta.
  destruct (String.eqb (os.Getenv env "MYSQL_HOST") "" &&
            String.eqb (os.Getenv env "MYSQL_USER") ""); [discriminate|].
  intros [= <-]. eexists. split; [reflexivity|]. cbn [config.Config_Permission
    config.AllowQuery]. split; [|split; [|reflexivity]].
  - repeat match goal with |- context [if ?b then _ else _] => destruct b end;
      try (destruct (strconv.Atoi _) as [port|];
           [destruct (0 <? port)%Z eqn:E; [apply Z.ltb_lt in E|]|]);
      repeat match goal with |- context [if ?b then _ else _] => destruct b end;
      cbn; try lia; reflexivity.
  - repeat match goal with |- context [if ?b then _ else _] => destruct b end;
      try (destruct (strconv.Atoi _) as [port|] eqn:Ha;
           [destruct (0 <? port)%Z eqn:E|]);
      repeat match goal with |- context [if ?b then _ else _] => destruct b end;
      cbn; auto.
Qed.

(** X2.  A configuration taken from the environment has the one database
    [default] and no other, and the read permission is set: no variable
    turns it off. *)
Theorem LoadConfigFromEnv_invariants (env : os.environ) (cfg : config.Config) :
  loading.LoadConfigFromEnv env = Some cfg ->
  (forall name, is_Some (config.Databases cfg !! name) <-> name = "default")
  /\ config.AllowQuery (config.Config_Permission cfg) = true.
Proof.
  intros H. destruct (LoadConfigFromEnv_some env cfg H) as (c & -> & _ & _ & Hq).
  split; [|exact Hq]. intros name. unfold config.DefaultConfig. cbn.
  destruct (decide (name = "default")) as [->|Hne].
  - rewrite lookup_insert_eq. split; [reflexivity|eauto].
  - rewrite lookup_insert_ne by congruence.
    rewrite lookup_singleton_ne by congruence.
    split; [intros [x Hx]; discriminate|contradiction].
Qed.

(** X3.  The port of that database is positive: it is 3306 unless
    [MYSQL_PORT] is a decimal number above zero, which it then is.  A
    [MYSQL_PORT] that is no number, or none above zero, is passed over
    without an error. *)
Theorem LoadConfigFromEnv_port (env : os.environ) (cfg : config.Config) :
  loading.LoadConfigFromEnv env = Some cfg ->
  exists dbConfig,
    config.Databases cfg !! "default" = Some dbConfig
    /\ (0 < config.Port dbConfig)%Z
    /\ (config.Port dbConfig = 3306%Z
        \/ strconv.Atoi (os.Getenv env "MYSQL_PORT") = Some (config.Port dbConfig)).
Proof.
  intros H. destruct (LoadConfigFromEnv_some env cfg H) as (c & -> & Hp & Hv & _).
  exists c. rewrite lookup_insert_eq. auto.
Qed.

(** X4.  Without [MYSQL_HOST] and without [MYSQL_USER] the environment is
    not consulted: whatever else is set, password, database, port or
    permission flags, [LoadConfig] returns what it returns in the empty
    environment. *)
Theorem LoadConfig_needs_host_or_user (env : os.environ) (f : os.file) :
  os.Getenv env "MYSQL_HOST" = "" ->
  os.Getenv env "MYSQL_USER" = "" ->
  loading.LoadConfig env f = loading.LoadConfig ∅ f.
Proof.
  intros Hhost Huser. unfold loading.LoadConfig.
  assert (E : loading.LoadConfigFromEnv env = None).
  { unfold loading.LoadConfigFromEnv. cbv zeta. rewrite Hhost, Huser. reflexivity. }
  rewrite E. reflexivity.
Qed.

(** X5.  Every configuration that [LoadConfig] returns has a database:
    from the environment the one named [default], without a file the
    default one, and from a file its own or, when it has none, the default
    one. *)
Theorem LoadConfig_has_database (env : os.environ) (f : os.file)
  (cfg : config.Config) :
  loading.LoadConfig env f = inl cfg ->
  0 < size (config.Databases cfg).
Proof.
  unfold loading.LoadConfig.
  destruct (loading.LoadConfigFromEnv env) as [c|] eqn:Henv.
  - intros [= <-]. destruct (LoadConfigFromEnv_some env c Henv) as (d & -> & _).
    unfold config.DefaultConfig. cbn.
    rewrite insert_singleton_eq, map_size_singleton. lia.
  - destruct f as [|err|data].
    + intros [= <-]. unfold config.DefaultConfig. cbn.
      rewrite map_size_singleton. lia.
    + discriminate.
    + destruct (loading.Unmarshal_Config data) as [c|err]; [|discriminate].
      destruct (Nat.eqb (size (config.Databases c)) 0) eqn:E; intros [= <-]; cbn.
      * rewrite map_size_singleton. lia.
      * apply Nat.eqb_neq in E. lia.
Qed.

Lemma intoStruct_no_permission (members : list (string * json.value))
  (c c' : config.Config) :
  json.hasMember "permission" members = false ->
  json.intoStruct loading.store_Config members c = inl c' ->
  config.Config_Permission c' = config.Config_Permission c.
Proof.
  revert c. induction members as [|[key v] members IH]; intros c Hno H; simpl in *.
  - injection H as <-. reflexivity.
  - apply orb_false_iff in Hno. destruct Hno as [Hkey Hrest].
    destruct (loading.store_Config key v c) as [c1|err] eqn:Hstore; [|discriminate].
    rewrite (IH c1 Hrest H).
    unfold loading.store_Config in Hstore. rewrite Hkey in Hstore.
    destruct (json.selects key "databases").
    + destruct (loading.intoDatabases v (config.Databases c)); [|discriminate].
      injection Hstore as <-. reflexivity.
    + injection Hstore as <-. reflexivity.
Qed.

(** X6.  A configuration file that says nothing about permissions grants
    none, not even the read permission that the default configuration has:
    read from such a file, with no configuration in the environment, all
    four flags are unset, and [Query] of a gateway on that configuration
    refuses every statement. *)
Theorem LoadConfig_file_without_permission {B : sql.Backend} (env : os.environ)
  (members : list (string * json.value)) (cfg : config.Config) :
  loading.LoadConfigFromEnv env = None ->
  json.hasMember "permission" members = false ->
  loading.LoadConfig env (os.Content (json.Wellformed (json.Object members)))
  = inl cfg ->
  config.Config_Permission cfg = loading.zeroPermission
  /\ forall (m : db.DBManager) dbName query args past,
       db.config m = cfg ->
       db.Query m dbName query args past
       = (db.Failed None (db.errorString "查询操作未被允许"), past).
Proof.
  intros Henv Hno. unfold loading.LoadConfig. rewrite Henv.
  unfold loading.Unmarshal_Config. cbn [json.Unmarshal].
  destruct (json.intoStruct loading.store_Config members loading.zeroConfig)
    as [c|err] eqn:Hdecode; [|discriminate].
  pose proof (intoStruct_no_permission members _ c Hno Hdecode) as Hp.
  assert (Hcfg : inl cfg = (if Nat.eqb (size (config.Databases c)) 0
                            then inl {| config.Databases :=
                                          config.Databases config.DefaultConfig;
                                        config.Config_Permission :=
                                          config.Config_Permission c |}
                            else @inl config.Config loading.error c) ->
                 config.Config_Permission cfg = loading.zeroPermission).
  { destruct (Nat.eqb (size (config.Databases c)) 0); intros [= ->]; exact Hp. }
  intros H. symmetry in H. specialize (Hcfg H). split; [exact Hcfg|].
  intros m dbName query args past <-. unfold db.Query. rewrite Hcfg. reflexivity.
Qed.

End Loading.

(** ** pkg/db: opening the connections *)

Section Opening.
Context {U : Unicode} {B : sql.Backend} {D : opening.Driver}.

Lemma connect_reachable (visit : list (string * config.DBConfig))
  (connections out : gmap string sql.DB) :
  opening.connect visit connections = inl out ->
  Forall (fun entry => opening.reachable (snd entry)) visit.
Proof.
  revert connections. induction visit as [|[name c] rest IH]; intros connections H.
  - constructor.
  - simpl in H. destruct (opening.Open (opening.dsnOf c)) as [h|err] eqn:Ho;
      [|discriminate].
    destruct (opening.Ping h) eqn:Hp; [discriminate|].
    constructor; [exists h; split; assumption | exact (IH _ H)].
Qed.

Lemma connect_total (visit : list (string * config.DBConfig))
  (connections : gmap string sql.DB) :
  Forall (fun entry => opening.reachable (snd entry)) visit ->
  exists out, opening.connect visit connections = inl out.
Proof.
  intros Hall. revert connections.
  induction Hall as [|[name c] rest (h & Ho & Hp) _ IH]; intros connections; simpl.
  - eauto.
  - simpl in Ho. rewrite Ho, Hp. apply IH.
Qed.

Lemma connect_lookup (visit : list (string * config.DBConfig))
  (connections out : gmap string sql.DB) :
  NoDup (visit.*1) ->
  opening.connect visit connections = inl out ->
  forall name,
    out !! name
    = match (list_to_map visit : gmap string config.DBConfig) !! name with
      | Some c => opening.handleOf c
      | None => connections !! name
      end.
Proof.
  revert connections. induction visit as [|[n c] rest IH];
    intros connections Hnodup H name.
  - injection H as <-. rewrite list_to_map_nil, lookup_empty. reflexivity.
  - simpl in H. cbn in Hnodup. apply NoDup_cons in Hnodup.
    destruct Hnodup as [Hfresh Hnodup].
    destruct (opening.Open (opening.dsnOf c)) as [h|err] eqn:Ho; [|discriminate].
    destruct (opening.Ping h) eqn:Hp; [discriminate|].
    rewrite (IH _ Hnodup H name), list_to_map_cons.
    destruct (decide (n = name)) as [->|Hne].
    + rewrite lookup_insert_eq, (not_elem_of_list_to_map_1 _ _ Hfresh),
        lookup_insert_eq.
      unfold opening.handleOf. rewrite Ho. reflexivity.
    + rewrite !lookup_insert_ne by exact Hne. reflexivity.
Qed.

(** The entries visited are those of the map, whatever the order. *)
Lemma visit_is_map (databases : gmap string config.DBConfig)
  (visit : list (string * config.DBConfig)) :
  visit ≡ₚ map_to_list databases ->
  NoDup (visit.*1) /\ (list_to_map visit : gmap string config.DBConfig) = databases.
Proof.
  intros Hperm.
  assert (Hnodup : NoDup (visit.*1)).
  { rewrite Hperm. apply NoDup_fst_map_to_list. }
  split; [exact Hnodup|].
  rewrite (list_to_map_proper _ _ Hnodup Hperm). apply list_to_map_to_list.
Qed.

(** X7.  [NewDBManager] is all or nothing, in whatever order the databases
    are visited: it returns a manager exactly when every configured
    database opens and answers the ping. *)
Theorem NewDBManager_all_or_nothing (cfg : config.Config)
  (visit : list (string * config.DBConfig)) :
  visit ≡ₚ map_to_list (config.Databases cfg) ->
  (exists m, opening.NewDBManager cfg visit = inl m)
  <-> (forall name dbConfig,
         config.Databases cfg !! name = Some dbConfig ->
         opening.reachable dbConfig).
Proof.
  intros Hperm. unfold opening.NewDBManager.
  assert (Hall : Forall (fun entry => opening.reachable (snd entry)) visit
                 <-> forall name dbConfig,
                       config.Databases cfg !! name = Some dbConfig ->
                       opening.reachable dbConfig).
  { rewrite Forall_forall. split.
    - intros H name c Hc. apply (H (name, c)).
      rewrite Hperm. apply elem_of_map_to_list, Hc.
    - intros H [name c] Hin. apply (H name c).
      rewrite Hperm in Hin. apply elem_of_map_to_list, Hin. }
  rewrite <- Hall. split.
  - intros [m Hm].
    destruct (opening.connect visit ∅) as [out|err] eqn:Hc; [|discriminate].
    exact (connect_reachable _ _ _ Hc).
  - intros H. destruct (connect_total visit ∅ H) as [out ->]. eauto.
Qed.

(** X8.  The manager that [NewDBManager] returns keeps the configuration
    it was given and holds, for every configured name and for no other, the
    handle that was opened for it: [GetDB] finds a connection exactly for
    the configured names. *)
Theorem NewDBManager_GetDB (cfg : config.Config)
  (visit : list (string * config.DBConfig)) (m : db.DBManager) :
  visit ≡ₚ map_to_list (config.Databases cfg) ->
  opening.NewDBManager cfg visit = inl m ->
  db.config m = cfg
  /\ (forall name,
        db.connections m !! name
        = match config.Databases cfg !! name with
          | Some dbConfig => opening.handleOf dbConfig
          | None => None
          end)
  /\ (forall name,
        (exists h, db.GetDB m name = inl h)
        <-> is_Some (config.Databases cfg !! name)).
Proof.
  intros Hperm. unfold opening.NewDBManager.
  destruct (opening.connect visit ∅) as [out|err] eqn:Hc; [|discriminate].
  intros [= <-]. cbn [db.config db.connections].
  destruct (visit_is_map _ _ Hperm) as [Hnodup Hmap].
  assert (Hlookup : forall name,
             out !! name
             = match config.Databases cfg !! name with
               | Some dbConfig => opening.handleOf dbConfig
               | None => None
               end).
  { intros name. rewrite (connect_lookup _ _ _ Hnodup Hc name), Hmap.
    destruct (config.Databases cfg !! name); [reflexivity|apply lookup_empty]. }
  split; [reflexivity|]. split; [exact Hlookup|].
  intros name. unfold db.GetDB. cbn [db.connections]. rewrite Hlookup.
  destruct (config.Databases cfg !! name) as [c|] eqn:Hname.
  - pose proof (connect_reachable _ _ _ Hc) as Hall.
    rewrite Forall_forall in Hall.
    destruct (Hall (name, c)) as (h & Ho & _).
    { rewrite Hperm. apply elem_of_map_to_list, Hname. }
    simpl in Ho. unfold opening.handleOf. rewrite Ho. split; eauto.
  - split; [intros [h Hh]; discriminate | intros [x Hx]; discriminate].
Qed.

(** X9.  A server configured from the environment always finds its
    [default] connection: once [NewDBManager] has succeeded on a
    configuration that [LoadConfigFromEnv] returned, [GetDB] resolves the
    name that the tool handlers use. *)
Theorem env_config_has_default_connection (env : os.environ)
  (cfg : config.Config) (visit : list (string * config.DBConfig))
  (m : db.DBManager) :
  loading.LoadConfigFromEnv env = Some cfg ->
  visit ≡ₚ map_to_list (config.Databases cfg) ->
  opening.NewDBManager cfg visit = inl m ->
  exists h, db.GetDB m "default" = inl h.
Proof.
  intros Henv Hperm. unfold opening.NewDBManager.
  destruct (opening.connect visit ∅) as [out|err] eqn:Hc; [|discriminate].
  intros [= <-]. destruct (visit_is_map _ _ Hperm) as [Hnodup Hmap].
  destruct (LoadConfigFromEnv_some env cfg Henv) as (c & Hdb & _).
  assert (Hname : config.Databases cfg !! "default" = Some c)
    by (rewrite Hdb; apply lookup_insert_eq).
  pose proof (connect_reachable _ _ _ Hc) as Hall. rewrite Forall_forall in Hall.
  destruct (Hall ("default", c)) as (h & Ho & _).
  { rewrite Hperm. apply elem_of_map_to_list, Hname. }
  exists h. unfold db.GetDB. cbn [db.connections].
  rewrite (connect_lookup _ _ _ Hnodup Hc "default"), Hmap, Hname.
  simpl in Ho. unfold opening.handleOf. rewrite Ho. reflexivity.
Qed.

End Opening.

(** ** pkg/db: more of the gateway *)

Section GatewayMore.
Context {U : Unicode} {B : sql.Backend}.

(** X10.  On a connection name that is not configured both operations
    return the error that names it, next to a result that carries its text,
    and send nothing; the permission check comes first, so that a refusal
    is reported in preference to the unknown name. *)
Theorem gateway_unknown_connection (m : db.DBManager) (dbName query : string)
  (args : list sql.Value) (past : sql.history) :
  db.connections m !! dbName = None ->
  let p := config.Config_Permission (db.config m) in
  let unknown := db.errorString ("数据库 " +:+ dbName +:+ " 未配置") in
  db.Query m dbName query args past
  = (if config.AllowQuery p
     then db.Failed (Some (db.queryFailed unknown)) unknown
     else db.Failed None (db.errorString "查询操作未被允许"), past)
  /\ db.Execute m dbName query args past
     = (match db.executeDenied p (TrimSpace (ToLower query)) with
        | Some denial => db.Failed None denial
        | None => db.Failed (Some (db.executeFailed unknown)) unknown
        end, past).
Proof.
  intros Hconn p unknown. subst p unknown. split.
  - unfold db.Query, db.runQuery, db.GetDB. rewrite Hconn.
    destruct (config.AllowQuery _); reflexivity.
  - unfold db.Execute, db.runExec, db.GetDB. cbv zeta. rewrite Hconn.
    destruct (db.executeDenied _ _); reflexivity.
Qed.

(** X11.  [Execute] never consults the read permission: two gateways with
    the same connections and the same insert, update and delete flags
    execute alike.  And a statement of none of the three kinds, a SELECT
    among them, is run whatever the four flags are. *)
Theorem Execute_ignores_read_permission (m m' : db.DBManager)
  (dbName query : string) (args : list sql.Value) :
  db.connections m' = db.connections m ->
  (let p := config.Config_Permission (db.config m) in
   let p' := config.Config_Permission (db.config m') in
   config.AllowInsert p' = config.AllowInsert p ->
   config.AllowUpdate p' = config.AllowUpdate p ->
   config.AllowDelete p' = config.AllowDelete p ->
   db.Execute m' dbName query args = db.Execute m dbName query args)
  /\ (let lowerQuery := TrimSpace (ToLower query) in
      HasPrefix lowerQuery "insert" = false ->
      HasPrefix lowerQuery "update" = false ->
      HasPrefix lowerQuery "delete" = false ->
      db.Execute m dbName query args = db.runExec m dbName query args).
Proof.
  intros Hconn.
  assert (Hrun : db.runExec m' dbName query args = db.runExec m dbName query args).
  { unfold db.runExec, db.GetDB. rewrite Hconn. reflexivity. }
  split; cbv zeta.
  - intros Hi Hu Hd. unfold db.Execute, db.executeDenied. cbv zeta.
    rewrite Hi, Hu, Hd, Hrun. reflexivity.
  - intros Hi Hu Hd. unfold db.Execute, db.executeDenied. cbv zeta.
    rewrite Hi, Hu, Hd. reflexivity.
Qed.

Lemma Query_sends_at_most (m : db.DBManager) (dbName query : string)
  (args : list sql.Value) (past : sql.history) :
  snd (db.Query m dbName query args past) = past
  \/ exists h, db.connections m !! dbName = Some h
               /\ snd (db.Query m dbName query args past)
                  = past ++ [sql.CallQuery h query args].
Proof.
  unfold db.Query. destruct (negb _); [left; reflexivity|].
  destruct (db.connections m !! dbName) as [h|] eqn:Hconn.
  - right. exists h. split; [reflexivity|]. apply runQuery_sends, Hconn.
  - left. unfold db.runQuery, db.GetDB. rewrite Hconn. reflexivity.
Qed.

Lemma Execute_sends_at_most (m : db.DBManager) (dbName query : string)
  (args : list sql.Value) (past : sql.history) :
  snd (db.Execute m dbName query args past) = past
  \/ exists h, db.connections m !! dbName = Some h
               /\ snd (db.Execute m dbName query args past)
                  = past ++ [sql.CallExec h query args].
Proof.
  unfold db.Execute. cbv zeta.
  destruct (db.executeDenied _ _); [left; reflexivity|].
  destruct (db.connections m !! dbName) as [h|] eqn:Hconn.
  - right. exists h. split; [reflexivity|]. apply runExec_sends, Hconn.
  - left. unfold db.runExec, db.GetDB. rewrite Hconn. reflexivity.
Qed.

(** X12.  Each operation of the gateway sends at most one statement, on the
    connection of the name it was given, and sends the text and the
    arguments as it received them: not trimmed, not in lower case. *)
Theorem gateway_sends_verbatim (m : db.DBManager) (dbName query : string)
  (args : list sql.Value) (past : sql.history) :
  (snd (db.Query m dbName query args past) = past
   \/ exists h, db.connections m !! dbName = Some h
                /\ snd (db.Query m dbName query args past)
                   = past ++ [sql.CallQuery h query args])
  /\ (snd (db.Execute m dbName query args past) = past
      \/ exists h, db.connections m !! dbName = Some h
                   /\ snd (db.Execute m dbName query args past)
                      = past ++ [sql.CallExec h query args]).
Proof. split; [apply Query_sends_at_most | apply Execute_sends_at_most]. Qed.

End GatewayMore.

(** ** cmd/ai2mysql-mcp-server: more of the dispatcher *)

Section DispatcherMore.
Context {U : Unicode} {N : json.Strconv} {B : sql.Backend} {J : Marshal}.

(** X13.  A call of a tool under any name but [mcp_mysql_query] and
    [mcp_mysql_execute] is answered with the error -32601 that carries the
    name, whatever its arguments, and reaches neither the gateway nor
    MySQL. *)
Theorem unknown_tool_is_refused (s : mcp.MCPServer) (message : mcp.MCPMessage)
  (toolName : string) (arguments : json.value) (p : mcp.process) :
  mcp.Method message = "tools/call" ->
  mcp.Params message
  = Some (json.Object [("name", json.Str toolName); ("arguments", arguments)]) ->
  toolName <> "mcp_mysql_query" ->
  toolName <> "mcp_mysql_execute" ->
  mcp.handleMessage s message p
  = (tt, {| mcp.past := mcp.past p;
            mcp.stdout := mcp.stdout p
              ++ [mcp.errorEnvelope (mcp.ID message) (-32601) "不支持的工具"
                    (Some (mcp.GoString toolName))] |}).
Proof.
  intros Hmethod Hparams Hq He.
  assert (Htool : mcp.toolOf message = inl (toolName, Some arguments)).
  { unfold mcp.toolOf. rewrite Hmethod, Hparams. reflexivity. }
  apply String.eqb_neq in Hq, He.
  unfold mcp.handleMessage, mcp.handleCallTool.
  rewrite Htool, Hq, He, Hmethod. reflexivity.
Qed.

(** X14.  Each of the two call methods reads the arguments of the tool
    under its own member only: [tools/call] under [arguments],
    [mcp/callTool] under [params].  With the member of the other method the
    execute tool is handed no arguments at all and answers with invalid
    params, and nothing is executed. *)
Theorem call_shapes_do_not_mix (s : mcp.MCPServer) (message : mcp.MCPMessage)
  (other : string) (arguments : json.value) (p : mcp.process) :
  (mcp.Method message = "tools/call" /\ other = "params"
   \/ mcp.Method message = "mcp/callTool" /\ other = "arguments") ->
  mcp.Params message
  = Some (json.Object [("name", json.Str "mcp_mysql_execute"); (other, arguments)]) ->
  mcp.handleMessage s message p
  = (tt, {| mcp.past := mcp.past p;
            mcp.stdout := mcp.stdout p
              ++ [mcp.errorEnvelope (mcp.ID message) (-32602) "无效SQL参数"
                    (Some (mcp.ErrorText
                             (json.SyntaxError "unexpected end of JSON input")))] |}).
Proof.
  intros [[Hmethod ->]|[Hmethod ->]] Hparams;
    unfold mcp.handleMessage, mcp.handleCallTool, mcp.toolOf;
    rewrite Hmethod, Hparams; reflexivity.
Qed.

(** A member for [sql] whose value is neither a string nor [null]. *)
Lemma Unmarshal_SQLParams_wrong_type (members : list (string * json.value)) :
  Exists (fun member =>
            json.selects (fst member) "sql" = true
            /\ match snd member with
               | json.Null | json.Str _ => False
               | _ => True
               end) members ->
  exists err,
    mcp.Unmarshal_SQLParams (json.Wellformed (json.Object members)) = inr err.
Proof.
  unfold mcp.Unmarshal_SQLParams. cbn [json.Unmarshal].
  generalize {| mcp.SQL := "" |}.
  induction members as [|[key v] members IH]; intros params Hex.
  - inversion Hex.
  - simpl. unfold mcp.store_SQLParams at 1.
    destruct (json.selects key "sql") eqn:Hkey.
    + destruct v; simpl; eauto;
        (apply IH; inversion Hex as [? ? [_ Hv]|? ? Hrest]; subst;
         [destruct Hv | exact Hrest]).
    + apply IH. inversion Hex as [? ? [Hsel _]|? ? Hrest]; subst;
        [simpl in Hsel; congruence | exact Hrest].
Qed.

(** X15.  Arguments in which [sql] is a number, a boolean, an array or an
    object, and arguments that are themselves no object, are answered by
    the execute handler with invalid params, code -32602, and nothing
    reaches the gateway. *)
Theorem wrong_sql_type_is_refused (s : mcp.MCPServer) (id : option json.value)
  (arguments : json.value) (p : mcp.process) :
  match arguments with
  | json.Null => False
  | json.Object members =>
      Exists (fun member =>
                json.selects (fst member) "sql" = true
                /\ match snd member with
                   | json.Null | json.Str _ => False
                   | _ => True
                   end) members
  | _ => True
  end ->
  exists err,
    mcp.handleMySQLExecute s id (Some arguments) p
    = (tt, {| mcp.past := mcp.past p;
              mcp.stdout := mcp.stdout p
                ++ [mcp.errorEnvelope id (-32602) "无效SQL参数"
                      (Some (mcp.ErrorText err))] |}).
Proof.
  intros H. unfold mcp.handleMySQLExecute.
  assert (E : exists err,
             mcp.Unmarshal_SQLParams (json.bytesOf (Some arguments)) = inr err).
  { destruct arguments as [| | | | |members];
      [destruct H|eexists; reflexivity..|].
    apply Unmarshal_SQLParams_wrong_type, H. }
  destruct E as [err ->]. exists err. reflexivity.
Qed.

Lemma handleMySQLQuery_sends_at_most (s : mcp.MCPServer) (id : option json.value)
  (rawParams : json.RawMessage) (p : mcp.process) :
  let past' := mcp.past (snd (mcp.handleMySQLQuery s id rawParams p)) in
  past' = mcp.past p
  \/ exists h sql, db.connections (mcp.dbManager s) !! "default" = Some h
                   /\ past' = mcp.past p ++ [sql.CallQuery h sql []].
Proof.
  cbv zeta. unfold mcp.handleMySQLQuery.
  destruct (negb _); [left; reflexivity|].
  destruct (mcp.Unmarshal_SQLParams _) as [params|err]; [|left; reflexivity].
  rewrite gateway_call_past by apply replyQuery_past.
  destruct (Query_sends_at_most (mcp.dbManager s) "default" (mcp.SQL params) []
              (mcp.past p)) as [->|(h & Hconn & ->)]; [left; reflexivity|].
  right. exists h, (mcp.SQL params). split; [exact Hconn|reflexivity].
Qed.

Lemma handleMySQLExecute_sends_at_most (s : mcp.MCPServer) (id : option json.value)
  (rawParams : json.RawMessage) (p : mcp.process) :
  let past' := mcp.past (snd (mcp.handleMySQLExecute s id rawParams p)) in
  past' = mcp.past p
  \/ exists h sql, db.connections (mcp.dbManager s) !! "default" = Some h
                   /\ past' = mcp.past p ++ [sql.CallExec h sql []].
Proof.
  cbv zeta. unfold mcp.handleMySQLExecute.
  destruct (mcp.Unmarshal_SQLParams _) as [params|err]; [|left; reflexivity].
  rewrite gateway_call_past by apply replyExecute_past.
  destruct (Execute_sends_at_most (mcp.dbManager s) "default" (mcp.SQL params) []
              (mcp.past p)) as [->|(h & Hconn & ->)]; [left; reflexivity|].
  right. exists h, (mcp.SQL params). split; [exact Hconn|reflexivity].
Qed.

(** X16.  What a message makes the server send to MySQL: nothing, unless
    its method is one of the two call methods; and then at most one
    statement, on the [default] connection and without arguments. *)
Theorem message_sends_at_most_one_statement (s : mcp.MCPServer)
  (message : mcp.MCPMessage) (p : mcp.process) :
  let past' := mcp.past (snd (mcp.handleMessage s message p)) in
  (mcp.Method message <> "tools/call" ->
   mcp.Method message <> "mcp/callTool" ->
   past' = mcp.past p)
  /\ (past' = mcp.past p
      \/ exists h sql,
           db.connections (mcp.dbManager s) !! "default" = Some h
           /\ (past' = mcp.past p ++ [sql.CallQuery h sql []]
               \/ past' = mcp.past p ++ [sql.CallExec h sql []])).
Proof.
  cbv zeta.
  assert (Hcall : let past' := mcp.past (snd (mcp.handleCallTool s message p)) in
            past' = mcp.past p
            \/ exists h sql,
                 db.connections (mcp.dbManager s) !! "default" = Some h
                 /\ (past' = mcp.past p ++ [sql.CallQuery h sql []]
                     \/ past' = mcp.past p ++ [sql.CallExec h sql []])).
  { cbv zeta. unfold mcp.handleCallTool.
    destruct (mcp.toolOf message) as [[toolName toolParams]|err];
      [|left; reflexivity].
    destruct (String.eqb toolName "mcp_mysql_query").
    - destruct (handleMySQLQuery_sends_at_most s (mcp.ID message) toolParams p)
        as [H|(h & sql & Hconn & H)]; [left; exact H|].
      right. exists h, sql. split; [exact Hconn|left; exact H].
    - destruct (String.eqb toolName "mcp_mysql_execute"); [|left; reflexivity].
      destruct (handleMySQLExecute_sends_at_most s (mcp.ID message) toolParams p)
        as [H|(h & sql & Hconn & H)]; [left; exact H|].
      right. exists h, sql. split; [exact Hconn|right; exact H]. }
  unfold mcp.handleMessage.
  destruct (String.eqb (mcp.Method message) "initialize");
    [split; [reflexivity|left; reflexivity]|].
  destruct (String.eqb (mcp.Method message) "initialized");
    [split; [reflexivity|left; reflexivity]|].
  destruct (String.eqb (mcp.Method message) "tools/list");
    [split; [reflexivity|left; reflexivity]|].
  destruct (String.eqb_spec (mcp.Method message) "mcp/callTool") as [E|_];
    [split; [intros _ Hne; contradiction|exact Hcall]|].
  destruct (String.eqb_spec (mcp.Method message) "tools/call") as [E|_];
    [split; [intros Hne; contradiction|exact Hcall]|].
  split; [reflexivity|left; reflexivity].
Qed.

Lemma intoStruct_app {T : Type}
  (store : string -> json.value -> T -> T + json.UnmarshalError)
  (before after : list (string * json.value)) (t : T) :
  json.intoStruct store (before ++ after) t
  = match json.intoStruct store before t with
    | inr e => inr e
    | inl t' => json.intoStruct store after t'
    end.
Proof.
  revert t. induction before as [|[key v] before IH]; intros t; simpl.
  - reflexivity.
  - destruct (store key v t) as [t'|e]; [apply IH|reflexivity].
Qed.

(** Members that fit [SQLParams] decode, whatever the struct held. *)
Lemma intoStruct_SQLParams_fits (members : list (string * json.value))
  (params : mcp.SQLParams) :
  Forall (fun member =>
            json.selects (fst member) "sql" = true ->
            match snd member with
            | json.Null | json.Str _ => True
            | _ => False
            end) members ->
  exists params', json.intoStruct mcp.store_SQLParams members params = inl params'.
Proof.
  intros Hall. revert params.
  induction Hall as [|[key v] members Hfit _ IH]; intros params; simpl.
  - eauto.
  - unfold mcp.store_SQLParams at 1.
    simpl in Hfit. destruct (json.selects key "sql"); [|apply IH].
    specialize (Hfit eq_refl).
    destruct v; try contradiction; simpl; apply IH.
Qed.

(** X17.  The statement is read from the member [sql] under any spelling
    that folds to the field name ([SQL], [Sql], ...), and of several such
    members the last one is the statement. *)
Theorem sql_member_last_spelling_wins (members : list (string * json.value))
  (key sql : string) :
  json.selects key "sql" = true ->
  Forall (fun member =>
            json.selects (fst member) "sql" = true ->
            match snd member with
            | json.Null | json.Str _ => True
            | _ => False
            end) members ->
  mcp.Unmarshal_SQLParams
    (json.Wellformed (json.Object (members ++ [(key, json.Str sql)])))
  = inl {| mcp.SQL := sql |}.
Proof.
  intros Hkey Hfit. unfold mcp.Unmarshal_SQLParams. cbn [json.Unmarshal].
  rewrite intoStruct_app.
  destruct (intoStruct_SQLParams_fits members {| mcp.SQL := "" |} Hfit)
    as [params' ->].
  simpl. unfold mcp.store_SQLParams. rewrite Hkey. reflexivity.
Qed.

(** X18.  The loop of [Run] over two stretches of input is the loop over
    the first, on an input that has not ended, followed by the loop over
    the second from the state that the first left. *)
Theorem serve_app (s : mcp.MCPServer) (before after : list json.text)
  (closing : option string) (p : mcp.process) :
  mcp.serve s (before ++ after) closing p
  = mcp.serve s after closing (snd (mcp.serve s before None p)).
Proof.
  revert p. induction before as [|line before IH]; intros p; simpl.
  - reflexivity.
  - destruct (mcp.Unmarshal_MCPMessage line) as [message|err]; unfold bind.
    + destruct (mcp.handleMessage s message p) as [[] p']. apply IH.
    + destruct (mcp.sendError _ _ _ _ p) as [[] p']. apply IH.
Qed.

(** X19.  The envelopes that [Run] hands to the output come in the order
    of the lines, one for each line but the [initialized] notifications,
    and each carries the [id] of its line: the [nil] one for a line that
    does not decode. *)
Theorem Run_answers_in_order (s : mcp.MCPServer) (stdin : mcp.Reader)
  (p : mcp.process) :
  map mcp.ID (mcp.stdout (snd (mcp.Run s stdin p)))
  = map mcp.ID (mcp.stdout p) ++ concat (map trace.owed (mcp.lines stdin)).
Proof. unfold mcp.Run. apply serve_answers_in_order. Qed.

End DispatcherMore.

(** ** cmd/ai2mysql-mcp-server: where the logger writes *)

(** X20.  A logger made without debug mode writes every message of the
    levels INFO and ERROR twice to standard error, once through its
    [log.Logger] and once plainly, and drops debug messages.  A logger made
    in debug mode writes every message once, to the log file, and nothing
    to standard error. *)
Theorem NewLogger_destinations (debugMode : bool) (opened : option string)
  (l : logging.Logger) (before after : list logging.line) :
  logging.NewLogger debugMode opened before = (inl l, after) ->
  forall (msg : string) (out : list logging.line),
    let stamped (s : logging.sink) (text : string) :=
      {| logging.to := s; logging.stamped := true; logging.text := text |} in
    let plain (text : string) :=
      {| logging.to := logging.Stderr; logging.stamped := false;
         logging.text := text +:+ String "010" "" |} in
    if debugMode then
      snd (logging.Infof l msg out)
      = out ++ [stamped logging.LogFile ("[INFO] " +:+ msg)]
      /\ snd (logging.Errorf l msg out)
         = out ++ [stamped logging.LogFile ("[ERROR] " +:+ msg)]
      /\ snd (logging.Debugf l msg out)
         = out ++ [stamped logging.LogFile ("[DEBUG] " +:+ msg)]
    else
      snd (logging.Infof l msg out)
      = out ++ [stamped logging.Stderr ("[INFO] " +:+ msg);
                plain ("[INFO] " +:+ msg)]
      /\ snd (logging.Errorf l msg out)
         = out ++ [stamped logging.Stderr ("[ERROR] " +:+ msg);
                   plain ("[ERROR] " +:+ msg)]
      /\ snd (logging.Debugf l msg out) = out.
Proof.
  intros Hnew msg out. cbv zeta. unfold logging.NewLogger in Hnew.
  destruct debugMode.
  - destruct opened as [err|]; [discriminate|].
    unfold bind, ret in Hnew. cbn in Hnew. injection Hnew as <- _.
    repeat split.
  - unfold ret in Hnew. injection Hnew as <- _.
    unfold logging.Infof, logging.Errorf, logging.logAt, logging.Debugf.
    cbn. rewrite <- !app_assoc. repeat split.
Qed.

(** ** cmd/server: the first dispatcher *)

Section FirstDispatcher.
Context {U : Unicode} {N : json.Strconv} {B : sql.Backend} {J : Marshal}.

Lemma first_handleMessage_answers (s : mcp.MCPServer) (message : mcp.MCPMessage) :
  answers (mcp.ID message) (server.handleMessage s message).
Proof.
  unfold server.handleMessage.
  destruct (String.eqb (mcp.Method message) "mcp/initialize");
    [apply (sendResponse_answers (mcp.resultEnvelope (mcp.ID message) _))|].
  destruct (String.eqb (mcp.Method message) "mcp/callTool");
    [|apply sendError_answers].
  unfold server.handleCallTool.
  destruct (mcp.Unmarshal_ToolParams _) as [params|err];
    [|apply sendError_answers].
  destruct (String.eqb (mcp.ToolParams_Name params) "mcp_mysql_query");
    [apply handleMySQLQuery_answers|].
  destruct (String.eqb (mcp.ToolParams_Name params) "mcp_mysql_execute");
    [apply handleMySQLExecute_answers|apply sendError_answers].
Qed.

(** X21.  The first dispatcher knows no notification: it hands one
    envelope to the output for every line, [initialized] included, in the
    order of the lines and with the [id] of the line, the [nil] one for a
    line that does not decode. *)
Theorem first_dispatcher_answers_every_line (s : mcp.MCPServer)
  (stdin : mcp.Reader) (p : mcp.process) :
  map mcp.ID (mcp.stdout (snd (server.Run s stdin p)))
  = map mcp.ID (mcp.stdout p) ++ concat (map trace.owed0 (mcp.lines stdin))
  /\ length (mcp.stdout (snd (server.Run s stdin p)))
     = (length (mcp.stdout p) + length (mcp.lines stdin))%nat.
Proof.
  unfold server.Run. generalize (mcp.closing stdin) as closing.
  generalize (mcp.lines stdin) as coming. intros coming closing. revert p.
  induction coming as [|line coming IH]; intros p.
  - simpl. rewrite app_nil_r, Nat.add_0_r. destruct closing; split; reflexivity.
  - cbn [server.serve map concat length]. unfold trace.owed0 at 1.
    destruct (mcp.Unmarshal_MCPMessage line) as [message|err]; unfold bind.
    + destruct (first_handleMessage_answers s message p)
        as (response & past' & -> & Hid).
      destruct (IH {| mcp.past := past';
                      mcp.stdout := mcp.stdout p ++ [response] |}) as [-> ->].
      cbn [mcp.stdout]. rewrite map_app, <- app_assoc, <- Hid, length_app.
      split; [reflexivity|simpl; lia].
    + cbn.
      destruct (IH {| mcp.past := mcp.past p;
                      mcp.stdout := mcp.stdout p
                        ++ [mcp.errorEnvelope None (-32700) "解析JSON失败"
                              (Some (mcp.ErrorText err))] |}) as [-> ->].
      cbn [mcp.stdout]. rewrite map_app, <- app_assoc, length_app.
      split; [reflexivity|simpl; lia].
Qed.

End FirstDispatcher.

(** ** cmd/ai2mysql-mcp-server/main.go: the console *)

Lemma append_cons (c : ascii) (a b : string) :
  String c a +:+ b = String c (a +:+ b).
Proof. reflexivity. Qed.

Lemma append_empty (s : string) : "" +:+ s = s.
Proof. reflexivity. Qed.

Lemma fromStart_spec (sql : string) :
  exists before,
    sql = before +:+ console.fromStart sql
    /\ forallb console.blank (list_ascii_of_string before) = true
    /\ match console.fromStart sql with
       | String c _ => console.blank c = false
       | EmptyString => True
       end.
Proof.
  induction sql as [|c r IH].
  - exists "". repeat split.
  - cbn [console.fromStart]. destruct (console.blank c) eqn:Hc.
    + destruct IH as (before & E & Hblank & Hfirst).
      exists (String c before). rewrite append_cons, <- E.
      cbn [list_ascii_of_string forallb]. rewrite Hc, Hblank.
      repeat split. exact Hfirst.
    + exists "". rewrite append_empty. repeat split. exact Hc.
Qed.

Lemma append_one_last (t u : string) (c d : ascii) :
  t +:+ String c "" = u +:+ String d "" -> c = d.
Proof.
  revert u. induction t as [|a t IH]; intros [|b u] E;
    rewrite ?append_cons, ?append_empty in E.
  - congruence.
  - injection E as _ E. destruct u; discriminate.
  - injection E as _ E. destruct t; discriminate.
  - injection E as _ E. eapply IH, E.
Qed.

Lemma toEnd_spec (s : string) :
  exists after,
    s = console.toEnd s +:+ after
    /\ forallb console.blank (list_ascii_of_string after) = true
    /\ (forall t c, console.toEnd s = t +:+ String c "" -> console.blank c = false)
    /\ match s with
       | String c _ =>
           console.blank c = false -> exists t, console.toEnd s = String c t
       | EmptyString => True
       end.
Proof.
  induction s as [|c r IH].
  - exists "". repeat split. intros [|a t] c E; discriminate.
  - destruct IH as (after & E & Hblank & Hlast & _). cbn [console.toEnd].
    destruct (console.toEnd r) as [|d t'] eqn:Hr.
    + rewrite append_empty in E. destruct (console.blank c) eqn:Hc.
      * exists (String c r). rewrite append_empty.
        cbn [list_ascii_of_string forallb]. rewrite Hc, E, Hblank.
        repeat split; [|discriminate].
        intros [|a t] c' E'; discriminate.
      * exists r. rewrite append_cons, append_empty, E.
        repeat split; [exact Hblank| |eauto].
        intros t c' E'.
        rewrite <- (append_one_last "" t c c' E'). exact Hc.
    + exists after. rewrite append_cons, <- E.
      repeat split; [exact Hblank| |eauto].
      intros [|a t] c' E'; rewrite ?append_cons, ?append_empty in E'.
      * discriminate.
      * injection E' as _ E'. eapply Hlast, E'.
Qed.

(** X22.  [trimSQL] returns the statement without the blanks at its two
    ends, blanks being the space, the tab, the line feed and the carriage
    return: what is cut off is blank, and what is returned neither begins
    nor ends with a blank. *)
Theorem trimSQL_cuts_blank_ends (sql : string) :
  exists before after,
    sql = before +:+ console.trimSQL sql +:+ after
    /\ forallb console.blank (list_ascii_of_string before) = true
    /\ forallb console.blank (list_ascii_of_string after) = true
    /\ (forall c t, console.trimSQL sql = String c t -> console.blank c = false)
    /\ (forall t c, console.trimSQL sql = t +:+ String c "" ->
        console.blank c = false).
Proof.
  unfold console.trimSQL.
  destruct (fromStart_spec sql) as (before & E & Hbefore & Hfirst).
  destruct (toEnd_spec (console.fromStart sql)) as (after & E' & Hafter & Hlast & Hkeep).
  exists before, after. rewrite <- E', <- E.
  repeat split; [exact Hbefore|exact Hafter| |exact Hlast].
  intros c t Ht. destruct (console.fromStart sql) as [|c0 r].
  - discriminate.
  - destruct (Hkeep Hfirst) as [t0 Ht0]. rewrite Ht0 in Ht.
    injection Ht as <- _. exact Hfirst.
Qed.

Section Console.
Context {U : Unicode} {B : sql.Backend}.

(** X23.  The console recognises a query by the six bytes [SELECT] or
    [select] alone.  A SELECT in any other spelling ([Select], [SeLeCT],
    ...) is handed to [Execute], which has no read permission to check:
    it is sent to MySQL as an execution whatever [AllowQuery] says. *)
Theorem console_executes_SELECT_in_mixed_case (s : console.MySQLMCPServer)
  (sql : string) (h : sql.DB) (t : console.terminal) :
  isASCII sql = true ->
  opensWith sql "SELECT" = true ->
  console.isQuerySQL sql = false ->
  db.connections (console.dbManager s) !! "default" = Some h ->
  console.past (snd (console.handleSQL s sql t))
  = console.past t ++ [sql.CallExec h sql []].
Proof.
  intros Hascii Hopens Hquery Hconn. unfold console.handleSQL.
  destruct sql as [|c r]; [discriminate Hopens|].
  cbn [String.length Nat.eqb]. rewrite Hquery.
  destruct (classifiers_agree (String c r) "SELECT" Hascii eq_refl) as [_ Hlower].
  rewrite Hopens in Hlower. cbn [mapBytes] in Hlower.
  assert (Hrun : db.Execute (console.dbManager s) "default" (String c r) []
                 = db.runExec (console.dbManager s) "default" (String c r) []).
  { unfold db.Execute. cbv zeta. revert Hlower.
    generalize (TrimSpace (ToLower (String c r))). intros u Hlower.
    opens_with Hlower. subst u. reflexivity. }
  unfold bind, console.viaGateway. rewrite Hrun.
  pose proof (runExec_sends (console.dbManager s) "default" (String c r) [] h
                (console.past t) Hconn) as Hsent.
  destruct (db.runExec _ _ _ _ _) as [[result|result err] past'];
    simpl in Hsent; subst past'; reflexivity.
Qed.

End Console.

(** ** The go-mcp tools: what is sent, what panics, what a row holds *)

Section ToolsMore.
Context {U : Unicode} {B : sql.Backend} {J : Marshal}.

Lemma app_one_neq {A : Type} (l : list A) (x : A) : l ++ [x] <> l.
Proof.
  intros E. apply (f_equal (@length A)) in E.
  rewrite length_app in E. simpl in E. lia.
Qed.

Lemma handleQuery_past (g : gomcp.Globals) (request : gomcp.CallToolRequest)
  (past : sql.history) :
  snd (gomcp.handleQuery g request past)
  = match gomcp.sqlArgument request with
    | None => past
    | Some sql =>
        let sqlUpper := TrimSpace (ToUpper sql) in
        if HasPrefix sqlUpper "SELECT" || HasPrefix sqlUpper "SHOW"
           || HasPrefix sqlUpper "DESCRIBE"
        then past ++ [sql.CallQuery (gomcp.db g) sql []]
        else past
    end.
Proof.
  unfold gomcp.handleQuery.
  destruct (gomcp.sqlArgument request) as [sql|]; [|reflexivity]. cbv zeta.
  destruct (HasPrefix _ "SELECT"), (HasPrefix _ "SHOW"), (HasPrefix _ "DESCRIBE");
    cbn [negb andb orb]; try reflexivity;
    unfold bind, sql.Query;
    (destruct (sql.server_Query past (gomcp.db g) sql []) as [rows|e];
     [|reflexivity];
     destruct (sql.rows_Columns rows) as [columns|e]; [|reflexivity];
     destruct (gomcp.scanRows columns (sql.rows_fetched rows) []); [|reflexivity];
     destruct (sql.rows_Err rows); [reflexivity|];
     destruct (Marshal_results _); reflexivity).
Qed.

(** X24.  [handleQuery] sends a statement to MySQL exactly if the argument
    [sql] is a string which, in upper case and trimmed, opens with SELECT,
    SHOW or DESCRIBE; what it sends is the argument as it came. *)
Theorem handleQuery_sends_exactly (g : gomcp.Globals)
  (request : gomcp.CallToolRequest) (sql : string) (past : sql.history) :
  snd (gomcp.handleQuery g request past)
  = past ++ [sql.CallQuery (gomcp.db g) sql []]
  <-> gomcp.sqlArgument request = Some sql
      /\ (HasPrefix (TrimSpace (ToUpper sql)) "SELECT"
          || HasPrefix (TrimSpace (ToUpper sql)) "SHOW"
          || HasPrefix (TrimSpace (ToUpper sql)) "DESCRIBE") = true.
Proof.
  rewrite handleQuery_past. split.
  - destruct (gomcp.sqlArgument request) as [sql'|].
    + cbv zeta.
      destruct (HasPrefix _ "SELECT" || HasPrefix _ "SHOW"
                || HasPrefix _ "DESCRIBE") eqn:Hgate; intros E.
      * apply app_inv_head in E. injection E as ->. split; [reflexivity|exact Hgate].
      * symmetry in E. destruct (app_one_neq _ _ E).
    + intros E. symmetry in E. destruct (app_one_neq _ _ E).
  - intros [-> Hgate]. cbv zeta. rewrite Hgate. reflexivity.
Qed.

(** X25.  [handleQuery] panics exactly if logging is enabled and the
    argument is a string which is refused and which, in upper case and
    trimmed, is shorter than the ten bytes that the log line slices off;
    nothing has been sent by then. *)
Theorem handleQuery_panics_exactly (g : gomcp.Globals)
  (request : gomcp.CallToolRequest) (past : sql.history) :
  (exists why, fst (gomcp.handleQuery g request past) = gomcp.Panicked why)
  <-> (exists sql,
         gomcp.sqlArgument request = Some sql
         /\ gomcp.logEnabled g = true
         /\ (HasPrefix (TrimSpace (ToUpper sql)) "SELECT"
             || HasPrefix (TrimSpace (ToUpper sql)) "SHOW"
             || HasPrefix (TrimSpace (ToUpper sql)) "DESCRIBE") = false
         /\ (String.length (TrimSpace (ToUpper sql)) < 10)%nat
         /\ snd (gomcp.handleQuery g request past) = past).
Proof.
  split.
  - intros [why Hpanic]. revert Hpanic. unfold gomcp.handleQuery.
    destruct (gomcp.sqlArgument request) as [sql|]; [|discriminate]. cbv zeta.
    destruct (HasPrefix _ "SELECT") eqn:Hs, (HasPrefix _ "SHOW") eqn:Hw,
      (HasPrefix _ "DESCRIBE") eqn:Hd;
      cbn [negb andb orb];
      try (unfold bind, sql.Query;
           destruct (sql.server_Query past (gomcp.db g) sql []) as [rows|e];
           [|discriminate];
           destruct (sql.rows_Columns rows) as [columns|e]; [|discriminate];
           destruct (gomcp.scanRows columns (sql.rows_fetched rows) []);
           [|discriminate];
           destruct (sql.rows_Err rows); [discriminate|];
           destruct (Marshal_results _); discriminate).
    unfold ret, gomcp.rejectLogged, slice_to. cbn [fst snd].
    destruct (gomcp.logEnabled g); [|discriminate].
    destruct (Nat.leb_spec 10 (String.length (TrimSpace (ToUpper sql))))
      as [Hlong|Hshort]; [discriminate|].
    intros _. exists sql. rewrite Hs, Hw, Hd. repeat split. exact Hshort.
  - intros (sql & Harg & Hlog & Hgate & Hshort & _).
    exists "slice bounds out of range".
    apply orb_false_iff in Hgate. destruct Hgate as [Hgate Hd].
    apply orb_false_iff in Hgate. destruct Hgate as [Hs Hw].
    unfold gomcp.handleQuery. rewrite Harg. cbv zeta. rewrite Hs, Hw, Hd.
    cbn [negb andb]. unfold ret, gomcp.rejectLogged, slice_to. rewrite Hlog.
    apply Nat.leb_gt in Hshort. rewrite Hshort. reflexivity.
Qed.

(** X26.  [handleExecute] panics exactly if logging is enabled and the
    argument is a string which, in upper case and trimmed, opens with DROP
    or TRUNCATE and is shorter than ten bytes ([DROP T], [TRUNCATE]);
    the permission flags play no part, and nothing has been sent. *)
Theorem handleExecute_panics_exactly (g : gomcp.Globals)
  (request : gomcp.CallToolRequest) (past : sql.history) :
  (exists why, fst (gomcp.handleExecute g request past) = gomcp.Panicked why)
  <-> (exists sql,
         gomcp.sqlArgument request = Some sql
         /\ gomcp.logEnabled g = true
         /\ forbidden (TrimSpace (ToUpper sql)) = true
         /\ (String.length (TrimSpace (ToUpper sql)) < 10)%nat
         /\ snd (gomcp.handleExecute g request past) = past).
Proof.
  split.
  - intros [why Hpanic]. revert Hpanic. unfold gomcp.handleExecute, forbidden.
    destruct (gomcp.sqlArgument request) as [sql|]; [|discriminate]. cbv zeta.
    destruct (HasPrefix _ "INSERT" && _); [discriminate|].
    destruct (HasPrefix _ "UPDATE" && _); [discriminate|].
    destruct (HasPrefix _ "DELETE" && _); [discriminate|].
    destruct (HasPrefix _ "DROP" || HasPrefix _ "TRUNCATE") eqn:Hkind.
    + unfold ret, gomcp.rejectLogged, slice_to. cbn [fst snd].
      destruct (gomcp.logEnabled g); [|discriminate].
      destruct (Nat.leb_spec 10 (String.length (TrimSpace (ToUpper sql))))
        as [Hlong|Hshort]; [discriminate|].
      intros _. exists sql. rewrite Hkind. repeat split. exact Hshort.
    + unfold bind, sql.Exec.
      destruct (sql.server_Exec past (gomcp.db g) sql []) as [result|e];
        [|discriminate].
      destruct (Marshal_response _ _); discriminate.
  - intros (sql & Harg & Hlog & Hkind & Hshort & _).
    exists "slice bounds out of range".
    rewrite (handleExecute_denylist g request sql past Harg Hkind).
    unfold gomcp.rejectLogged, slice_to. rewrite Hlog.
    apply Nat.leb_gt in Hshort. rewrite Hshort. reflexivity.
Qed.

End ToolsMore.

Set Warnings "-clear-no-such-hyp".

(** A name that is not among the columns is not touched. *)
Lemma fillRow_skip (columns : list string) (values : list sql.Value)
  (row : gmap string sql.Value) (col : string) :
  col ∉ columns ->
  gomcp.fillRow columns values row !! col = row !! col.
Proof.
  revert values row.
  induction columns as [|c columns IH]; intros [|v values] row Hnot;
    try reflexivity.
  cbn [gomcp.fillRow]. apply not_elem_of_cons in Hnot. destruct Hnot as [Hne Hnot].
  rewrite (IH values _ Hnot). apply lookup_insert_ne. congruence.
Qed.

Lemma fillRow_dom (columns : list string) (values : list sql.Value)
  (row : gmap string sql.Value) :
  length values = length columns ->
  dom (gomcp.fillRow columns values row) = list_to_set columns ∪ dom row.
Proof.
  revert values row.
  induction columns as [|c columns IH]; intros [|v values] row Hlen;
    try discriminate.
  - cbn. set_solver.
  - cbn [gomcp.fillRow]. injection Hlen as Hlen.
    rewrite (IH values _ Hlen), dom_insert_L. cbn. set_solver.
Qed.

Lemma size_list_to_set_le (l : list string) :
  (size (list_to_set l : gset string) <= length l)%nat.
Proof.
  induction l as [|x l IH]; cbn.
  - rewrite size_empty. lia.
  - destruct (decide (x ∈ l)) as [Hin|Hnot].
    + replace ({[x]} ∪ list_to_set l) with (list_to_set l : gset string)
        by set_solver.
      lia.
    + rewrite size_union by set_solver. rewrite size_singleton. lia.
Qed.

Lemma size_list_to_set_NoDup (l : list string) :
  size (list_to_set l : gset string) = length l <-> NoDup l.
Proof.
  split; [|apply size_list_to_set].
  induction l as [|x l IH]; intros Hsize; [constructor|].
  cbn in Hsize. pose proof (size_list_to_set_le l) as Hle.
  destruct (decide (x ∈ l)) as [Hin|Hnot].
  - replace ({[x]} ∪ list_to_set l) with (list_to_set l : gset string) in Hsize
      by set_solver.
    lia.
  - rewrite size_union, size_singleton in Hsize by set_solver.
    constructor; [exact Hnot|]. apply IH. lia.
Qed.

(** X27.  A row of [handleQuery] is a map from column name to cell: it has
    one entry for each name among the columns, so that it has as many
    entries as the cursor has columns only if no name comes twice; and
    under a name that comes more than once it keeps the cell of the last
    column of that name. *)
Theorem fillRow_keeps_the_last_cell_of_a_name (columns : list string)
  (values : list sql.Value) :
  length values = length columns ->
  dom (gomcp.fillRow columns values ∅) = list_to_set columns
  /\ (size (gomcp.fillRow columns values ∅) = length columns <-> NoDup columns)
  /\ (forall (i : nat) (col : string),
        columns !! i = Some col ->
        (forall j, (i < j)%nat -> columns !! j <> Some col) ->
        gomcp.fillRow columns values ∅ !! col
        = db.convertCell <$> values !! i).
Proof.
  intros Hlen.
  assert (Hdom : dom (gomcp.fillRow columns values ∅) = list_to_set columns).
  { rewrite fillRow_dom by exact Hlen. set_solver. }
  split; [exact Hdom|]. split.
  - rewrite <- size_dom, Hdom. apply size_list_to_set_NoDup.
  - clear Hdom. generalize (∅ : gmap string sql.Value) as row. revert values Hlen.
    induction columns as [|c columns IH]; intros [|v values] Hlen row i col Hi Hlast;
      try discriminate.
    injection Hlen as Hlen. cbn [gomcp.fillRow]. destruct i as [|i].
    + injection Hi as ->. cbn.
      rewrite fillRow_skip.
      * rewrite lookup_insert_eq. destruct v; reflexivity.
      * intros Hin. apply list_elem_of_lookup in Hin. destruct Hin as [j Hj].
        apply (Hlast (S j)); [lia|exact Hj].
    + cbn in Hi |- *. apply IH; [exact Hlen|exact Hi|].
      intros j Hij. apply (Hlast (S j)). lia.
Qed.

(** ** The go-mcp based server: from the environment to the handlers *)

(** X28.  For [getEnvWithDefault] a variable that is set to the empty
    string is a variable that is not set: both give the default, so that
    no variable can be given the empty string as its value. *)
Theorem getEnvWithDefault_empty_is_unset (env : os.environ)
  (key defaultValue : string) :
  gomcp_env.getEnvWithDefault (<[ key := "" ]> env) key defaultValue = defaultValue
  /\ gomcp_env.getEnvWithDefault (delete key env) key defaultValue = defaultValue
  /\ (gomcp_env.getEnvWithDefault env key defaultValue = "" -> defaultValue = "").
Proof.
  unfold gomcp_env.getEnvWithDefault, os.Getenv, os.environ in *. cbv zeta.
  rewrite lookup_insert_eq, lookup_delete_eq. repeat split.
  destruct (env !! key) as [v|]; [|intros H; exact H].
  destruct (String.eqb_spec v ""); [intros H; exact H|congruence].
Qed.

Section Environment.
Context {U : Unicode} {B : sql.Backend} {J : Marshal} {D : opening.Driver}.

(** X29.  The server that [main] starts refuses by default: unless the
    variable of a kind is set to exactly [true], a statement of that kind
    is refused and nothing is sent; [TRUE], [1] and [yes], which the
    configuration loader of pkg/config reads as true, do not grant it. *)
Theorem main_refuses_by_default (env : os.environ) (logOpens : bool)
  (g : gomcp.Globals) (request : gomcp.CallToolRequest) (sql : string)
  (variable keyword denial : string) (past : sql.history) :
  gomcp_env.main env logOpens = inl g ->
  In (variable, keyword, denial)
    [ ("ALLOW_INSERT", "INSERT", "no INSERT permission");
      ("ALLOW_UPDATE", "UPDATE", "no UPDATE permission");
      ("ALLOW_DELETE", "DELETE", "no DELETE permission") ] ->
  env !! variable <> Some "true" ->
  gomcp.sqlArgument request = Some sql ->
  HasPrefix (TrimSpace (ToUpper sql)) keyword = true ->
  gomcp.handleExecute g request past = (gomcp.Returned (None, Some denial), past).
Proof.
  intros Hmain Hkind Hvar Harg Hopens.
  assert (Hflag : String.eqb (gomcp_env.getEnvWithDefault env variable "false") "true"
                  = false).
  { unfold gomcp_env.getEnvWithDefault, os.Getenv. cbv zeta.
    destruct (env !! variable) as [v|]; [|reflexivity].
    destruct (String.eqb_spec v ""); [reflexivity|].
    apply String.eqb_neq. congruence. }
  unfold gomcp_env.main in Hmain. cbv zeta in Hmain.
  destruct (gomcp_env.initDB _) as [h|err]; [|discriminate].
  injection Hmain as <-.
  unfold gomcp.handleExecute. rewrite Harg. cbv zeta. cbn [gomcp.allowInsert
    gomcp.allowUpdate gomcp.allowDelete].
  revert Hopens. generalize (TrimSpace (ToUpper sql)). intros u Hopens.
  destruct Hkind as [E|[E|[E|[]]]]; injection E as <- <- <-;
    rewrite Hflag; opens_with Hopens; subst u;
    unfold HasPrefix; cbn; rewrite ?prefix_empty; reflexivity.
Qed.

End Environment.

(** ** The properties at concrete inputs *)

#[local] Existing Instance fixtures.driver.

(** [YES] is read as [yes] is. *)
Lemma parseBoolEnv_case_witness :
  loading.parseBoolEnv "YES" false = loading.parseBoolEnv "yes" false.
Proof. exact (parseBoolEnv_case "yes" false eq_refl). Defined.

(** The environment of [fixtures.environment] gives the one database
    [default], with the read permission. *)
Lemma LoadConfigFromEnv_invariants_witness :
  (forall name,
     is_Some (config.Databases fixtures.configuration !! name) <-> name = "default")
  /\ config.AllowQuery (config.Config_Permission fixtures.configuration) = true.
Proof.
  apply (LoadConfigFromEnv_invariants fixtures.environment fixtures.configuration).
  vm_compute. reflexivity.
Defined.

(** With [MYSQL_PORT=3307] the port is 3307. *)
Lemma LoadConfigFromEnv_port_witness :
  exists dbConfig,
    config.Databases fixtures.configuration !! "default" = Some dbConfig
    /\ (0 < config.Port dbConfig)%Z
    /\ (config.Port dbConfig = 3306%Z
        \/ strconv.Atoi (os.Getenv fixtures.environment "MYSQL_PORT")
           = Some (config.Port dbConfig)).
Proof.
  apply (LoadConfigFromEnv_port fixtures.environment fixtures.configuration).
  vm_compute. reflexivity.
Defined.

(** A password and a permission flag alone are not read. *)
Lemma LoadConfig_needs_host_or_user_witness :
  loading.LoadConfig
    (fixtures.env [("MYSQL_PASS", "secret"); ("ALLOW_DELETE", "true")]) os.NotExist
  = loading.LoadConfig ∅ os.NotExist.
Proof.
  exact (LoadConfig_needs_host_or_user
           (fixtures.env [("MYSQL_PASS", "secret"); ("ALLOW_DELETE", "true")])
           os.NotExist eq_refl eq_refl).
Defined.

(** A file with permissions and without databases gets the default
    database. *)
Lemma LoadConfig_has_database_witness :
  0 < size (config.Databases (demo.configOf (demo.permission true true false false))).
Proof.
  apply (LoadConfig_has_database ∅
           (os.Content
              (json.Wellformed
                 (json.Object
                    [ ("permission",
                        json.Object [ ("allow_query", json.Bool true);
                                      ("allow_insert", json.Bool true) ]) ])))).
  vm_compute. reflexivity.
Defined.

(** A file with a database and nothing else grants nothing. *)
Lemma LoadConfig_file_without_permission_witness :
  let cfg :=
    {| config.Databases := {[ "main" := fixtures.database ]};
       config.Config_Permission := loading.zeroPermission |} in
  config.Config_Permission cfg = loading.zeroPermission
  /\ forall (m : db.DBManager) dbName query args past,
       db.config m = cfg ->
       db.Query m dbName query args past
       = (db.Failed None (db.errorString "查询操作未被允许"), past).
Proof.
  apply (LoadConfig_file_without_permission ∅
           [ ("databases",
               json.Object
                 [ ("main",
                     json.Object [ ("host", json.Str "db.internal");
                                   ("port", json.Number "3307");
                                   ("user", json.Str "root");
                                   ("dbname", json.Str "test") ]) ]) ]).
  - vm_compute. reflexivity.
  - vm_compute. reflexivity.
  - vm_compute. reflexivity.
Defined.

(** The database of [fixtures.configuration] opens: there is a manager. *)
Lemma NewDBManager_all_or_nothing_witness :
  (exists m, opening.NewDBManager fixtures.configuration
               [("default", fixtures.database)] = inl m)
  <-> (forall name dbConfig,
         config.Databases fixtures.configuration !! name = Some dbConfig ->
         opening.reachable dbConfig).
Proof.
  apply (NewDBManager_all_or_nothing fixtures.configuration
           [("default", fixtures.database)]).
  vm_compute. reflexivity.
Defined.

Lemma NewDBManager_GetDB_witness :
  db.config fixtures.manager = fixtures.configuration
  /\ (forall name,
        db.connections fixtures.manager !! name
        = match config.Databases fixtures.configuration !! name with
          | Some dbConfig => opening.handleOf dbConfig
          | None => None
          end)
  /\ (forall name,
        (exists h, db.GetDB fixtures.manager name = inl h)
        <-> is_Some (config.Databases fixtures.configuration !! name)).
Proof.
  apply (NewDBManager_GetDB fixtures.configuration
           [("default", fixtures.database)] fixtures.manager).
  - vm_compute. reflexivity.
  - vm_compute. reflexivity.
Defined.

Lemma env_config_has_default_connection_witness :
  exists h, db.GetDB fixtures.manager "default" = inl h.
Proof.
  apply (env_config_has_default_connection fixtures.environment
           fixtures.configuration [("default", fixtures.database)] fixtures.manager).
  - vm_compute. reflexivity.
  - vm_compute. reflexivity.
  - vm_compute. reflexivity.
Defined.

(** No connection is configured under [reports]. *)
Lemma gateway_unknown_connection_witness :
  db.Query (demo.gateway (demo.permission true false false false))
    "reports" "SELECT 1" [] []
  = (db.Failed
       (Some (db.queryFailed (db.errorString "数据库 reports 未配置")))
       (db.errorString "数据库 reports 未配置"), [])
  /\ db.Execute (demo.gateway (demo.permission true false false false))
       "reports" "INSERT INTO t VALUES (1)" [] []
     = (db.Failed None (db.errorString "插入操作未被允许"), []).
Proof.
  split.
  - exact (proj1 (gateway_unknown_connection
                    (demo.gateway (demo.permission true false false false))
                    "reports" "SELECT 1" [] [] eq_refl)).
  - exact (proj2 (gateway_unknown_connection
                    (demo.gateway (demo.permission true false false false))
                    "reports" "INSERT INTO t VALUES (1)" [] [] eq_refl)).
Defined.

(** With and without the read permission a SELECT is executed alike. *)
Lemma Execute_ignores_read_permission_witness :
  db.Execute (demo.gateway (demo.permission false false false false))
    "default" "SELECT 1" []
  = db.Execute (demo.gateway (demo.permission true false false false))
      "default" "SELECT 1" [].
Proof.
  exact (proj1
           (Execute_ignores_read_permission
              (demo.gateway (demo.permission true false false false))
              (demo.gateway (demo.permission false false false false))
              "default" "SELECT 1" [] eq_refl)
           eq_refl eq_refl eq_refl).
Defined.

(** The dispatcher does not know the tool names of the go-mcp server. *)
Lemma unknown_tool_is_refused_witness :
  mcp.handleMessage (demo.server (demo.permission true true true true))
    (fixtures.call "mysql_query" "arguments"
       (json.Object [("sql", json.Str "SELECT 1")]))
    demo.start
  = (tt, {| mcp.past := [];
            mcp.stdout := [mcp.errorEnvelope (Some (json.Number "3")) (-32601)
                             "不支持的工具" (Some (mcp.GoString "mysql_query"))] |}).
Proof.
  apply (unknown_tool_is_refused (demo.server (demo.permission true true true true))
           (fixtures.call "mysql_query" "arguments"
              (json.Object [("sql", json.Str "SELECT 1")]))
           "mysql_query" (json.Object [("sql", json.Str "SELECT 1")]) demo.start).
  - reflexivity.
  - reflexivity.
  - discriminate.
  - discriminate.
Defined.

(** A [tools/call] with its arguments under [params]. *)
Lemma call_shapes_do_not_mix_witness :
  mcp.handleMessage (demo.server (demo.permission true true true true))
    (fixtures.call "mcp_mysql_execute" "params"
       (json.Object [("sql", json.Str "DELETE FROM t")]))
    demo.start
  = (tt, {| mcp.past := [];
            mcp.stdout := [mcp.errorEnvelope (Some (json.Number "3")) (-32602)
                             "无效SQL参数"
                             (Some (mcp.ErrorText
                                      (json.SyntaxError
                                         "unexpected end of JSON input")))] |}).
Proof.
  apply (call_shapes_do_not_mix (demo.server (demo.permission true true true true))
           (fixtures.call "mcp_mysql_execute" "params"
              (json.Object [("sql", json.Str "DELETE FROM t")]))
           "params" (json.Object [("sql", json.Str "DELETE FROM t")]) demo.start).
  - left. split; reflexivity.
  - reflexivity.
Defined.

(** A number for [sql]. *)
Lemma wrong_sql_type_is_refused_witness :
  exists err,
    mcp.handleMySQLExecute (demo.server (demo.permission true true true true))
      (Some (json.Number "3")) (Some (json.Object [("sql", json.Number "1")]))
      demo.start
    = (tt, {| mcp.past := [];
              mcp.stdout := [mcp.errorEnvelope (Some (json.Number "3")) (-32602)
                               "无效SQL参数" (Some (mcp.ErrorText err))] |}).
Proof.
  apply (wrong_sql_type_is_refused (demo.server (demo.permission true true true true))
           (Some (json.Number "3")) (json.Object [("sql", json.Number "1")])
           demo.start).
  apply Exists_cons_hd. split; [reflexivity|exact I].
Defined.

(** [SQL] after [sql]: the statement is the one under [SQL]. *)
Lemma sql_member_last_spelling_wins_witness :
  mcp.Unmarshal_SQLParams
    (json.Wellformed (json.Object [ ("sql", json.Str "SELECT 1");
                                    ("SQL", json.Str "DROP TABLE t") ]))
  = inl {| mcp.SQL := "DROP TABLE t" |}.
Proof.
  apply (sql_member_last_spelling_wins [("sql", json.Str "SELECT 1")]
           "SQL" "DROP TABLE t").
  - reflexivity.
  - repeat constructor.
Defined.

(** The logger of a server that is not in debug mode. *)
Lemma NewLogger_destinations_witness :
  snd (logging.Errorf
         {| logging.debugMode := false; logging.logFile := false;
            logging.logger := Some logging.Stderr |}
         "boom" [])
  = [ {| logging.to := logging.Stderr; logging.stamped := true;
         logging.text := "[ERROR] boom" |};
      {| logging.to := logging.Stderr; logging.stamped := false;
         logging.text := "[ERROR] boom" +:+ String "010" "" |} ].
Proof.
  exact (proj1 (proj2
    (NewLogger_destinations false None
       {| logging.debugMode := false; logging.logFile := false;
          logging.logger := Some logging.Stderr |}
       [] [] eq_refl "boom" []))).
Defined.

(** [Select] with a capital S alone, on a gateway without any permission. *)
Lemma console_executes_SELECT_in_mixed_case_witness :
  console.past
    (snd (console.handleSQL fixtures.console "Select(1)"
            {| console.past := []; console.printed := [] |}))
  = [sql.CallExec ("root@tcp(localhost:3306)/test" : sql.DB)
       "Select(1)" []].
Proof.
  exact (console_executes_SELECT_in_mixed_case fixtures.console
           "Select(1)" _
           {| console.past := []; console.printed := [] |}
           eq_refl eq_refl eq_refl eq_refl).
Defined.

(** Two columns of the name [id]: one entry, the cell of the second. *)
Lemma fillRow_keeps_the_last_cell_of_a_name_witness :
  gomcp.fillRow ["id"; "id"] [sql.VInt 1; sql.VBytes "7"] ∅ !! "id"
  = Some (sql.VString "7").
Proof.
  apply (proj2 (proj2
    (fillRow_keeps_the_last_cell_of_a_name ["id"; "id"]
       [sql.VInt 1; sql.VBytes "7"] eq_refl)) 1%nat "id").
  - reflexivity.
  - intros [|[|j]] Hj; [lia|lia|discriminate].
Defined.

(** [ALLOW_INSERT=TRUE] does not grant INSERT. *)
Lemma main_refuses_by_default_witness :
  gomcp.handleExecute
    {| gomcp.db := ("root:password@tcp(127.0.0.1:3306)/test" : sql.DB);
       gomcp.allowInsert := false; gomcp.allowUpdate := false;
       gomcp.allowDelete := false; gomcp.logEnabled := false |}
    (demo.request "insert into t values (1)") []
  = (gomcp.Returned (None, Some "no INSERT permission"), []).
Proof.
  apply (main_refuses_by_default (fixtures.env [("ALLOW_INSERT", "TRUE")]) false
           _ (demo.request "insert into t values (1)") "insert into t values (1)"
           "ALLOW_INSERT" "INSERT").
  - reflexivity.
  - left. reflexivity.
  - vm_compute. discriminate.
  - reflexivity.
  - reflexivity.
Defined.
